(** * Binance-trader: the per-symbol decision engine of [5.py]

    A shallow embedding of the trading script and the properties of its
    decision engine.

    Numbers.  Every price, balance and percentage of the script is a Python
    [float], that is an IEEE-754 binary64 value.  They are modelled by Rocq's
    primitive floats, which are binary64 values with the same arithmetic
    (round to nearest, ties to even) and the same comparisons (every
    comparison with NaN is false, [0.0 == -0.0]).  JSON numbers of the
    configuration are taken as floats; Python compares and divides an [int]
    of the configuration as the float of the same value.

    Effects.  The files [<symbol>_purchase_price.txt] are a finite map from
    file names to contents; the exchange is a record of the answers of the
    client for the cycle, one for each request the cycle can make; orders
    sent and lines printed are appended to the world.  Exceptions are the
    [Raise] results of a state-and-error monad.

    Indicators.  What pandas and pandas_ta compute is given by a record
    of parameters: the rolling mean and standard deviation, the values of
    the RSI, and the number of rows [ta.rsi] asks for.  The script's use of
    them is modelled: the window and its undefined first rows, the RSI
    column and its last row, [None] for a history that is too short.

    The loop.  [main] runs the symbols of the configuration one after the
    other, prints a separator and sleeps, for ever; it is given through any
    finite number of rounds, each with the answers of the exchange and the
    time of its separator. *)

From Stdlib Require Import ZArith Lia Bool List String Ascii Floats.
From stdpp Require Import base option strings gmap.

Set Warnings "-inexact-float".
Local Open Scope Z_scope.

(* ===================================================================== *)
(** * Python values: exceptions, results, float helpers                   *)
(* ===================================================================== *)

(** The exceptions the modelled code can raise. [ExchangeError] stands for
    whatever the Binance client raises (network, rejection, rate limit). *)
Inductive exn : Type :=
  | IndexError
  | TypeError
  | ValueError
  | OverflowError
  | ZeroDivisionError
  | ExchangeError.

Inductive result (A : Type) : Type :=
  | Ok (a : A)
  | Raise (e : exn).
Arguments Ok {A} a.
Arguments Raise {A} e.

Definition result_bind {A B : Type} (r : result A) (k : A -> result B) : result B :=
  match r with
  | Ok a => k a
  | Raise e => Raise e
  end.

(** Truth value of a Python float: [bool(x)] is [x != 0.0]; NaN is true,
    both zeros are false. *)
Definition truthy (x : float) : bool := negb (PrimFloat.eqb x 0%float).

(** Truth value of [purchase_price], which is [None] or a float. *)
Definition truthy_opt (p : option float) : bool :=
  match p with
  | None => false
  | Some x => truthy x
  end.

(** Python's true division of floats raises on a zero divisor. *)
Definition py_truediv (x y : float) : result float :=
  if PrimFloat.eqb y 0%float then Raise ZeroDivisionError else Ok (x / y)%float.

(** [int(x)]: truncation towards zero. *)
Definition py_int (x : float) : result Z :=
  match Prim2SF x with
  | S754_nan => Raise ValueError
  | S754_infinity _ => Raise OverflowError
  | S754_zero _ => Ok 0
  | S754_finite s m e => Ok (cond_Zopp s (Z.shiftl (Zpos m) e))
  end.

(** [n / d] rounded to the nearest integer, ties to the even one
    ([0 <= n], [0 < d]). *)
Definition round_half_even (n d : Z) : Z :=
  let q := n / d in
  match 2 * (n mod d) ?= d with
  | Lt => q
  | Gt => q + 1
  | Eq => if Z.even q then q else q + 1
  end.

(** [round(x)]: the nearest integer, ties to even. *)
Definition py_round (x : float) : result Z :=
  match Prim2SF x with
  | S754_nan => Raise ValueError
  | S754_infinity _ => Raise OverflowError
  | S754_zero _ => Ok 0
  | S754_finite s m e =>
      Ok (cond_Zopp s (if 0 <=? e then Zpos m * 2 ^ e
                       else round_half_even (Zpos m) (2 ^ (- e))))
  end.

(* ===================================================================== *)
(** * Fixed-point rendering [f"{x:.8f}"] and [float(text)]                *)
(* ===================================================================== *)

Definition digit_char (d : Z) : ascii := ascii_of_nat (48 + Z.to_nat d).

Definition digit_of_char (c : ascii) : option Z :=
  let n := Z.of_nat (nat_of_ascii c) in
  if (48 <=? n) && (n <=? 57) then Some (n - 48) else None.

(** The [k] least significant decimal digits of [n], most significant first. *)
Fixpoint decimal_digits (k : nat) (n : Z) : list ascii :=
  match k with
  | O => []
  | S k' => decimal_digits k' (n / 10) ++ [digit_char (n mod 10)]
  end.

(** How many decimal digits [n] takes (at least one). *)
Fixpoint count_digits (fuel : nat) (n : Z) : nat :=
  match fuel with
  | O => 1
  | S fuel' => if n <? 10 then 1%nat else S (count_digits fuel' (n / 10))
  end.

Definition integer_digits (n : Z) : list ascii :=
  decimal_digits (count_digits (Z.to_nat (Z.log2 n)) n) n.

(** The value of a run of decimal digits; [None] if a character is not one. *)
Definition digits_value (l : list ascii) : option Z :=
  fold_left (fun acc c =>
               match acc, digit_of_char c with
               | Some a, Some d => Some (10 * a + d)
               | _, _ => None
               end) l (Some 0).

(** [|m * 2^e| * 10^k] rounded to an integer, ties to even: Python renders
    the exact binary value, correctly rounded. *)
Definition scaled_decimal (k : nat) (m : positive) (e : Z) : Z :=
  if 0 <=? e then Zpos m * 2 ^ e * 10 ^ Z.of_nat k
  else round_half_even (Zpos m * 10 ^ Z.of_nat k) (2 ^ (- e)).

Definition sign_text (s : bool) : list ascii := if s then ["-"%char] else [].

Definition fixed_text (k : nat) (s : bool) (n : Z) : list ascii :=
  sign_text s ++ integer_digits (n / 10 ^ Z.of_nat k)
              ++ ["."%char] ++ decimal_digits k (n mod 10 ^ Z.of_nat k).

(** [f"{x:.kf}"] *)
Definition format_fixed (k : nat) (x : float) : string :=
  string_of_list_ascii
    match Prim2SF x with
    | S754_nan => list_ascii_of_string "nan"
    | S754_infinity s => sign_text s ++ list_ascii_of_string "inf"
    | S754_zero s => fixed_text k s 0
    | S754_finite s m e => fixed_text k s (scaled_decimal k m e)
    end.

(** The binary64 value nearest to [(-1)^s * num / 10^k]. *)
Definition decimal_to_float (s : bool) (num : Z) (k : nat) : float :=
  match num with
  | Zpos p =>
      SF2Prim (SFdiv prec emax (S754_finite s p 0)
                               (S754_finite false (Z.to_pos (10 ^ Z.of_nat k)) 0))
  | _ => SF2Prim (S754_zero s)
  end.

Definition is_space (c : ascii) : bool :=
  let n := nat_of_ascii c in
  (Nat.eqb n 32 || (Nat.leb 9 n && Nat.leb n 13))%bool.

Fixpoint lstrip (l : list ascii) : list ascii :=
  match l with
  | c :: l' => if is_space c then lstrip l' else l
  | [] => []
  end.

(** [text.strip()] *)
Definition strip (l : list ascii) : list ascii := rev (lstrip (rev (lstrip l))).

(** Splits at the first ['.']. *)
Fixpoint split_point (l : list ascii) : list ascii * option (list ascii) :=
  match l with
  | [] => ([], None)
  | c :: l' =>
      if Ascii.eqb c "."%char then ([], Some l')
      else let '(i, f) := split_point l' in (c :: i, f)
  end.

Definition unsigned_of_text (s : bool) (l : list ascii) : option float :=
  if String.eqb (string_of_list_ascii l) "nan" then Some nan
  else if String.eqb (string_of_list_ascii l) "inf"
  then Some (if s then neg_infinity else infinity)
  else
    let '(ip, fp) := split_point l in
    let fp := default [] fp in
    match ip with
    | [] => None
    | _ =>
        match digits_value ip, digits_value fp with
        | Some i, Some f =>
            Some (decimal_to_float s (i * 10 ^ Z.of_nat (length fp) + f) (length fp))
        | _, _ => None
        end
    end.

(** [float(text)] on the texts [write_purchase_price] writes to a price
    file, and on blank ones: a minus sign or none, digits, and optionally a
    point and more digits; [nan] and [inf]; a text that is empty once
    stripped is a [ValueError].  Python reads more texts than these (a plus
    sign, no digit before the point, exponents, underscores, other spellings
    of [inf] and [nan]): for them this definition gives [ValueError] and is
    not Python's [float]. *)
Definition float_of_text (l : list ascii) : result float :=
  let l := strip l in
  let r := match l with
           | c :: l' => if Ascii.eqb c "-"%char then unsigned_of_text true l'
                        else unsigned_of_text false l
           | [] => None
           end in
  match r with
  | Some x => Ok x
  | None => Raise ValueError
  end.

(* ===================================================================== *)
(** * The purchase-price files                                            *)
(* ===================================================================== *)

(** [f"{symbol}_purchase_price.txt"] *)
Definition purchase_price_file (symbol : string) : string :=
  symbol +:+ "_purchase_price.txt".

(** [write_purchase_price]: opening with mode ["w"] replaces the content. *)
Definition write_purchase_price (symbol : string) (price : float)
    (files : gmap string string) : gmap string string :=
  <[purchase_price_file symbol := format_fixed 8 price]> files.

(** [read_purchase_price]: [None] when the file does not exist. *)
Definition read_purchase_price (symbol : string)
    (files : gmap string string) : result (option float) :=
  match files !! purchase_price_file symbol with
  | None => Ok None
  | Some text => result_bind (float_of_text (list_ascii_of_string text))
                             (fun x => Ok (Some x))
  end.

(** [clear_purchase_price]: removes the file if it exists. *)
Definition clear_purchase_price (symbol : string)
    (files : gmap string string) : gmap string string :=
  if bool_decide (is_Some (files !! purchase_price_file symbol))
  then delete (purchase_price_file symbol) files
  else files.

(* ===================================================================== *)
(** * Exit and entry policies                                             *)
(* ===================================================================== *)

Definition dynamic_rsi_threshold (current_price upper_band lower_band : float) : Z :=
  if (upper_band <? current_price)%float then 30
  else if (current_price <? lower_band)%float then 24
  else 27.

Definition should_sell_with_trailing_stop
    (purchase_price current_price profit_target trailing_stop : float) : bool :=
  let target_price := (purchase_price * (1 + profit_target / 100))%float in
  let trailing_price := (current_price * (1 - trailing_stop / 100))%float in
  (target_price <=? current_price)%float && (purchase_price <? trailing_price)%float.

(** Line 141 of [process_symbol]:
    [((current_price - purchase_price) / purchase_price) * 100 if purchase_price else 0]. *)
Definition profit_percentage (purchase_price : option float)
    (current_price : float) : result float :=
  match purchase_price with
  | Some p =>
      if truthy p
      then result_bind (py_truediv (current_price - p) p)
                       (fun q => Ok (q * 100)%float)
      else Ok 0%float
  | None => Ok 0%float
  end.

(** The condition of the [if] of line 144. *)
Definition take_profit (purchase_price : option float) (profit profit_target : float) : bool :=
  truthy_opt purchase_price && (profit_target <=? profit)%float.

(** The condition of the [elif] of line 148. *)
Definition trailing_stop_fires (purchase_price : option float)
    (current_price profit_target trailing_stop : float) : bool :=
  match purchase_price with
  | Some p =>
      truthy p && should_sell_with_trailing_stop p current_price profit_target trailing_stop
  | None => false
  end.

(** The condition of the [if] of line 166; [rsi_threshold] is one of the
    integers of [dynamic_rsi_threshold], compared as a float. *)
Definition buy_condition (rsi rsi_threshold balance_in_usd : float) : bool :=
  (rsi <? rsi_threshold)%float && (balance_in_usd <? 1)%float.

(** The float of a small integer (the three thresholds are exact). *)
Definition float_of_Z (z : Z) : float :=
  SF2Prim (binary_normalize prec emax z 0 false).

(* ===================================================================== *)
(** * Signals: pandas rolling windows and the RSI column                  *)
(* ===================================================================== *)

(** [series.iloc[-1]]: the last row; [IndexError] on an empty series. *)
Definition iloc_last {A : Type} (s : list A) : result A :=
  match last s with
  | Some a => Ok a
  | None => Raise IndexError
  end.

(** [series.rolling(window=window).agg()]: row [i] is NaN until [window]
    observations are available ([min_periods] defaults to [window]).  From
    then on pandas keeps a running aggregate, adding the new row and
    removing the one that leaves the window, so that the value of row [i]
    is a function of all the rows up to [i], not of the last [window] alone:
    [agg] receives the window and these rows. *)
Definition rolling (window : nat) (agg : nat -> list float -> float)
    (s : list float) : list float :=
  map (fun i : nat =>
         if (S i <? window)%nat then nan
         else agg window (firstn (S i) s))
      (seq 0 (length s)).

(** What pandas and pandas_ta compute is not code of the script: the
    rolling aggregates and the values of the RSI series are parameters. *)
Record pandas : Type := {
  (** the rolling mean at the last of the rows given, for a window *)
  window_mean : nat -> list float -> float;
  (** the rolling sample standard deviation at the last of the rows given *)
  window_std : nat -> list float -> float;
  (** the RSI of pandas_ta at the last of the rows given, for a length *)
  rsi_value : Z -> list float -> float;
  (** whether this release of pandas_ta asks [ta.rsi] for one row more than
      the length *)
  rsi_extra_row : bool;
}.

(** The length pandas_ta takes for [ta.rsi(close, length=period)]:
    [int(length) if length and length > 0 else 14]. *)
Definition rsi_length (period : Z) : Z := if 0 <? period then period else 14.

(** The number of rows below which [ta.rsi] gives no series: the length,
    or one more. *)
Definition rsi_min_rows (pd : pandas) (period : Z) : Z :=
  rsi_length period + (if rsi_extra_row pd then 1 else 0).

(** [ta.rsi(close, length=period)].  pandas_ta answers [None] instead of a
    series when [close] has fewer rows than it asks for.  Else it answers a
    series over the rows of [close]: the averages of the gains and losses
    are exponential means with [min_periods=length] over the differences of
    consecutive closes, so that the rows before the row [length] are NaN. *)
Definition ta_rsi (pd : pandas) (close : list float) (period : Z) : option (list float) :=
  let rows := List.length close in
  if Z.of_nat rows <? rsi_min_rows pd period then None
  else Some (map (fun i : nat =>
                    if Z.of_nat i <? rsi_length period then nan
                    else rsi_value pd (rsi_length period) (firstn (S i) close))
                 (seq 0 rows)).

(** [calculate_bollinger_bands(prices, window=20, std_dev=2)] *)
Definition calculate_bollinger_bands (pd : pandas) (prices : list float)
    (window : nat) (std_dev : float) : result (float * float) :=
  let rolling_mean := rolling window (window_mean pd) prices in
  let rolling_std := rolling window (window_std pd) prices in
  let upper_band := zip_with (fun m s => m + s * std_dev)%float rolling_mean rolling_std in
  let lower_band := zip_with (fun m s => m - s * std_dev)%float rolling_mean rolling_std in
  result_bind (iloc_last upper_band) (fun u =>
  result_bind (iloc_last lower_band) (fun l => Ok (u, l))).

(** [df["RSI"] = value]: a column over the rows of [df]. [None] fills the
    column with [None]; a series is aligned on the row labels [0..n-1]:
    missing rows are NaN, rows beyond the frame are dropped. *)
Definition assign_column (rows : nat) (value : option (list float)) : list (option float) :=
  match value with
  | None => replicate rows None
  | Some s => map (fun i : nat => Some (default nan (s !! i))) (seq 0 rows)
  end.

(** [calculate_rsi(prices, period)]: the last row of the RSI column, which
    is [None] or a float. *)
Definition calculate_rsi (pd : pandas) (prices : list float) (period : Z) : result (option float) :=
  iloc_last (assign_column (length prices) (ta_rsi pd prices period)).

(* ===================================================================== *)
(** * The world of one cycle: exchange, files, orders, console            *)
(* ===================================================================== *)

(** A quantity sent with a buy order: [int(q)] and [round(q)] are Python
    integers, the unrounded quantity is a float. *)
Inductive quantity : Type :=
  | QInt (z : Z)
  | QFloat (x : float).

(** The orders submitted to the exchange. *)
Inductive order : Type :=
  | MarketSell (symbol : string) (qty : float)
  | MarketBuy (symbol : string) (qty : quantity).

(** The lines [process_symbol] and the order helpers print. *)
Inductive line : Type :=
  | HeaderLine (symbol : string)
  | BalanceLine (symbol : string) (balance : float)
  | PriceLine (current_price : float)
  | PurchasePriceLine (purchase_price : float)
  | ProfitLine (profit : float)
  | TargetReachedLine (symbol : string)
  | TrailingStopLine (symbol : string)
  | NotReachedLine
  | BelowDustLine
  | SellingLine (qty : float) (symbol : string)
  | RsiLine (rsi : float) (signal : bool) (rsi_threshold : Z)
  | ConditionsMetLine (symbol : string)
  | PlacingBuyLine (qty : quantity) (symbol : string) (price : float)
  | FooterLine
  | ErrorLine (symbol : string) (e : exn).

(** What the Binance client answers during the cycle.  The ticker is asked
    once by [process_symbol] (line 126) and, in a cycle that buys, once more
    by [place_buy_order] (line 67): the second answer is a field of its own,
    it need not be the first one. *)
Record Exchange : Type := {
  (** [client.get_account()['balances']]: asset and free amount *)
  get_account : result (list (string * float));
  (** [float(client.get_symbol_ticker(symbol)["price"])], first request *)
  get_symbol_ticker : string -> result float;
  (** the close prices of [client.get_klines(symbol, interval, limit)] *)
  get_klines : string -> result (list float);
  order_market_sell : string -> float -> result unit;
  order_market_buy : string -> quantity -> result unit;
  (** [float(client.get_symbol_ticker(symbol)["price"])], second request *)
  get_symbol_ticker_again : string -> result float;
}.

(** The client once the first ticker request is answered: the next request
    gets the second answer. *)
Definition at_buy (ex : Exchange) : Exchange :=
  {| get_account := get_account ex;
     get_symbol_ticker := get_symbol_ticker_again ex;
     get_klines := get_klines ex;
     order_market_sell := order_market_sell ex;
     order_market_buy := order_market_buy ex;
     get_symbol_ticker_again := get_symbol_ticker_again ex |}.

(** One entry of [config["symbols"]]. *)
Record SymbolData : Type := {
  sd_symbol : string;
  sd_rounding : string;
  sd_amount_usdt : float;
}.

(** The parameters read from [config.json]. *)
Record Config : Type := {
  RSI_PERIOD : Z;
  TRAILING_STOP : float;
  PROFIT_TARGET : float;
}.

Record World : Type := {
  files : gmap string string;
  orders : list order;
  console : list line;
}.

(** State and exceptions: an exception keeps the effects made before it. *)
Definition M (A : Type) : Type := World -> result A * World.

Definition ret {A : Type} (a : A) : M A := fun w => (Ok a, w).

Definition bind {A B : Type} (m : M A) (k : A -> M B) : M B :=
  fun w => match m w with
           | (Ok a, w') => k a w'
           | (Raise e, w') => (Raise e, w')
           end.

Notation "'do' x <- m ; k" := (bind m (fun x => k))
  (at level 10, x pattern, m at level 100, k at level 200).
Notation "m ;; k" := (bind m (fun _ => k))
  (at level 100, k at level 200, right associativity).

Definition lift {A : Type} (r : result A) : M A := fun w => (r, w).

Definition print (l : line) : M unit :=
  fun w => (Ok tt, {| files := files w; orders := orders w; console := console w ++ [l] |}).

Definition submit (o : order) : M unit :=
  fun w => (Ok tt, {| files := files w; orders := orders w ++ [o]; console := console w |}).

Definition update_files (f : gmap string string -> gmap string string) : M unit :=
  fun w => (Ok tt, {| files := f (files w); orders := orders w; console := console w |}).

Definition with_files {A : Type} (f : gmap string string -> result A) : M A :=
  fun w => (f (files w), w).

Definition when (b : bool) (m : M unit) : M unit := if b then m else ret tt.

(** [symbol.replace('USDT', '')]: every occurrence, left to right. *)
Fixpoint remove_USDT (s : string) : string :=
  match s with
  | String "U" (String "S" (String "D" (String "T" rest))) => remove_USDT rest
  | String c rest => String c (remove_USDT rest)
  | EmptyString => EmptyString
  end.

Fixpoint find_free (asset : string) (balances : list (string * float)) : float :=
  match balances with
  | [] => 0%float
  | (a, free) :: rest => if String.eqb a asset then free else find_free asset rest
  end.

Definition check_if_symbol_in_balance (ex : Exchange) (symbol : string) : result float :=
  result_bind (get_account ex) (fun balances =>
  Ok (find_free (remove_USDT symbol) balances)).

Definition get_price (ex : Exchange) (symbol : string) : result float :=
  get_symbol_ticker ex symbol.

Definition get_historical_klines (ex : Exchange) (symbol : string) : result (list float) :=
  get_klines ex symbol.

Definition place_sell_order (ex : Exchange) (symbol : string) (qty : float) : M unit :=
  print (SellingLine qty symbol) ;;
  submit (MarketSell symbol qty) ;;
  lift (order_market_sell ex symbol qty).

Definition round_quantity (rounding : string) (q : float) : result quantity :=
  if String.eqb rounding "floor" then result_bind (py_int q) (fun z => Ok (QInt z))
  else if String.eqb rounding "round" then result_bind (py_round q) (fun z => Ok (QInt z))
  else Ok (QFloat q).

Definition place_buy_order (ex : Exchange) (symbol : string)
    (amount_usdt : float) (rounding : string) : M unit :=
  do price <- lift (get_price ex symbol);
  do q <- lift (py_truediv amount_usdt price);
  do qty <- lift (round_quantity rounding q);
  print (PlacingBuyLine qty symbol price) ;;
  submit (MarketBuy symbol qty) ;;
  lift (order_market_buy ex symbol qty) ;;
  update_files (write_purchase_price symbol price).

(** Lines 140-155: the profit check. *)
Definition profit_check (cfg : Config) (ex : Exchange) (symbol : string)
    (balance current_price balance_in_usd : float) (purchase_price : option float) : M unit :=
  if (1 <? balance_in_usd)%float then
    do profit <- lift (profit_percentage purchase_price current_price);
    print (ProfitLine profit) ;;
    if take_profit purchase_price profit (PROFIT_TARGET cfg) then
      print (TargetReachedLine symbol) ;;
      place_sell_order ex symbol balance ;;
      update_files (clear_purchase_price symbol)
    else if trailing_stop_fires purchase_price current_price (PROFIT_TARGET cfg) (TRAILING_STOP cfg) then
      print (TrailingStopLine symbol) ;;
      place_sell_order ex symbol balance ;;
      update_files (clear_purchase_price symbol)
    else
      print NotReachedLine
  else
    print BelowDustLine.

(** [f"RSI: {rsi:.2f} (Dynamic Buy Signal: {rsi < rsi_threshold}, ...)"]:
    formatting [None] with [.2f] is a [TypeError]. *)
Definition rsi_line (rsi : option float) (rsi_threshold : Z) : result (float * line) :=
  match rsi with
  | Some r => Ok (r, RsiLine r (r <? float_of_Z rsi_threshold)%float rsi_threshold)
  | None => Raise TypeError
  end.

(** Lines 157-168: the indicators and the buy check. *)
Definition entry_check (cfg : Config) (pd : pandas) (ex : Exchange)
    (symbol_data : SymbolData) (current_price balance_in_usd : float) : M unit :=
  let symbol := sd_symbol symbol_data in
  do prices <- lift (get_historical_klines ex symbol);
  do bands <- lift (calculate_bollinger_bands pd prices 20 2);
  let rsi_threshold := dynamic_rsi_threshold current_price (fst bands) (snd bands) in
  do rsi <- lift (calculate_rsi pd prices (RSI_PERIOD cfg));
  do shown <- lift (rsi_line rsi rsi_threshold);
  print (snd shown) ;;
  when (buy_condition (fst shown) (float_of_Z rsi_threshold) balance_in_usd)
       (print (ConditionsMetLine symbol) ;;
        place_buy_order (at_buy ex) symbol
          (sd_amount_usdt symbol_data) (sd_rounding symbol_data)).

(** The body of the [try] of [process_symbol]. *)
Definition process_symbol_body (cfg : Config) (pd : pandas) (ex : Exchange)
    (symbol_data : SymbolData) : M unit :=
  let symbol := sd_symbol symbol_data in
  do balance <- lift (check_if_symbol_in_balance ex symbol);
  do current_price <- lift (get_price ex symbol);
  do purchase_price <- with_files (read_purchase_price symbol);
  let balance_in_usd := (balance * current_price)%float in
  print (HeaderLine symbol) ;;
  print (BalanceLine symbol balance) ;;
  print (PriceLine current_price) ;;
  when (truthy_opt purchase_price) (print (PurchasePriceLine (default nan purchase_price))) ;;
  profit_check cfg ex symbol balance current_price balance_in_usd purchase_price ;;
  entry_check cfg pd ex symbol_data current_price balance_in_usd ;;
  print FooterLine.

(** [process_symbol]: any exception is caught and reported. *)
Definition process_symbol (cfg : Config) (pd : pandas) (ex : Exchange)
    (symbol_data : SymbolData) (w : World) : World :=
  match process_symbol_body cfg pd ex symbol_data w with
  | (Ok _, w') => w'
  | (Raise e, w') =>
      {| files := files w'; orders := orders w';
         console := console w' ++ [ErrorLine (sd_symbol symbol_data) e] |}
  end.

(* ===================================================================== *)
(** * The loop of [main]                                                  *)
(* ===================================================================== *)

(** What the outside gives during one round of the loop: the answers of the
    client while the [i]-th symbol of the configuration is processed, and
    the text [time.strftime] returns for the separator. *)
Record Round : Type := {
  exchange_at : nat -> Exchange;
  strftime : string;
}.

(** The lines of the console of [main]: those of [process_symbol] and the
    row of stars with the time. *)
Inductive main_line : Type :=
  | SymbolLine (l : line)
  | SeparatorLine (now : string).

Record MainWorld : Type := {
  m_files : gmap string string;
  m_orders : list order;
  m_console : list main_line;
}.

(** Lines 179-180: [for symbol_data in symbols: process_symbol(symbol_data)];
    [i] is the position of the first symbol of the list. *)
Fixpoint process_symbols (cfg : Config) (pd : pandas) (exchange_at : nat -> Exchange)
    (i : nat) (symbols : list SymbolData) (w : World) : World :=
  match symbols with
  | [] => w
  | symbol_data :: rest =>
      process_symbols cfg pd exchange_at (S i) rest
        (process_symbol cfg pd (exchange_at i) symbol_data w)
  end.

(** One round of the [while True] of [main] (lines 178-183): every symbol
    in turn, then the separator; [time.sleep] changes nothing. *)
Definition main_round (cfg : Config) (pd : pandas) (symbols : list SymbolData)
    (r : Round) (mw : MainWorld) : MainWorld :=
  let w := process_symbols cfg pd (exchange_at r) 0 symbols
             {| files := m_files mw; orders := m_orders mw; console := [] |} in
  {| m_files := files w;
     m_orders := orders w;
     m_console := m_console mw ++ map SymbolLine (console w) ++ [SeparatorLine (strftime r)] |}.

(** [main] through the rounds given; the loop itself never ends. *)
Definition main (cfg : Config) (pd : pandas) (symbols : list SymbolData)
    (rounds : list Round) (mw : MainWorld) : MainWorld :=
  fold_left (fun mw r => main_round cfg pd symbols r mw) rounds mw.

(* ===================================================================== *)
(** * Definitions used by the statements and the proofs                  *)
(* ===================================================================== *)

(** What [float] reads from the rendering of [x] with [k] decimals. *)
Definition rounded_to_decimals (k : nat) (x : float) : float :=
  match Prim2SF x with
  | S754_nan => nan
  | S754_infinity s => if s then neg_infinity else infinity
  | S754_zero s => decimal_to_float s 0 k
  | S754_finite s m e => decimal_to_float s (scaled_decimal k m e) k
  end.

(** The profit percentage in the words of the spec: 0 for an absent
    purchase price, otherwise
    [(current_price - purchase_price) / purchase_price * 100]. *)
Definition spec_profitPercentage (purchase_price : option float)
    (current_price : float) : result float :=
  match purchase_price with
  | None => Ok 0%float
  | Some p => result_bind (py_truediv (current_price - p) p)
                          (fun q => Ok (q * 100)%float)
  end.

(** The lines printed before the profit check. *)
Definition header_lines (symbol : string) (balance current_price : float)
    (purchase_price : option float) : list line :=
  [HeaderLine symbol; BalanceLine symbol balance; PriceLine current_price] ++
  (if truthy_opt purchase_price then [PurchasePriceLine (default nan purchase_price)] else []).

Definition with_console (w : World) (ls : list line) : World :=
  {| files := files w; orders := orders w; console := console w ++ ls |}.

(** The console only grows. *)
Definition console_extends (w w' : World) : Prop :=
  exists ls, console w' = console w ++ ls.

(** Two worlds with the same orders and console. *)
Definition same_io (w1 w2 : World) : Prop :=
  orders w1 = orders w2 /\ console w1 = console w2.

(** A decimal digit character. *)
Definition is_digit (c : ascii) : Prop := exists d, 0 <= d < 10 /\ c = digit_char d.

(** ** Scenario values *)

Definition example_config : Config :=
  {| RSI_PERIOD := 14; TRAILING_STOP := 1; PROFIT_TARGET := 2 |}.

Definition example_symbol : SymbolData :=
  {| sd_symbol := "ETHUSDT"; sd_rounding := "floor"; sd_amount_usdt := 50 |}.

(** An indicator library with flat bands around 100 (102 and 98 with the
    multiplier 2) and an RSI of [rsi] on every row that has one. *)
Definition example_indicators (rsi : float) : pandas :=
  {| window_mean := fun _ _ => 100%float; window_std := fun _ _ => 1%float;
     rsi_value := fun _ _ => rsi;
     rsi_extra_row := false |}.

(** An exchange holding [free] ETH at [price], with a flat history of 30
    closes, that accepts every order. *)
Definition example_exchange (free price : float) : Exchange :=
  {| get_account := Ok [("BTC"%string, 0%float); ("ETH"%string, free)];
     get_symbol_ticker := fun _ => Ok price;
     get_klines := fun _ => Ok (replicate 30 price);
     order_market_sell := fun _ _ => Ok tt;
     order_market_buy := fun _ _ => Ok tt;
     get_symbol_ticker_again := fun _ => Ok price |}.

(** A world where ETHUSDT was bought at [price]. *)
Definition bought_at (price : float) : World :=
  {| files := write_purchase_price "ETHUSDT" price ∅; orders := []; console := [] |}.

(** ** Rounding records and magnitudes of binary64 values *)

(** A shift record has lost a non-zero bit. *)
Definition inexact (r : shr_record) : bool := shr_r r || shr_s r.

(** [n] right shifts: the mantissa is divided by [2^n], and the record is
    inexact only if it was or if a bit was lost. *)
Definition shifted (n : Z) (r r' : shr_record) : Prop :=
  0 <= shr_m r' /\ shr_m r' * 2 ^ n <= shr_m r /\
  (inexact r' = true -> inexact r = true \/ shr_m r' * 2 ^ n < shr_m r).

(** The value [M * 2^E] is at most [mx * 2^ex], on a finer grid. *)
Definition below (mx : positive) (ex : Z) (M E : Z) : Prop :=
  0 <= M /\ E <= ex /\ M <= Zpos mx * 2 ^ (ex - E).

(** The binary64 value 1. *)
Definition one64 : spec_float := S754_finite false 4503599627370496 (-52).

(** Not negative: a zero, a positive value, or NaN. *)
Definition nonneg (x : spec_float) : Prop :=
  match x with
  | S754_zero _ | S754_nan => True
  | S754_infinity s | S754_finite s _ _ => s = false
  end.

Definition positive64 (x : spec_float) : Prop :=
  match x with
  | S754_infinity false | S754_finite false _ _ => True
  | _ => False
  end.

Definition negative64 (x : spec_float) : Prop :=
  match x with
  | S754_infinity true | S754_finite true _ _ => True
  | _ => False
  end.

(** No positive value above [mx * 2^ex]. *)
Definition at_most (mx : positive) (ex : Z) (x : spec_float) : Prop :=
  match x with
  | S754_finite false m e => below mx ex (Zpos m) e
  | S754_infinity false => False
  | _ => True
  end.

(** The shift record [r] stands for the quotient [X / D]: its mantissa is
    the integer part and its two bits place the rest against one half. *)
Definition stands_for (r : shr_record) (X D : Z) : Prop :=
  shr_m r * D <= X < (shr_m r + 1) * D /\
  match shr_r r, shr_s r with
  | false, false => X = shr_m r * D
  | false, true => 0 < 2 * (X - shr_m r * D) < D
  | true, false => 2 * (X - shr_m r * D) = D
  | true, true => D < 2 * (X - shr_m r * D)
  end.

(** ** Magnitudes on the grid of the smallest binary64 value *)

(** The value [m * 2^e] in units of [2^-1074]. *)
Definition scaled (m e : Z) : Z := m * 2 ^ (e + 1074).

(** On the side [s] of zero, at least as far from zero as [mb * 2^eb]. *)
Definition far (s : bool) (mb : positive) (eb : Z) (x : spec_float) : Prop :=
  match x with
  | S754_infinity s' => s' = s
  | S754_finite s' m e => s' = s /\ scaled (Zpos mb) eb <= scaled (Zpos m) e
  | _ => False
  end.

(** Not farther from zero than [mb * 2^eb] on the side [s]. *)
Definition near (s : bool) (mb : positive) (eb : Z) (x : spec_float) : Prop :=
  match x with
  | S754_infinity s' => s' = negb s
  | S754_finite s' m e => s' = s -> scaled (Zpos m) e <= scaled (Zpos mb) eb
  | _ => True
  end.

(** ** Footprints *)

(** What a computation does to one file. *)
Inductive file_effect : Type :=
  | Keep
  | Put (text : string)
  | Remove.

Definition apply_effect (name : string) (e : file_effect)
    (fs : gmap string string) : gmap string string :=
  match e with
  | Keep => fs
  | Put text => <[name := text]> fs
  | Remove => delete name fs
  end.

(** The content of the file after the effect. *)
Definition effect_text (e : file_effect) (text : option string) : option string :=
  match e with
  | Keep => text
  | Put t => Some t
  | Remove => None
  end.

Definition then_effect (e1 e2 : file_effect) : file_effect :=
  match e2 with
  | Keep => e1
  | _ => e2
  end.

(** The world after an effect on the file [name], the orders [os] and the
    lines [ls]. *)
Definition after (name : string) (e : file_effect) (os : list order)
    (ls : list line) (w : World) : World :=
  {| files := apply_effect name e (files w);
     orders := orders w ++ os;
     console := console w ++ ls |}.

(** The computation [m] reads and changes no file but [name], and does the
    same in every world where this file has the content [text]. *)
Definition local_to {A : Type} (name : string) (text : option string) (m : M A) : Prop :=
  exists r e os ls,
    forall w, files w !! name = text -> m w = (r, after name e os ls w).

(** The symbol an order is for. *)
Definition order_symbol (o : order) : string :=
  match o with
  | MarketSell symbol _ | MarketBuy symbol _ => symbol
  end.

(** The orders [os] are at most one per symbol of the list, in its order,
    each for its symbol. *)
Inductive one_order_each : list SymbolData -> list order -> Prop :=
  | one_order_nil : one_order_each [] []
  | one_order_skip (sd : SymbolData) (sds : list SymbolData) (os : list order) :
      one_order_each sds os -> one_order_each (sd :: sds) os
  | one_order_cons (sd : SymbolData) (sds : list SymbolData) (o : order) (os : list order) :
      order_symbol o = sd_symbol sd ->
      one_order_each sds os -> one_order_each (sd :: sds) (o :: os).

(** The text ["USDT"] occurs in [s]. *)
Definition contains_USDT (s : string) : Prop :=
  exists a b, s = a +:+ "USDT" +:+ b.

(** ** More scenario values *)

Definition example_symbol_btc : SymbolData :=
  {| sd_symbol := "BTCUSDT"; sd_rounding := "round"; sd_amount_usdt := 50 |}.

(** An exchange holding [free] ETH at [price] that gives the closes
    [closes] and accepts every order. *)
Definition example_exchange_with_history (free price : float) (closes : list float) : Exchange :=
  {| get_account := Ok [("BTC"%string, 0%float); ("ETH"%string, free)];
     get_symbol_ticker := fun _ => Ok price;
     get_klines := fun _ => Ok closes;
     order_market_sell := fun _ _ => Ok tt;
     order_market_buy := fun _ _ => Ok tt;
     get_symbol_ticker_again := fun _ => Ok price |}.

(** An exchange holding [free] ETH whose ticker answers [price] to the first
    request and [price_at_buy] to the second. *)
Definition example_exchange_moving (free price price_at_buy : float) : Exchange :=
  {| get_account := Ok [("BTC"%string, 0%float); ("ETH"%string, free)];
     get_symbol_ticker := fun _ => Ok price;
     get_klines := fun _ => Ok (replicate 30 price);
     order_market_sell := fun _ _ => Ok tt;
     order_market_buy := fun _ _ => Ok tt;
     get_symbol_ticker_again := fun _ => Ok price_at_buy |}.

(** A round where the exchange answers as [example_exchange free price]
    for every symbol. *)
Definition example_round (free price : float) : Round :=
  {| exchange_at := fun _ => example_exchange free price;
     strftime := "2024-01-01 00:00:00" |}.

(** A world where the purchase-price file of ETHUSDT is empty. *)
Definition empty_record : World :=
  {| files := <["ETHUSDT_purchase_price.txt"%string := EmptyString]> ∅;
     orders := []; console := [] |}.

(** A text that is empty or made of blanks: [float] raises [ValueError] on
    it. *)
Definition is_blank (text : string) : bool :=
  forallb is_space (list_ascii_of_string text).

Definition main_of (w : World) : MainWorld :=
  {| m_files := files w; m_orders := orders w; m_console := map SymbolLine (console w) |}.

(* ===================================================================== *)
(** * Comparisons of binary64 values                                      *)
(* ===================================================================== *)

Module FloatOrder.

Lemma SFcompare_antisym (x y : spec_float) :
  SFcompare y x = option_map CompOpp (SFcompare x y).
Proof.
  destruct x as [sx|sx| |sx mx ex], y as [sy|sy| |sy my ey]; simpl;
    try destruct sx; try destruct sy; simpl; try reflexivity.
  - rewrite (Z.compare_antisym ex ey).
    destruct (ex ?= ey); simpl; try reflexivity.
    now rewrite (Pos.compare_cont_antisym mx my Eq).
  - rewrite (Z.compare_antisym ex ey).
    destruct (ex ?= ey); simpl; try reflexivity.
    now rewrite (Pos.compare_cont_antisym mx my Eq).
Qed.

Lemma ltb_asym (x y : float) : (x <? y)%float = true -> (y <? x)%float = false.
Proof.
  rewrite !FloatAxioms.ltb_spec. unfold SFltb.
  rewrite (SFcompare_antisym (Prim2SF x) (Prim2SF y)).
  now destruct (SFcompare (Prim2SF x) (Prim2SF y)) as [[]|].
Qed.

Lemma ltb_not_leb (x y : float) : (x <? y)%float = true -> (y <=? x)%float = false.
Proof.
  rewrite FloatAxioms.ltb_spec, FloatAxioms.leb_spec. unfold SFltb, SFleb.
  rewrite (SFcompare_antisym (Prim2SF x) (Prim2SF y)).
  now destruct (SFcompare (Prim2SF x) (Prim2SF y)) as [[]|].
Qed.

Lemma leb_not_ltb (x y : float) : (x <=? y)%float = true -> (y <? x)%float = false.
Proof.
  rewrite FloatAxioms.ltb_spec, FloatAxioms.leb_spec. unfold SFltb, SFleb.
  rewrite (SFcompare_antisym (Prim2SF x) (Prim2SF y)).
  now destruct (SFcompare (Prim2SF x) (Prim2SF y)) as [[]|].
Qed.

Lemma eqb_not_ltb (x y : float) : (x =? y)%float = true -> (x <? y)%float = false /\ (y <? x)%float = false.
Proof.
  rewrite FloatAxioms.eqb_spec, !FloatAxioms.ltb_spec. unfold SFltb, SFeqb.
  rewrite (SFcompare_antisym (Prim2SF x) (Prim2SF y)).
  now destruct (SFcompare (Prim2SF x) (Prim2SF y)) as [[]|].
Qed.

Lemma ltb_nan_l (x : float) : (nan <? x)%float = false.
Proof. rewrite FloatAxioms.ltb_spec. reflexivity. Qed.

Lemma ltb_nan_r (x : float) : (x <? nan)%float = false.
Proof. rewrite FloatAxioms.ltb_spec. simpl. unfold SFltb. now destruct (Prim2SF x). Qed.

Lemma leb_nan_l (x : float) : (nan <=? x)%float = false.
Proof. rewrite FloatAxioms.leb_spec. reflexivity. Qed.

Lemma leb_nan_r (x : float) : (x <=? nan)%float = false.
Proof. rewrite FloatAxioms.leb_spec. simpl. unfold SFleb. now destruct (Prim2SF x). Qed.

Lemma SFcompare_eq_l (x y z : spec_float) :
  SFcompare x y = Some Eq -> SFcompare x z = SFcompare y z.
Proof.
  destruct x as [sx|sx| |sx mx ex], y as [sy|sy| |sy my ey]; simpl;
    try destruct sx; try destruct sy; try discriminate; try reflexivity.
  all: destruct (Z.compare_spec ex ey) as [He|He|He]; try discriminate.
  all: change (Pos.compare_cont Eq mx my) with (mx ?= my)%positive.
  all: destruct (Pos.compare_spec mx my) as [Hm|Hm|Hm]; try discriminate.
  all: now subst.
Qed.

Lemma eqb_ltb_l (x y z : float) :
  (x =? y)%float = true -> (x <? z)%float = (y <? z)%float.
Proof.
  rewrite FloatAxioms.eqb_spec, !FloatAxioms.ltb_spec. unfold SFeqb, SFltb.
  destruct (SFcompare (Prim2SF x) (Prim2SF y)) as [[]|] eqn:H; try discriminate.
  now rewrite (SFcompare_eq_l _ _ _ H).
Qed.

Lemma eqb_ltb_r (x y z : float) :
  (x =? y)%float = true -> (z <? x)%float = (z <? y)%float.
Proof.
  rewrite FloatAxioms.eqb_spec, !FloatAxioms.ltb_spec. unfold SFeqb, SFltb.
  destruct (SFcompare (Prim2SF x) (Prim2SF y)) as [[]|] eqn:H; try discriminate.
  rewrite (SFcompare_antisym (Prim2SF x) (Prim2SF z)),
          (SFcompare_antisym (Prim2SF y) (Prim2SF z)).
  now rewrite (SFcompare_eq_l _ _ _ H).
Qed.

End FloatOrder.

(* ===================================================================== *)
(** * Rounding to nearest never passes a representable bound             *)
(* ===================================================================== *)

(** The operations of binary64 are specified by [SpecFloat]: the exact
    result is shifted to the exponent of the format and rounded to nearest,
    ties to even.  What the trailing stop needs is that a product or a
    difference whose exact value is at most a representable value is rounded
    to at most that value. *)
Module Rounding.

Lemma digits2_pos_size (p : positive) : digits2_pos p = Pos.size p.
Proof. induction p; simpl; congruence. Qed.

Lemma digits_bounds (p : positive) :
  2 ^ (Zpos (digits2_pos p) - 1) <= Zpos p < 2 ^ Zpos (digits2_pos p).
Proof.
  rewrite digits2_pos_size. split.
  - pose proof (Pos.size_le p) as H.
    assert (Hp : Zpos (2 ^ Pos.size p) <= Zpos p~0) by exact H.
    rewrite Pos2Z.inj_pow in Hp.
    replace (Zpos (Pos.size p)) with (Z.succ (Zpos (Pos.size p) - 1)) in Hp by lia.
    rewrite Z.pow_succ_r in Hp by lia. lia.
  - pose proof (Pos.size_gt p) as H.
    assert (Hp : Zpos p < Zpos (2 ^ Pos.size p)) by exact H.
    now rewrite Pos2Z.inj_pow in Hp.
Qed.

Lemma digits_mono (m mx : positive) (k : Z) :
  0 <= k -> Zpos m <= Zpos mx * 2 ^ k ->
  Zpos (digits2_pos m) <= Zpos (digits2_pos mx) + k.
Proof.
  intros Hk Hle.
  destruct (digits_bounds m) as [Hm _], (digits_bounds mx) as [_ Hx].
  assert (H : 2 ^ (Zpos (digits2_pos m) - 1) < 2 ^ (Zpos (digits2_pos mx) + k)).
  { rewrite Z.pow_add_r by lia.
    assert (0 < 2 ^ k) by (apply Z.pow_pos_nonneg; lia). nia. }
  apply Z.pow_lt_mono_r_iff in H; lia.
Qed.

Lemma shifted_1 (r : shr_record) : 0 <= shr_m r -> shifted 1 r (shr_1 r).
Proof.
  destruct r as [m rb sb]. unfold shifted, inexact. simpl. intros Hm.
  destruct m as [|[p|p|]|p]; simpl; try lia;
    (split; [lia|split; [lia|]]); destruct rb, sb; simpl; intros; try discriminate; lia || auto.
Qed.

Lemma shifted_trans (a b : Z) (x y z : shr_record) :
  0 <= a -> 0 <= b -> shifted a x y -> shifted b y z -> shifted (a + b) x z.
Proof.
  intros Ha Hb (Hy0 & Hy & Hyi) (Hz0 & Hz & Hzi).
  assert (0 < 2 ^ a) by (apply Z.pow_pos_nonneg; lia).
  assert (0 < 2 ^ b) by (apply Z.pow_pos_nonneg; lia).
  unfold shifted. rewrite Z.pow_add_r by lia.
  split; [assumption|]. split; [nia|].
  intros Hi. destruct (Hzi Hi) as [Hi'|Hlt].
  - destruct (Hyi Hi') as [?|?]; [now left|right; nia].
  - right. nia.
Qed.

Lemma shifted_iter (p : positive) (r : shr_record) :
  0 <= shr_m r -> shifted (Zpos p) r (SpecFloat.iter_pos shr_1 p r).
Proof.
  revert r. induction p as [p IH|p IH|]; intros r Hr; simpl.
  - pose proof (shifted_1 r Hr) as H1.
    pose proof (IH _ (proj1 H1)) as H2.
    pose proof (IH _ (proj1 H2)) as H3.
    replace (Zpos p~1) with (1 + Zpos p + Zpos p) by lia.
    eapply shifted_trans; [lia|lia| |exact H3].
    eapply shifted_trans; [lia|lia|exact H1|exact H2].
  - pose proof (IH _ Hr) as H2.
    pose proof (IH _ (proj1 H2)) as H3.
    replace (Zpos p~0) with (Zpos p + Zpos p) by lia.
    eapply shifted_trans; [lia|lia|exact H2|exact H3].
  - now apply shifted_1.
Qed.

Section Below.
Variables (mx : positive) (ex : Z).
Hypothesis Hbounded : bounded prec emax mx ex = true.

Lemma bounded_facts :
  fexp prec emax (Zpos (digits2_pos mx) + ex) = ex /\ ex <= emax - prec.
Proof using Hbounded.
  unfold bounded, canonical_mantissa in Hbounded.
  apply andb_true_iff in Hbounded as [H1 H2].
  apply Z.eqb_eq in H1. apply Z.leb_le in H2. now split.
Qed.

Lemma fexp_below (M E : Z) : below mx ex M E -> fexp prec emax (Zdigits2 M + E) <= ex.
Proof using Hbounded.
  intros (HM & HE & Hle). destruct bounded_facts as [Hc _].
  unfold fexp in *. destruct M as [|m|m]; simpl Zdigits2; [lia| |lia].
  pose proof (digits_mono m mx (ex - E) ltac:(lia) Hle). lia.
Qed.

Lemma shr_fexp_below (M E : Z) :
  below mx ex M E ->
  below mx ex (shr_m (fst (shr_fexp prec emax M E loc_Exact)))
        (snd (shr_fexp prec emax M E loc_Exact)) /\
  (inexact (fst (shr_fexp prec emax M E loc_Exact)) = true ->
   below mx ex (shr_m (fst (shr_fexp prec emax M E loc_Exact)) + 1)
         (snd (shr_fexp prec emax M E loc_Exact))).
Proof using Hbounded.
  intros HB. pose proof (fexp_below M E HB) as Hf.
  destruct HB as (HM & HE & Hle).
  unfold shr_fexp, shr. simpl shr_record_of_loc.
  destruct (fexp prec emax (Zdigits2 M + E) - E) as [|n|n] eqn:En; simpl fst; simpl snd.
  - unfold below, inexact; simpl. split; [lia|discriminate].
  - pose proof (shifted_iter n {| shr_m := M; shr_r := false; shr_s := false |} HM)
      as (H0 & H1 & H2).
    simpl in H1, H2.
    set (r := SpecFloat.iter_pos shr_1 n {| shr_m := M; shr_r := false; shr_s := false |}) in *.
    assert (Hp : 0 < 2 ^ Zpos n) by (apply Z.pow_pos_nonneg; lia).
    assert (Hs : 2 ^ (ex - E) = 2 ^ (ex - (E + Zpos n)) * 2 ^ Zpos n).
    { rewrite <- Z.pow_add_r by lia. f_equal. lia. }
    assert (0 < 2 ^ (ex - (E + Zpos n))) by (apply Z.pow_pos_nonneg; lia).
    unfold below. split.
    + split; [lia|]. split; [lia|]. nia.
    + intros Hi. destruct (H2 Hi) as [Hi'|Hlt]; [discriminate|].
      split; [lia|]. split; [lia|]. nia.
  - unfold below, inexact; simpl. split; [lia|discriminate].
Qed.

Lemma round_nearest_even_below (r : shr_record) (E : Z) :
  below mx ex (shr_m r) E ->
  (inexact r = true -> below mx ex (shr_m r + 1) E) ->
  below mx ex (round_nearest_even (shr_m r) (loc_of_shr_record r)) E.
Proof.
  intros H1 H2. destruct r as [m [|] [|]]; unfold inexact in H2; simpl in *;
    try destruct (Z.even m); auto.
Qed.

Lemma binary_round_aux_below (s : bool) (m : positive) (e : Z) :
  below mx ex (Zpos m) e ->
  binary_round_aux prec emax s (Zpos m) e loc_Exact = S754_zero s \/
  exists m' e', binary_round_aux prec emax s (Zpos m) e loc_Exact = S754_finite s m' e'
                /\ below mx ex (Zpos m') e'.
Proof using Hbounded.
  intros HB. unfold binary_round_aux.
  destruct (shr_fexp_below _ _ HB) as [H1 H1'].
  destruct (shr_fexp prec emax (Zpos m) e loc_Exact) as [r1 e1]. simpl in H1, H1'.
  pose proof (round_nearest_even_below r1 e1 H1 H1') as H2.
  destruct (shr_fexp_below _ _ H2) as [H3 _].
  destruct (shr_fexp prec emax (round_nearest_even (shr_m r1) (loc_of_shr_record r1)) e1 loc_Exact)
    as [r2 e2]. simpl in H3.
  destruct (shr_m r2) as [|m2|m2]; [now left| |destruct H3; lia].
  right. exists m2, e2. destruct bounded_facts as [_ Hmax].
  destruct H3 as (? & ? & ?).
  replace (e2 <=? emax - prec) with true by (symmetry; apply Z.leb_le; lia).
  split; [reflexivity|]. repeat split; assumption.
Qed.
End Below.

Lemma binary_round_aux_sign (s : bool) (m e : Z) (l : location) :
  match binary_round_aux prec emax s m e l with
  | S754_zero s' | S754_infinity s' | S754_finite s' _ _ => s' = s
  | S754_nan => True
  end.
Proof.
  unfold binary_round_aux.
  destruct (shr_fexp prec emax m e l) as [r1 e1].
  destruct (shr_fexp prec emax _ e1 loc_Exact) as [r2 e2].
  destruct (shr_m r2); try destruct (e2 <=? emax - prec); simpl; auto.
Qed.

(** ** Signs and magnitudes through the operations of the trailing stop *)

Lemma leb_zero_nonneg (x : spec_float) : SFleb (S754_zero false) x = true -> nonneg x.
Proof. destruct x as [s|[|]| |[|] m e]; simpl; auto; discriminate. Qed.

Lemma ltb_zero_positive (x : spec_float) : SFltb (S754_zero false) x = true -> positive64 x.
Proof. destruct x as [s|[|]| |[|] m e]; simpl; auto; discriminate. Qed.

Lemma div_nonneg (x : spec_float) (m : positive) (e : Z) :
  nonneg x -> nonneg (SFdiv prec emax x (S754_finite false m e)).
Proof.
  destruct x as [s|s| |s mx ex]; simpl; auto.
  - intros ->. reflexivity.
  - intros ->. destruct (SFdiv_core_binary prec emax (Zpos mx) ex (Zpos m) e) as [[mz ez] lz].
    pose proof (binary_round_aux_sign (xorb false false) mz ez lz) as H.
    destruct (binary_round_aux prec emax (xorb false false) mz ez lz); simpl in *; auto.
Qed.

Lemma binary_normalize_pos_sign (m : positive) (e : Z) :
  nonneg (binary_normalize prec emax (Zpos m) e false).
Proof.
  unfold binary_normalize, binary_round.
  destruct (shl_align m e _) as [mz ez].
  pose proof (binary_round_aux_sign false (Zpos mz) ez loc_Exact) as H.
  destruct (binary_round_aux prec emax false (Zpos mz) ez loc_Exact); simpl in *; auto.
Qed.

Lemma add_one_nonneg (y : spec_float) : nonneg y -> nonneg (SFadd prec emax one64 y).
Proof.
  destruct y as [s|s| |s my ey]; simpl; auto.
  intros ->. apply binary_normalize_pos_sign.
Qed.

Lemma mul_positive_nonneg (p g : spec_float) :
  positive64 p -> nonneg g -> nonneg (SFmul prec emax p g).
Proof.
  destruct p as [sp|[|]| |[|] mp ep]; simpl; try contradiction; intros _;
    destruct g as [s|s| |s mg eg]; simpl; auto.
  intros ->.
  pose proof (binary_round_aux_sign (xorb false false) (Zpos (mp * mg)) (ep + eg) loc_Exact) as H.
  destruct (binary_round_aux prec emax _ _ _ _); simpl in *; auto.
Qed.

Lemma nonneg_not_leb_negative (x c : spec_float) :
  nonneg x -> negative64 c -> SFleb x c = false.
Proof.
  destruct c as [sc|[|]| |[|] mc ec]; simpl; try contradiction; intros Hx _;
    destruct x as [s|s| |s m e]; simpl in *; subst; reflexivity.
Qed.

Lemma iter_xO_pow (m d : positive) : Zpos (Pos.iter xO m d) = Zpos m * 2 ^ Zpos d.
Proof.
  rewrite <- Z.shiftl_mul_pow2 by lia. unfold Z.shiftl.
  now apply Pos.iter_swap_gen.
Qed.

Lemma shl_align_spec (m : positive) (e e' : Z) :
  snd (shl_align m e e') <= e /\
  Zpos (fst (shl_align m e e')) = Zpos m * 2 ^ (e - snd (shl_align m e e')) /\
  (e' <= e -> snd (shl_align m e e') = e').
Proof.
  unfold shl_align. destruct (e' - e) as [|d|d] eqn:Hd; simpl.
  - rewrite Z.sub_diag. simpl. lia.
  - rewrite Z.sub_diag. simpl. lia.
  - replace (e - e') with (Zpos d) by lia.
    rewrite iter_xO_pow. lia.
Qed.

Lemma one64_bounded : bounded prec emax 4503599627370496 (-52) = true.
Proof. reflexivity. Qed.

Lemma binary_normalize_at_most_one (q : positive) (ez : Z) :
  ez <= -52 -> Zpos q <= 2 ^ (- ez) ->
  at_most 4503599627370496 (-52) (binary_normalize prec emax (Zpos q) ez false).
Proof.
  intros Hez Hq. unfold binary_normalize, binary_round.
  destruct (shl_align_spec q ez (fexp prec emax (Zpos (digits2_pos q) + ez))) as (H1 & H2 & _).
  destruct (shl_align q ez _) as [mz ez']. simpl in H1, H2.
  assert (HB : below 4503599627370496 (-52) (Zpos mz) ez').
  { unfold below. split; [lia|]. split; [lia|]. rewrite H2.
    change 4503599627370496 with (2 ^ 52).
    rewrite <- Z.pow_add_r by lia.
    replace (52 + (-52 - ez')) with (- ez + (ez - ez')) by lia.
    rewrite Z.pow_add_r by lia.
    assert (0 < 2 ^ (ez - ez')) by (apply Z.pow_pos_nonneg; lia). nia. }
  destruct (binary_round_aux_below _ _ one64_bounded false mz ez' HB) as [->|(m' & e' & -> & HB')];
    simpl; auto.
Qed.

Lemma sub_one_at_most (y : spec_float) :
  nonneg y -> at_most 4503599627370496 (-52) (SFsub prec emax one64 y).
Proof.
  destruct y as [s|s| |s my ey]; simpl; auto.
  - intros _. unfold below. simpl. lia.
  - intros ->. exact I.
  - intros ->. simpl cond_Zopp.
    destruct (shl_align_spec 4503599627370496 (-52) (Z.min (-52) ey)) as (_ & Ha & Ha').
    destruct (shl_align_spec my ey (Z.min (-52) ey)) as (_ & Hb & Hb').
    rewrite Ha' in Ha by lia. rewrite Hb' in Hb by lia.
    set (a := fst (shl_align 4503599627370496 (-52) (Z.min (-52) ey))) in *.
    set (b := fst (shl_align my ey (Z.min (-52) ey))) in *.
    assert (Hle : Zpos a = 2 ^ (- Z.min (-52) ey)).
    { rewrite Ha. change 4503599627370496 with (2 ^ 52).
      rewrite <- Z.pow_add_r by lia. f_equal. lia. }
    destruct (Zpos a - Zpos b) as [|q|q] eqn:Hq.
    + exact I.
    + apply binary_normalize_at_most_one; lia.
    + unfold binary_normalize, binary_round.
      destruct (shl_align q _ _) as [mz ez'].
      pose proof (binary_round_aux_sign true (Zpos mz) ez' loc_Exact) as H.
      destruct (binary_round_aux prec emax true (Zpos mz) ez' loc_Exact) as [s'|s'| |s' m' e'];
        simpl in *; subst; auto.
Qed.

Lemma mul_at_most (mc : positive) (ec : Z) (f : spec_float) :
  bounded prec emax mc ec = true ->
  at_most 4503599627370496 (-52) f ->
  at_most mc ec (SFmul prec emax (S754_finite false mc ec) f).
Proof.
  intros Hb. destruct f as [s|[|]| |[|] mf ef]; simpl; auto.
  - intros _.
    pose proof (binary_round_aux_sign true (Zpos (mc * mf)) (ec + ef) loc_Exact) as H.
    destruct (binary_round_aux prec emax true _ _ _) as [s'|s'| |s' m' e']; simpl in *; subst; auto.
  - intros (_ & He & Hm).
    assert (HB : below mc ec (Zpos (mc * mf)) (ec + ef)).
    { unfold below. split; [lia|]. split; [lia|].
      replace (ec - (ec + ef)) with (- ef) by lia.
      change 4503599627370496 with (2 ^ 52) in Hm.
      rewrite <- Z.pow_add_r in Hm by lia.
      replace (52 + (-52 - ef)) with (- ef) in Hm by lia.
      rewrite Pos2Z.inj_mul. nia. }
    destruct (binary_round_aux_below _ _ Hb false _ _ HB) as [->|(m' & e' & -> & HB')];
      simpl; auto.
Qed.

Lemma ltb_at_most (p x : spec_float) (mc : positive) (ec : Z) :
  positive64 p -> at_most mc ec x -> SFltb p x = true ->
  SFltb p (S754_finite false mc ec) = true.
Proof.
  destruct p as [sp|[|]| |[|] mp ep]; simpl; try contradiction; intros _;
    destruct x as [s|[|]| |[|] m e]; simpl; try contradiction; try discriminate.
  unfold SFltb. simpl. intros (_ & He & Hm).
  destruct (Z.compare_spec ep e) as [Heq|Hlt|Hgt]; try discriminate.
  - intros Hc. destruct (Z.compare_spec ep ec) as [Heq'|Hlt'|Hgt']; [|reflexivity|lia].
    replace (ec - e) with 0 in Hm by lia. rewrite Z.pow_0_r, Z.mul_1_r in Hm.
    change (Pos.compare_cont Eq mp m) with (mp ?= m)%positive in Hc.
    change (Pos.compare_cont Eq mp mc) with (mp ?= mc)%positive.
    destruct (mp ?= m)%positive eqn:Hmp; try discriminate.
    change (mp < m)%positive in Hmp.
    replace (mp ?= mc)%positive with Lt; [reflexivity|].
    symmetry. apply Pos.compare_lt_iff. lia.
  - intros _. destruct (Z.compare_spec ep ec) as [Heq'|Hlt'|Hgt']; [lia|reflexivity|lia].
Qed.

(** The trailing-stop test on binary64 values: with a positive cost and
    percentages that are not negative, it only holds above the cost. *)
Lemma trailing_stop_SF (P C Pt T : spec_float) (m100 : positive) (e100 : Z) :
  valid_binary C = true ->
  SFltb (S754_zero false) P = true ->
  SFleb (S754_zero false) Pt = true ->
  SFleb (S754_zero false) T = true ->
  SFleb (SFmul prec emax P (SFadd prec emax one64
           (SFdiv prec emax Pt (S754_finite false m100 e100)))) C = true ->
  SFltb P (SFmul prec emax C (SFsub prec emax one64
           (SFdiv prec emax T (S754_finite false m100 e100)))) = true ->
  SFltb P C = true.
Proof.
  intros HC HP HPt HT Htarget Htrail.
  apply ltb_zero_positive in HP. apply leb_zero_nonneg in HPt, HT.
  pose proof (mul_positive_nonneg _ _ HP
                (add_one_nonneg _ (div_nonneg _ m100 e100 HPt))) as Hnn.
  pose proof (sub_one_at_most _ (div_nonneg _ m100 e100 HT)) as Hf.
  set (f := SFsub prec emax one64 (SFdiv prec emax T (S754_finite false m100 e100))) in *.
  destruct C as [sc|[|]| |[|] mc ec].
  - exfalso. destruct P as [sp|[|]| |[|] mp ep]; simpl in HP; try contradiction;
      destruct f as [s|s| |s m e]; simpl in Htrail; discriminate.
  - rewrite nonneg_not_leb_negative in Htarget by (auto; exact I). discriminate.
  - destruct P as [sp|[|]| |[|] mp ep]; simpl in HP; try contradiction; [|reflexivity].
    exfalso. destruct f as [s|[|]| |[|] m e]; simpl in Htrail; discriminate.
  - exfalso. destruct P as [sp|[|]| |[|] mp ep]; simpl in HP; try contradiction;
      simpl in Htrail; discriminate.
  - rewrite nonneg_not_leb_negative in Htarget by (auto; exact I). discriminate.
  - eapply ltb_at_most; [exact HP| |exact Htrail].
    apply mul_at_most; assumption.
Qed.

End Rounding.

Lemma trailing_stop_above_cost_float (pp cp pt ts : float) :
  (0 <? pp)%float = true -> (0 <=? pt)%float = true -> (0 <=? ts)%float = true ->
  (pp * (1 + pt / 100) <=? cp)%float = true ->
  (pp <? cp * (1 - ts / 100))%float = true ->
  (pp <? cp)%float = true.
Proof.
  rewrite !FloatAxioms.ltb_spec, !FloatAxioms.leb_spec, !mul_spec, add_spec, sub_spec, !div_spec.
  change (Prim2SF 0) with (S754_zero false).
  change (Prim2SF 1) with one64.
  change (Prim2SF 100) with (S754_finite false 7036874417766400 (-46)).
  intros HP HPt HT Htarget Htrail.
  exact (Rounding.trailing_stop_SF _ _ _ _ _ _ (Prim2SF_valid cp) HP HPt HT Htarget Htrail).
Qed.

(* ===================================================================== *)
(** * Reading back a fixed-point rendering                                *)
(* ===================================================================== *)

Lemma digit_char_facts (d : Z) :
  0 <= d < 10 ->
  digit_of_char (digit_char d) = Some d /\
  is_space (digit_char d) = false /\
  Ascii.eqb (digit_char d) "." = false /\
  Ascii.eqb (digit_char d) "-" = false /\
  Ascii.eqb (digit_char d) "n" = false /\
  Ascii.eqb (digit_char d) "i" = false.
Proof.
  intros Hd.
  assert (H : d = 0 \/ d = 1 \/ d = 2 \/ d = 3 \/ d = 4 \/ d = 5 \/ d = 6 \/ d = 7
              \/ d = 8 \/ d = 9) by lia.
  repeat destruct H as [->|H]; try subst d; repeat split; reflexivity.
Qed.

Lemma decimal_digits_are_digits (k : nat) (n : Z) : Forall is_digit (decimal_digits k n).
Proof.
  revert n. induction k as [|k IH]; intros n; simpl; [constructor|].
  apply Forall_app. split; [apply IH|].
  constructor; [|constructor]. exists (n mod 10). split; [|reflexivity].
  apply Z.mod_pos_bound. lia.
Qed.

Lemma length_decimal_digits (k : nat) (n : Z) : length (decimal_digits k n) = k.
Proof.
  revert n. induction k as [|k IH]; intros n; simpl; [reflexivity|].
  rewrite length_app, IH. simpl. lia.
Qed.

Lemma digits_value_snoc (l : list ascii) (d : Z) (a : Z) :
  0 <= d < 10 -> digits_value l = Some a ->
  digits_value (l ++ [digit_char d]) = Some (10 * a + d).
Proof.
  intros Hd Hl. unfold digits_value in *. rewrite fold_left_app, Hl.
  cbn [fold_left]. destruct (digit_char_facts d Hd) as [-> _]. reflexivity.
Qed.

Lemma digits_value_decimal_digits (k : nat) (n : Z) :
  0 <= n -> digits_value (decimal_digits k n) = Some (n mod 10 ^ Z.of_nat k).
Proof.
  revert n. induction k as [|k IH]; intros n Hn.
  - cbn [decimal_digits Z.of_nat]. now rewrite Z.pow_0_r, Z.mod_1_r.
  - cbn [decimal_digits].
    rewrite (digits_value_snoc _ (n mod 10) ((n / 10) mod 10 ^ Z.of_nat k)).
    + f_equal. rewrite Nat2Z.inj_succ, Z.pow_succ_r by lia.
      rewrite Z.rem_mul_r by lia. lia.
    + apply Z.mod_pos_bound. lia.
    + apply IH. apply Z.div_pos; lia.
Qed.

Lemma count_digits_bound (fuel : nat) (n : Z) :
  0 <= n -> n < 2 ^ (Z.of_nat fuel + 1) ->
  n < 10 ^ Z.of_nat (count_digits fuel n).
Proof.
  revert n. induction fuel as [|fuel IH]; intros n Hn Hlt.
  - simpl in *. lia.
  - cbn [count_digits]. destruct (Z.ltb_spec n 10) as [H|H]; [simpl; lia|].
    rewrite Nat2Z.inj_succ, Z.pow_succ_r by lia.
    assert (Hq : n / 10 < 10 ^ Z.of_nat (count_digits fuel (n / 10))).
    { apply IH; [apply Z.div_pos; lia|].
      rewrite Nat2Z.inj_succ in Hlt.
      replace (Z.succ (Z.of_nat fuel) + 1) with (Z.succ (Z.of_nat fuel + 1)) in Hlt by lia.
      rewrite Z.pow_succ_r in Hlt by lia.
      apply Z.div_lt_upper_bound; lia. }
    pose proof (Z.mul_succ_div_gt n 10 ltac:(lia)). lia.
Qed.

Lemma digits_value_integer_digits (n : Z) :
  0 <= n -> digits_value (integer_digits n) = Some n.
Proof.
  intros Hn. unfold integer_digits. rewrite digits_value_decimal_digits by assumption.
  f_equal. apply Z.mod_small. split; [assumption|].
  apply count_digits_bound; [assumption|].
  destruct (Z.eq_dec n 0) as [->|Hz]; [simpl; lia|].
  rewrite Z2Nat.id by apply Z.log2_nonneg.
  apply Z.log2_spec. lia.
Qed.

Lemma integer_digits_head (n : Z) :
  exists c rest, integer_digits n = c :: rest /\ is_digit c.
Proof.
  unfold integer_digits.
  pose proof (decimal_digits_are_digits (count_digits (Z.to_nat (Z.log2 n)) n) n) as H.
  pose proof (length_decimal_digits (count_digits (Z.to_nat (Z.log2 n)) n) n) as Hl.
  destruct (decimal_digits _ n) as [|c rest].
  - exfalso. simpl in Hl. destruct (Z.to_nat (Z.log2 n)); simpl in Hl;
      [|destruct (n <? 10)]; discriminate.
  - exists c, rest. split; [reflexivity|]. now inversion H.
Qed.

Lemma split_point_digits (ip fp : list ascii) :
  Forall is_digit ip -> split_point (ip ++ "."%char :: fp) = (ip, Some fp).
Proof.
  induction 1 as [|c ip (d & Hd & ->) _ IH]; [reflexivity|].
  cbn [app split_point].
  destruct (digit_char_facts d Hd) as (_ & _ & -> & _). now rewrite IH.
Qed.

Lemma lstrip_no_space (c : ascii) (l : list ascii) :
  is_space c = false -> lstrip (c :: l) = c :: l.
Proof. intros H. cbn [lstrip]. now rewrite H. Qed.

Lemma strip_no_space (l : list ascii) (c c' : ascii) (l1 l2 : list ascii) :
  l = c :: l1 -> l = l2 ++ [c'] -> is_space c = false -> is_space c' = false ->
  strip l = l.
Proof.
  intros H1 H2 Hc Hc'. unfold strip.
  rewrite H1 at 1. rewrite lstrip_no_space by assumption. rewrite <- H1.
  rewrite H2 at 1. rewrite rev_app_distr. cbn [rev app lstrip].
  rewrite Hc'. change (c' :: rev l2) with (rev [c'] ++ rev l2).
  rewrite <- rev_app_distr, <- H2. apply rev_involutive.
Qed.

Lemma digit_is_no_keyword (c : ascii) (l : list ascii) :
  is_digit c ->
  String.eqb (string_of_list_ascii (c :: l)) "nan" = false /\
  String.eqb (string_of_list_ascii (c :: l)) "inf" = false.
Proof.
  intros (d & Hd & ->). cbn [string_of_list_ascii String.eqb].
  destruct (digit_char_facts d Hd) as (_ & _ & _ & _ & -> & ->). now split.
Qed.

Lemma unsigned_of_digits (s : bool) (ip fp : list ascii) (i f : Z) :
  Forall is_digit ip -> ip <> [] ->
  digits_value ip = Some i -> digits_value fp = Some f ->
  unsigned_of_text s (ip ++ "."%char :: fp)
  = Some (decimal_to_float s (i * 10 ^ Z.of_nat (length fp) + f) (length fp)).
Proof.
  intros Hd Hne Hi Hf. unfold unsigned_of_text.
  rewrite split_point_digits by assumption.
  destruct ip as [|c rest]; [congruence|].
  cbn [app]. inversion Hd as [|? ? Hc _]; subst.
  destruct (digit_is_no_keyword c (rest ++ "."%char :: fp) Hc) as [-> ->].
  cbn [default]. unfold id. now rewrite Hi, Hf.
Qed.

(** The text of a number that is not negative reads back as that number. *)
Lemma float_of_fixed_text (k : nat) (s : bool) (n : Z) :
  0 <= n -> float_of_text (fixed_text k s n) = Ok (decimal_to_float s n k).
Proof.
  intros Hn.
  assert (Hk : 0 < 10 ^ Z.of_nat k) by (apply Z.pow_pos_nonneg; lia).
  unfold fixed_text.
  set (ip := integer_digits (n / 10 ^ Z.of_nat k)).
  set (fp := decimal_digits k (n mod 10 ^ Z.of_nat k)).
  change (["."%char] ++ fp) with ("."%char :: fp).
  assert (Hipd : Forall is_digit ip).
  { unfold ip, integer_digits. apply decimal_digits_are_digits. }
  assert (Hfpd : Forall is_digit fp) by apply decimal_digits_are_digits.
  assert (Hbody : unsigned_of_text s (ip ++ "."%char :: fp) = Some (decimal_to_float s n k)).
  { rewrite (unsigned_of_digits s ip fp (n / 10 ^ Z.of_nat k) (n mod 10 ^ Z.of_nat k)).
    - unfold fp. rewrite length_decimal_digits. do 2 f_equal.
      pose proof (Z.div_mod n (10 ^ Z.of_nat k)). lia.
    - assumption.
    - destruct (integer_digits_head (n / 10 ^ Z.of_nat k)) as (c & rest & Hip & _).
      fold ip in Hip. congruence.
    - apply digits_value_integer_digits. apply Z.div_pos; lia.
    - unfold fp. rewrite digits_value_decimal_digits by (apply Z.mod_pos_bound; lia).
      now rewrite Z.mod_mod by lia. }
  (* the last character is a digit or the point *)
  assert (Hlast : exists l2 c', ip ++ "."%char :: fp = l2 ++ [c'] /\ is_space c' = false).
  { destruct (last fp) as [c'|] eqn:Hl.
    - apply last_Some in Hl as [fp' Hl].
      exists (ip ++ "."%char :: fp'), c'. rewrite Hl. split.
      + now rewrite <- app_assoc.
      + rewrite Hl in Hfpd. apply Forall_app in Hfpd as [_ Hfpd].
        inversion Hfpd as [|? ? (d' & Hd' & ->) _]; subst.
        now destruct (digit_char_facts d' Hd') as (_ & -> & _).
    - apply last_None in Hl. rewrite Hl. exists ip, "."%char. split; reflexivity. }
  destruct Hlast as (l2 & c' & Hl2 & Hc').
  unfold float_of_text.
  destruct s; cbn [sign_text app].
  - rewrite (strip_no_space ("-"%char :: ip ++ "."%char :: fp) "-"%char c'
               (ip ++ "."%char :: fp) ("-"%char :: l2));
      [|reflexivity|cbn [app]; now rewrite Hl2|reflexivity|assumption].
    change (Ascii.eqb "-" "-") with true. cbv iota. now rewrite Hbody.
  - destruct (integer_digits_head (n / 10 ^ Z.of_nat k)) as (c & rest & Hip & (d & Hd & Hc)).
    fold ip in Hip. clearbody ip fp. subst ip c.
    destruct (digit_char_facts d Hd) as (_ & Hsp & _ & Hmi & _).
    rewrite (strip_no_space _ (digit_char d) c' (rest ++ "."%char :: fp) l2);
      [|reflexivity|assumption|assumption|assumption].
    cbn [app] in Hbody |- *. cbv iota. now rewrite Hmi, Hbody.
Qed.

Lemma round_half_even_nonneg (n d : Z) : 0 <= n -> 0 < d -> 0 <= round_half_even n d.
Proof.
  intros Hn Hd. unfold round_half_even.
  assert (0 <= n / d) by (apply Z.div_pos; lia).
  destruct (2 * (n mod d) ?= d); try destruct (Z.even (n / d)); lia.
Qed.

Lemma scaled_decimal_nonneg (k : nat) (m : positive) (e : Z) : 0 <= scaled_decimal k m e.
Proof.
  unfold scaled_decimal.
  assert (0 < 10 ^ Z.of_nat k) by (apply Z.pow_pos_nonneg; lia).
  destruct (Z.leb_spec 0 e).
  - assert (0 < 2 ^ e) by (apply Z.pow_pos_nonneg; lia). nia.
  - apply round_half_even_nonneg; [nia|apply Z.pow_pos_nonneg; lia].
Qed.

(** Reading the rendering of any float. *)
Lemma float_of_format_fixed (k : nat) (x : float) :
  float_of_text (list_ascii_of_string (format_fixed k x)) = Ok (rounded_to_decimals k x).
Proof.
  unfold format_fixed, rounded_to_decimals.
  rewrite list_ascii_of_string_of_list_ascii.
  destruct (Prim2SF x) as [s|s| |s m e].
  - now apply float_of_fixed_text.
  - now destruct s.
  - reflexivity.
  - apply float_of_fixed_text, scaled_decimal_nonneg.
Qed.

(* ===================================================================== *)
(** * Decimal prices are their own rounding to eight decimals           *)
(* ===================================================================== *)

Lemma stands_for_division (q r D : Z) :
  0 <= r < D -> Z.even D = true ->
  stands_for (shr_record_of_loc q (new_location D r)) (q * D + r) D.
Proof.
  intros Hr HD. unfold new_location, new_location_even. rewrite HD.
  destruct (Z.eqb_spec r 0) as [->|Hr0].
  - unfold stands_for. simpl. lia.
  - destruct (Z.compare_spec (2 * r) D) as [H|H|H]; unfold stands_for; simpl; lia.
Qed.

Lemma stands_for_shr_1 (r : shr_record) (X D : Z) :
  0 <= shr_m r -> 0 < D -> stands_for r X D -> stands_for (shr_1 r) X (2 * D).
Proof.
  destruct r as [m rb sb]. unfold stands_for. simpl. intros Hm HD [Hb Hl].
  destruct m as [|[p|p|]|p]; try lia; destruct rb, sb; simpl; lia.
Qed.

Lemma round_nearest_even_nearest (r : shr_record) (X D : Z) :
  0 < D -> stands_for r X D ->
  let m := round_nearest_even (shr_m r) (loc_of_shr_record r) in
  (m = shr_m r \/ m = shr_m r + 1) /\ 2 * Z.abs (m * D - X) <= D.
Proof.
  destruct r as [m rb sb]. unfold stands_for. simpl. intros HD [Hb Hl].
  destruct rb, sb; simpl; try destruct (Z.even m); lia.
Qed.

Lemma digits_of_range (p : positive) (d : Z) :
  2 ^ (d - 1) <= Zpos p < 2 ^ d -> Zpos (digits2_pos p) = d.
Proof.
  intros [Hlo Hhi]. destruct (Rounding.digits_bounds p) as [Hlo' Hhi'].
  assert (Hd : 0 < d).
  { destruct (Z.ltb_spec 0 d); [assumption|].
    rewrite Z.pow_neg_r in Hlo by lia.
    destruct (Z.eq_dec d 0) as [->|]; [simpl in Hhi; lia|].
    rewrite Z.pow_neg_r in Hhi by lia. lia. }
  destruct (Z.lt_trichotomy (Zpos (digits2_pos p)) d) as [H|[H|H]]; [|assumption|].
  - assert (2 ^ Zpos (digits2_pos p) <= 2 ^ (d - 1)) by (apply Z.pow_le_mono_r; lia). lia.
  - assert (2 ^ d <= 2 ^ (Zpos (digits2_pos p) - 1)) by (apply Z.pow_le_mono_r; lia). lia.
Qed.

Lemma shr_m_of_loc (m : Z) (l : location) : shr_m (shr_record_of_loc m l) = m.
Proof. now destruct l as [|[]]. Qed.

Lemma shr_m_shr_1 (r : shr_record) :
  0 <= shr_m r -> shr_m r = 2 * shr_m (shr_1 r) + (if shr_r (shr_1 r) then 1 else 0).
Proof.
  destruct r as [m rb sb]. simpl. intros Hm.
  destruct m as [|[p|p|]|p]; simpl; lia.
Qed.

Lemma fexp_shift (d e : Z) : -1074 <= e -> 53 <= d -> fexp prec emax (d + e) - e = d - 53.
Proof. intros He Hd. unfold fexp, emin, prec, emax. lia. Qed.

(** First stage of the rounding of a quotient of 53 or 54 bits: at most
    one shift. *)
Lemma first_shift (q e X D : Z) (l : location) :
  2 ^ 52 <= q < 2 ^ 54 -> -1074 <= e -> 0 < D ->
  stands_for (shr_record_of_loc q l) X D ->
  exists r1 k,
    shr_fexp prec emax q e l = (r1, e + k) /\ 0 <= k <= 1 /\
    stands_for r1 X (2 ^ k * D) /\ 2 ^ 52 <= shr_m r1 < 2 ^ 53.
Proof.
  intros Hq He HD Hs. unfold shr_fexp.
  destruct q as [|pq|pq]; try (exfalso; lia). cbn [Zdigits2].
  destruct (Z.lt_ge_cases (Zpos pq) (2 ^ 53)) as [Hlt|Hge].
  - rewrite (digits_of_range pq 53) by (change (53 - 1) with 52; lia).
    rewrite fexp_shift by lia. change (53 - 53) with 0. cbn [shr].
    exists (shr_record_of_loc (Zpos pq) l), 0.
    rewrite Z.add_0_r, shr_m_of_loc. change (2 ^ 0) with 1. rewrite Z.mul_1_l. auto with zarith.
  - rewrite (digits_of_range pq 54) by (change (54 - 1) with 53; lia).
    rewrite fexp_shift by lia. change (54 - 53) with 1. cbn [shr SpecFloat.iter_pos].
    exists (shr_1 (shr_record_of_loc (Zpos pq) l)), 1.
    pose proof (shr_m_shr_1 (shr_record_of_loc (Zpos pq) l)) as Hm.
    rewrite shr_m_of_loc in Hm. specialize (Hm ltac:(lia)).
    split; [reflexivity|]. split; [lia|]. split.
    + change (2 ^ 1) with 2. apply stands_for_shr_1; [rewrite shr_m_of_loc; lia|assumption|assumption].
    + destruct (shr_r (shr_1 (shr_record_of_loc (Zpos pq) l)));
        change (2 ^ 54) with (2 * 2 ^ 53) in Hq; change (2 ^ 53) with (2 * 2 ^ 52) in Hge |- *; lia.
Qed.

(** Second stage: a rounded mantissa of 53 bits stays, [2^53] becomes
    [2^52] one exponent higher. *)
Lemma second_shift (m e : Z) :
  2 ^ 52 <= m <= 2 ^ 53 -> -1074 <= e ->
  exists r2 p j,
    shr_fexp prec emax m e loc_Exact = (r2, e + j) /\ shr_m r2 = Zpos p /\
    Zpos (digits2_pos p) = 53 /\ 0 <= j <= 1 /\ Zpos p * 2 ^ j = m.
Proof.
  intros Hm He. unfold shr_fexp.
  destruct m as [|pm|pm]; try (exfalso; lia). cbn [Zdigits2].
  destruct (Z.lt_ge_cases (Zpos pm) (2 ^ 53)) as [Hlt|Hge].
  - pose proof (digits_of_range pm 53 ltac:(change (53 - 1) with 52; lia)) as Hd.
    rewrite Hd, fexp_shift by lia. change (53 - 53) with 0. cbn [shr].
    exists (shr_record_of_loc (Zpos pm) loc_Exact), pm, 0.
    rewrite Z.add_0_r. change (2 ^ 0) with 1. repeat split; auto with zarith.
  - assert (Heq : Zpos pm = 2 ^ 53) by lia.
    rewrite (digits_of_range pm 54) by (change (54 - 1) with 53; lia).
    rewrite fexp_shift by lia. change (54 - 53) with 1.
    injection Heq as ->. cbn.
    exists {| shr_m := 2 ^ 52; shr_r := false; shr_s := false |}, (2 ^ 52)%positive, 1.
    repeat split; try reflexivity; lia.
Qed.

(** A quotient of 53 or 54 bits with its remainder is rounded to a
    mantissa of 53 bits within one unit of the quotient's grid. *)
Lemma binary_round_aux_nearest (s : bool) (q r D e : Z) :
  2 ^ 52 <= q < 2 ^ 54 -> 0 <= r < D -> Z.even D = true -> -1074 <= e <= 900 ->
  exists p j,
    binary_round_aux prec emax s q e (new_location D r) = S754_finite s p (e + j) /\
    Zpos (digits2_pos p) = 53 /\ 0 <= j <= 2 /\
    Z.abs (Zpos p * 2 ^ j * D - (q * D + r)) <= D.
Proof.
  intros Hq Hr HD He. unfold binary_round_aux.
  destruct (first_shift q e (q * D + r) D (new_location D r))
    as (r1 & k & E1 & Hk & Hs1 & Hm1); [lia|lia|lia|now apply stands_for_division|].
  rewrite E1.
  assert (HkD : 0 < 2 ^ k * D) by (assert (0 < 2 ^ k) by (apply Z.pow_pos_nonneg; lia); nia).
  destruct (round_nearest_even_nearest r1 (q * D + r) (2 ^ k * D) HkD Hs1) as [Hmr Hnear].
  cbv zeta in Hmr, Hnear.
  set (mr := round_nearest_even (shr_m r1) (loc_of_shr_record r1)) in *.
  destruct (second_shift mr (e + k)) as (r2 & p & j & E2 & Hp & Hd & Hj & Hv);
    [change (2 ^ 53) with (2 ^ 52 + 2 ^ 52) in *; lia|lia|].
  rewrite E2, Hp.
  replace (e + k + j <=? emax - prec) with true
    by (symmetry; apply Z.leb_le; unfold emax, prec; lia).
  exists p, (k + j). split; [now rewrite Z.add_assoc|]. split; [assumption|].
  split; [lia|].
  rewrite (Z.add_comm k j), Z.pow_add_r, Z.mul_assoc, Hv by lia.
  assert (Hk2 : 2 ^ k = 1 \/ 2 ^ k = 2).
  { destruct (Z.eq_dec k 0) as [->|]; [now left|right].
    replace k with 1 by lia. reflexivity. }
  rewrite <- Z.mul_assoc. destruct Hk2 as [Hk2|Hk2]; rewrite Hk2 in *; lia.
Qed.

Lemma round_half_even_unique (a n T : Z) :
  0 < T -> 2 * Z.abs (a - n * T) < T -> round_half_even a T = n.
Proof.
  intros HT Hnear. unfold round_half_even.
  destruct (Z.le_gt_cases (n * T) a) as [Hle|Hgt].
  - assert (Hq : a / T = n) by (symmetry; apply (Z.div_unique a T n (a - n * T)); lia).
    assert (Hr : a mod T = a - n * T) by (symmetry; apply (Z.mod_unique a T n); lia).
    rewrite Hq, Hr.
    destruct (Z.compare_spec (2 * (a - n * T)) T); lia.
  - assert (Hq : a / T = n - 1)
      by (symmetry; apply (Z.div_unique a T (n - 1) (a - (n - 1) * T)); lia).
    assert (Hr : a mod T = a - (n - 1) * T)
      by (symmetry; apply (Z.mod_unique a T (n - 1)); lia).
    rewrite Hq, Hr.
    destruct (Z.compare_spec (2 * (a - (n - 1) * T)) T); lia.
Qed.

(** The binary64 value nearest to [n / D], for [n] below [2^52] and a
    divisor [D] of 27 bits: its mantissa has 53 bits, and multiplied back by
    [D] it is rounded to [n]. *)
Lemma SFdiv_decimal (s : bool) (n D : positive) :
  Zpos n < 2 ^ 52 -> Zpos (digits2_pos D) = 27 -> Z.even (Zpos D) = true ->
  exists p e,
    SFdiv prec emax (S754_finite s n 0) (S754_finite false D 0) = S754_finite s p e /\
    Zpos (digits2_pos p) = 53 /\ -79 <= e < 0 /\
    round_half_even (Zpos p * Zpos D) (2 ^ (- e)) = Zpos n.
Proof.
  intros Hn HdD HD.
  destruct (Rounding.digits_bounds n) as [Hn1 Hn2].
  destruct (Rounding.digits_bounds D) as [HD1 HD2]. rewrite HdD in HD1, HD2.
  change (27 - 1) with 26 in HD1.
  set (d1 := Zpos (digits2_pos n)) in *.
  assert (Hd1 : 1 <= d1 <= 52).
  { split; [unfold d1; lia|].
    destruct (Z.le_gt_cases d1 52); [assumption|].
    assert (2 ^ 52 <= 2 ^ (d1 - 1)) by (apply Z.pow_le_mono_r; lia). lia. }
  unfold SFdiv, SFdiv_core_binary. cbn [Zdigits2]. fold d1. rewrite HdD.
  replace (Z.min (fexp prec emax (d1 + 0 - (27 + 0))) (0 - 0)) with (d1 - 80)
    by (unfold fexp, emin, prec, emax; lia).
  replace (0 - 0 - (d1 - 80)) with (80 - d1) by lia.
  destruct (80 - d1) as [|sh|sh] eqn:Hsh; try lia.
  rewrite Z.shiftl_mul_pow2 by lia. rewrite <- Hsh. clear sh Hsh.
  set (X := Zpos n * 2 ^ (80 - d1)).
  assert (HX : 2 ^ 79 <= X < 2 ^ 80).
  { assert (E79 : 2 ^ 79 = 2 ^ (d1 - 1) * 2 ^ (80 - d1))
      by (rewrite <- Z.pow_add_r by lia; f_equal; lia).
    assert (E80 : 2 ^ 80 = 2 ^ d1 * 2 ^ (80 - d1))
      by (rewrite <- Z.pow_add_r by lia; f_equal; lia).
    rewrite E79, E80. unfold X.
    assert (0 < 2 ^ (80 - d1)) by (apply Z.pow_pos_nonneg; lia). nia. }
  pose proof (Z.div_mod X (Zpos D) ltac:(lia)) as Hdm.
  pose proof (Z.mod_pos_bound X (Zpos D) ltac:(lia)) as Hr.
  unfold Z.div, Z.modulo in Hdm, Hr.
  destruct (Z.div_eucl X (Zpos D)) as [q r].
  assert (Hq : 2 ^ 52 <= q < 2 ^ 54).
  { change (2 ^ 79) with (2 ^ 52 * 2 ^ 27) in HX.
    change (2 ^ 80) with (2 ^ 54 * 2 ^ 26) in HX. nia. }
  destruct (binary_round_aux_nearest (xorb s false) q r (Zpos D) (d1 - 80) Hq Hr HD
              ltac:(lia)) as (p & j & E & Hp & Hj & Hnear).
  rewrite E. exists p, (d1 - 80 + j).
  split; [now destruct s|]. split; [assumption|]. split; [lia|].
  apply round_half_even_unique; [apply Z.pow_pos_nonneg; lia|].
  replace (q * Zpos D + r) with X in Hnear by lia.
  assert (HT : X = Zpos n * 2 ^ (- (d1 - 80 + j)) * 2 ^ j).
  { unfold X. rewrite <- Z.mul_assoc, <- Z.pow_add_r by lia. do 2 f_equal. lia. }
  set (T := 2 ^ (- (d1 - 80 + j))) in *.
  assert (HTj : T * 2 ^ j = 2 ^ (80 - d1)).
  { unfold T. rewrite <- Z.pow_add_r by lia. f_equal. lia. }
  assert (H28 : 2 ^ 28 <= 2 ^ (80 - d1)) by (apply Z.pow_le_mono_r; lia).
  assert (Hj0 : 0 < 2 ^ j) by (apply Z.pow_pos_nonneg; lia).
  change (2 ^ 27) with 134217728 in HD2. change (2 ^ 28) with 268435456 in H28.
  rewrite HT in Hnear.
  replace (Zpos p * 2 ^ j * Zpos D - Zpos n * T * 2 ^ j)
    with ((Zpos p * Zpos D - Zpos n * T) * 2 ^ j) in Hnear by ring.
  rewrite Z.abs_mul, (Z.abs_eq (2 ^ j)) in Hnear by lia.
  nia.
Qed.

(** A price that is the binary64 value nearest to a decimal number with
    eight fractional digits, [n / 10^8] with [n] below [2^52], is its own
    rounding to eight decimals. *)
Lemma rounded_to_decimals_decimal (s : bool) (n : Z) :
  0 <= n < 2 ^ 52 ->
  rounded_to_decimals 8 (decimal_to_float s n 8) = decimal_to_float s n 8.
Proof.
  intros Hn. destruct n as [|p|p]; [| |lia].
  - unfold rounded_to_decimals, decimal_to_float.
    now rewrite Prim2SF_SF2Prim by reflexivity.
  - unfold rounded_to_decimals. cbn [decimal_to_float].
    change (Z.to_pos (10 ^ Z.of_nat 8)) with 100000000%positive.
    destruct (SFdiv_decimal s p 100000000 ltac:(lia) eq_refl eq_refl)
      as (m & e & E & Hm & He & Hround).
    rewrite E, Prim2SF_SF2Prim.
    + unfold scaled_decimal. destruct (Z.leb_spec 0 e) as [?|_]; [lia|].
      change (10 ^ Z.of_nat 8) with (Zpos 100000000).
      rewrite Hround. cbn [decimal_to_float].
      change (Z.to_pos (10 ^ Z.of_nat 8)) with 100000000%positive.
      now rewrite E.
    + unfold valid_binary, SpecFloat.valid_binary, bounded, canonical_mantissa.
      rewrite Hm. apply andb_true_intro. split.
      * apply Z.eqb_eq. unfold fexp, emin, FloatOps.prec, FloatOps.emax. lia.
      * apply Z.leb_le. unfold FloatOps.prec, FloatOps.emax. lia.
Qed.

(* ===================================================================== *)
(** * Running the blocks of [process_symbol]                              *)
(* ===================================================================== *)

Ltac console_grows :=
  unfold console_extends; simpl; rewrite <- ?app_assoc; eexists; reflexivity.

Lemma console_extends_refl (w : World) : console_extends w w.
Proof. exists []. now rewrite app_nil_r. Qed.

Lemma console_extends_trans (w1 w2 w3 : World) :
  console_extends w1 w2 -> console_extends w2 w3 -> console_extends w1 w3.
Proof.
  intros [l1 H1] [l2 H2]. exists (l1 ++ l2). now rewrite H2, H1, app_assoc.
Qed.

Lemma bind_run {A B : Type} (m : M A) (k : A -> M B) (w w' : World) (r : result A) :
  m w = (r, w') ->
  bind m k w = match r with
               | Ok a => k a w'
               | Raise e => (Raise e, w')
               end.
Proof. unfold bind. now intros ->. Qed.

Lemma profit_percentage_total (purchase_price : option float) (current_price : float) :
  exists profit, profit_percentage purchase_price current_price = Ok profit.
Proof.
  unfold profit_percentage, truthy, py_truediv.
  destruct purchase_price as [p|]; [|now eexists].
  destruct (p =? 0)%float; simpl; now eexists.
Qed.

Lemma place_sell_order_run (ex : Exchange) (symbol : string) (qty : float) (w : World) :
  place_sell_order ex symbol qty w =
  (order_market_sell ex symbol qty,
   {| files := files w;
      orders := orders w ++ [MarketSell symbol qty];
      console := console w ++ [SellingLine qty symbol] |}).
Proof. reflexivity. Qed.

Lemma place_buy_order_run (ex : Exchange) (symbol : string) (amount_usdt : float)
    (rounding : string) (w : World) :
  console_extends w (snd (place_buy_order ex symbol amount_usdt rounding w)) /\
  ((orders (snd (place_buy_order ex symbol amount_usdt rounding w)) = orders w /\
    files (snd (place_buy_order ex symbol amount_usdt rounding w)) = files w) \/
   exists qty, orders (snd (place_buy_order ex symbol amount_usdt rounding w))
               = orders w ++ [MarketBuy symbol qty]).
Proof.
  unfold place_buy_order, bind, lift, print, submit, update_files.
  destruct (get_price ex symbol) as [price|e]; simpl;
    [|split; [apply console_extends_refl|now left]].
  destruct (py_truediv amount_usdt price) as [q|e]; simpl;
    [|split; [apply console_extends_refl|now left]].
  destruct (round_quantity rounding q) as [qty|e]; simpl;
    [|split; [apply console_extends_refl|now left]].
  destruct (order_market_buy ex symbol qty) as [[]|e]; simpl;
    (split; [now eexists|right; now exists qty]).
Qed.

Lemma profit_check_no_purchase (cfg : Config) (ex : Exchange) (symbol : string)
    (balance current_price balance_in_usd : float) (purchase_price : option float) (w : World) :
  truthy_opt purchase_price = false ->
  profit_check cfg ex symbol balance current_price balance_in_usd purchase_price w =
  (Ok tt,
   with_console w (if (1 <? balance_in_usd)%float then [ProfitLine 0; NotReachedLine]
                   else [BelowDustLine])).
Proof.
  intros Hp. unfold profit_check, with_console.
  destruct (1 <? balance_in_usd)%float; [|reflexivity].
  assert (Hpp : profit_percentage purchase_price current_price = Ok 0%float).
  { destruct purchase_price as [p|]; [|reflexivity]. simpl in Hp.
    unfold profit_percentage. now rewrite Hp. }
  assert (Hts : trailing_stop_fires purchase_price current_price
                  (PROFIT_TARGET cfg) (TRAILING_STOP cfg) = false).
  { destruct purchase_price as [p|]; [|reflexivity]. simpl in *. now rewrite Hp. }
  unfold bind, lift, print, take_profit. rewrite Hpp, Hp, Hts. simpl.
  now rewrite <- app_assoc.
Qed.

Lemma profit_check_sells (cfg : Config) (ex : Exchange) (symbol : string)
    (balance current_price balance_in_usd p : float) (w : World) :
  let profit := ((current_price - p) / p * 100)%float in
  let fires := (PROFIT_TARGET cfg <=? profit)%float in
  (1 <? balance_in_usd)%float = true ->
  truthy p = true ->
  fires || should_sell_with_trailing_stop p current_price (PROFIT_TARGET cfg) (TRAILING_STOP cfg) = true ->
  let w' := snd (profit_check cfg ex symbol balance current_price balance_in_usd (Some p) w) in
  orders w' = orders w ++ [MarketSell symbol balance] /\
  console w' = console w ++
    [ProfitLine profit;
     if fires then TargetReachedLine symbol else TrailingStopLine symbol;
     SellingLine balance symbol].
Proof.
  intros profit fires Hb Hp Hfire. unfold profit_check. rewrite Hb.
  assert (Hpp : profit_percentage (Some p) current_price = Ok profit).
  { unfold profit_percentage, py_truediv. rewrite Hp.
    unfold truthy in Hp. apply negb_true_iff in Hp. now rewrite Hp. }
  unfold take_profit, trailing_stop_fires, place_sell_order,
    bind, lift, print, submit, update_files.
  rewrite Hpp. cbn [truthy_opt]. fold fires.
  destruct fires; simpl in Hfire; rewrite ?Hp, ?Hfire;
    destruct (order_market_sell ex symbol balance) as [[]|e]; simpl;
    rewrite <- ?app_assoc; auto.
Qed.

Lemma profit_check_run (cfg : Config) (ex : Exchange) (symbol : string)
    (balance current_price balance_in_usd : float) (purchase_price : option float) (w : World) :
  let w' := snd (profit_check cfg ex symbol balance current_price balance_in_usd purchase_price w) in
  console_extends w w' /\
  ((orders w' = orders w /\ files w' = files w) \/
   ((1 <? balance_in_usd)%float = true /\ truthy_opt purchase_price = true /\
    orders w' = orders w ++ [MarketSell symbol balance])).
Proof.
  destruct (truthy_opt purchase_price) eqn:Hp.
  - destruct purchase_price as [p|]; [|discriminate]. simpl in Hp.
    destruct (1 <? balance_in_usd)%float eqn:Hb.
    + destruct ((PROFIT_TARGET cfg <=? (current_price - p) / p * 100)%float
                || should_sell_with_trailing_stop p current_price
                     (PROFIT_TARGET cfg) (TRAILING_STOP cfg)) eqn:Hfire.
      * destruct (profit_check_sells cfg ex symbol balance current_price balance_in_usd p w
                    Hb Hp Hfire) as [Ho Hc].
        simpl. split; [eexists; exact Hc|]. right. auto.
      * apply orb_false_iff in Hfire as [Htp Hts].
        assert (Hp0 : (p =? 0)%float = false) by (now apply negb_true_iff).
        unfold profit_check, profit_percentage, py_truediv, take_profit,
          trailing_stop_fires, bind, lift, print.
        cbn [truthy_opt result_bind]. rewrite Hb, Hp, Hp0. cbn [result_bind].
        rewrite Htp, Hts. simpl.
        split; [console_grows|now left].
    + unfold profit_check. rewrite Hb. simpl. split; [console_grows|now left].
  - rewrite profit_check_no_purchase by assumption. simpl.
    split; [console_grows|now left].
Qed.

Lemma entry_check_run (cfg : Config) (pd : pandas) (ex : Exchange)
    (symbol_data : SymbolData) (current_price balance_in_usd : float) (w : World) :
  let w' := snd (entry_check cfg pd ex symbol_data current_price balance_in_usd w) in
  console_extends w w' /\
  ((orders w' = orders w /\ files w' = files w) \/
   ((balance_in_usd <? 1)%float = true /\
    exists qty, orders w' = orders w ++ [MarketBuy (sd_symbol symbol_data) qty])).
Proof.
  unfold entry_check, bind, lift.
  destruct (get_historical_klines _ _) as [prices|e]; simpl;
    [|split; [apply console_extends_refl|now left]].
  destruct (calculate_bollinger_bands _ _ _ _) as [bands|e]; simpl;
    [|split; [apply console_extends_refl|now left]].
  destruct (calculate_rsi _ _ _) as [rsi|e]; simpl;
    [|split; [apply console_extends_refl|now left]].
  destruct (rsi_line _ _) as [shown|e]; simpl;
    [|split; [apply console_extends_refl|now left]].
  unfold when.
  destruct (buy_condition _ _ _) eqn:Hbuy; simpl; [|split; [console_grows|now left]].
  apply andb_true_iff in Hbuy as [_ Hdust].
  match goal with |- context [place_buy_order ?e ?s ?a ?r ?w0] =>
    destruct (place_buy_order_run e s a r w0) as [Hc Ho];
    destruct (place_buy_order e s a r w0) as [[[]|err] w1]
  end; simpl in *.
  all: split; [eapply console_extends_trans; [|exact Hc]; console_grows|].
  all: destruct Ho as [[Ho Hf]|[qty Ho]]; [left; now rewrite Ho, Hf|right; split; [assumption|now exists qty]].
Qed.

Lemma process_symbol_body_run (cfg : Config) (pd : pandas) (ex : Exchange)
    (symbol_data : SymbolData) (w : World) (balance current_price : float)
    (purchase_price : option float) :
  check_if_symbol_in_balance ex (sd_symbol symbol_data) = Ok balance ->
  get_price ex (sd_symbol symbol_data) = Ok current_price ->
  read_purchase_price (sd_symbol symbol_data) (files w) = Ok purchase_price ->
  process_symbol_body cfg pd ex symbol_data w =
  (profit_check cfg ex (sd_symbol symbol_data) balance current_price
     (balance * current_price) purchase_price ;;
   entry_check cfg pd ex symbol_data current_price (balance * current_price) ;;
   print FooterLine)
    (with_console w (header_lines (sd_symbol symbol_data) balance current_price purchase_price)).
Proof.
  intros Hb Hc Hp. unfold process_symbol_body.
  unfold bind at 1, lift at 1. rewrite Hb.
  unfold bind at 1, lift at 1. rewrite Hc.
  unfold bind at 1, with_files at 1. rewrite Hp.
  unfold header_lines, with_console, when.
  destruct (truthy_opt purchase_price); unfold bind, print, ret; simpl;
    rewrite <- ?app_assoc; reflexivity.
Qed.

Lemma process_symbol_body_fails (cfg : Config) (pd : pandas) (ex : Exchange)
    (symbol_data : SymbolData) (w : World) :
  (exists e, check_if_symbol_in_balance ex (sd_symbol symbol_data) = Raise e) \/
  (exists e, get_price ex (sd_symbol symbol_data) = Raise e) \/
  (exists e, read_purchase_price (sd_symbol symbol_data) (files w) = Raise e) ->
  exists e, process_symbol_body cfg pd ex symbol_data w = (Raise e, w).
Proof.
  unfold process_symbol_body, bind, lift, with_files.
  intros [[e H]|[[e H]|[e H]]];
    destruct (check_if_symbol_in_balance _ _); try (eexists; reflexivity);
    destruct (get_price _ _); try (eexists; reflexivity); try discriminate;
    rewrite H; eexists; reflexivity.
Qed.

Lemma process_symbol_keeps_orders_on_failure (cfg : Config) (pd : pandas) (ex : Exchange)
    (symbol_data : SymbolData) (w : World) (e : exn) :
  process_symbol_body cfg pd ex symbol_data w = (Raise e, w) ->
  orders (process_symbol cfg pd ex symbol_data w) = orders w.
Proof. unfold process_symbol. now intros ->. Qed.

(** What the cycle does after the header: at most one order. *)
Lemma cycle_run (cfg : Config) (pd : pandas) (ex : Exchange) (symbol_data : SymbolData)
    (balance current_price : float) (purchase_price : option float) (w : World) :
  let symbol := sd_symbol symbol_data in
  let balance_in_usd := (balance * current_price)%float in
  let w' := snd ((profit_check cfg ex symbol balance current_price balance_in_usd purchase_price ;;
                  entry_check cfg pd ex symbol_data current_price balance_in_usd ;;
                  print FooterLine) w) in
  console_extends w w' /\
  (orders w' = orders w \/
   ((1 <? balance_in_usd)%float = true /\ truthy_opt purchase_price = true /\
    orders w' = orders w ++ [MarketSell symbol balance]) \/
   ((balance_in_usd <? 1)%float = true /\
    exists qty, orders w' = orders w ++ [MarketBuy symbol qty])).
Proof.
  intros symbol balance_in_usd. subst symbol. unfold bind.
  destruct (profit_check_run cfg ex (sd_symbol symbol_data) balance current_price balance_in_usd
              purchase_price w) as [Hc1 Ho1].
  destruct (profit_check _ _ _ _ _ _ _ w) as [[[]|e1] w1]; simpl in Hc1, Ho1.
  - destruct (entry_check_run cfg pd ex symbol_data current_price balance_in_usd w1)
      as [Hc2 Ho2].
    destruct (entry_check _ _ _ _ _ _ w1) as [[[]|e2] w2]; simpl in Hc2, Ho2; simpl.
    all: split; [eapply console_extends_trans; [exact Hc1|];
                 eapply console_extends_trans; [exact Hc2|]; console_grows
                 || apply console_extends_refl|].
    all: destruct Ho1 as [[Ho1 _]|(Hb & Hp & Ho1)];
      destruct Ho2 as [[Ho2 _]|(Hd & qty & Ho2)];
      try (apply FloatOrder.ltb_asym in Hb; congruence).
    all: try (left; congruence).
    all: try (right; left; repeat split; congruence).
    all: right; right; split; [assumption|exists qty; congruence].
  - simpl. split; [assumption|].
    destruct Ho1 as [[Ho1 _]|(Hb & Hp & Ho1)]; [now left|right; left; auto].
Qed.

(** With an undefined RSI the entry block sends no order. *)
Lemma no_buy_with_undefined_rsi (cfg : Config) (pd : pandas) (ex : Exchange)
    (symbol_data : SymbolData) (current_price balance_in_usd : float) (w : World)
    (prices : list float) (rsi : option float) :
  get_historical_klines ex (sd_symbol symbol_data) = Ok prices ->
  calculate_rsi pd prices (RSI_PERIOD cfg) = Ok rsi ->
  rsi = None \/ rsi = Some nan ->
  orders (snd (entry_check cfg pd ex symbol_data current_price balance_in_usd w)) = orders w.
Proof.
  intros Hk Hr Hrsi. unfold entry_check, bind, lift. rewrite Hk.
  destruct (calculate_bollinger_bands _ _ _ _) as [bands|e]; [|reflexivity].
  rewrite Hr. destruct Hrsi as [->| ->]; [reflexivity|].
  unfold rsi_line, when, buy_condition. cbn [fst snd].
  rewrite FloatOrder.ltb_nan_l. reflexivity.
Qed.

(** An order of the entry block was decided by the buy test, on an RSI
    that is a float and on the threshold of the bands. *)
Lemma entry_check_buys_only_if (cfg : Config) (pd : pandas) (ex : Exchange)
    (symbol_data : SymbolData) (current_price balance_in_usd : float) (w : World) :
  orders (snd (entry_check cfg pd ex symbol_data current_price balance_in_usd w)) = orders w \/
  exists prices bands rsi,
    get_historical_klines ex (sd_symbol symbol_data) = Ok prices /\
    calculate_bollinger_bands pd prices 20 2 = Ok bands /\
    calculate_rsi pd prices (RSI_PERIOD cfg) = Ok (Some rsi) /\
    buy_condition rsi
      (float_of_Z (dynamic_rsi_threshold current_price (fst bands) (snd bands)))
      balance_in_usd = true.
Proof.
  unfold entry_check, bind, lift.
  destruct (get_historical_klines ex (sd_symbol symbol_data)) as [prices|e] eqn:Hk;
    [|now left].
  destruct (calculate_bollinger_bands pd prices 20 2) as [bands|e] eqn:Hb; [|now left].
  destruct (calculate_rsi pd prices (RSI_PERIOD cfg)) as [[rsi|]|e] eqn:Hr;
    [|now left|now left].
  unfold rsi_line, when. cbn [fst snd].
  destruct (buy_condition _ _ _) eqn:Hbuy; [|now left].
  right. exists prices, bands, rsi. now rewrite Hb, Hr.
Qed.

Lemma held_without_purchase_price (cfg : Config) (pd : pandas) (ex : Exchange)
    (symbol_data : SymbolData) (w : World) (balance current_price : float)
    (purchase_price : option float) :
  check_if_symbol_in_balance ex (sd_symbol symbol_data) = Ok balance ->
  get_price ex (sd_symbol symbol_data) = Ok current_price ->
  read_purchase_price (sd_symbol symbol_data) (files w) = Ok purchase_price ->
  truthy_opt purchase_price = false ->
  orders (process_symbol cfg pd ex symbol_data w) = orders w \/
  (balance * current_price <? 1)%float = true /\
  exists qty, orders (process_symbol cfg pd ex symbol_data w)
              = orders w ++ [MarketBuy (sd_symbol symbol_data) qty].
Proof.
  intros Hbal Hprice Hread Hp. unfold process_symbol.
  rewrite (process_symbol_body_run cfg pd ex symbol_data w balance current_price purchase_price)
    by assumption.
  set (w0 := with_console w _).
  destruct (cycle_run cfg pd ex symbol_data balance current_price purchase_price w0)
    as [_ Ho].
  cbv zeta in Ho.
  match type of Ho with context [snd ?r] => destruct r as [[[]|e] w1] end;
    simpl in Ho |- *.
  all: destruct Ho as [Ho|[(_ & Hp' & _)|(Hd & qty & Ho)]];
    [now left|congruence|right; split; [assumption|now exists qty]].
Qed.

Lemma entry_check_ignores_files (cfg : Config) (pd : pandas) (ex : Exchange)
    (symbol_data : SymbolData) (current_price balance_in_usd : float) (w1 w2 : World) :
  same_io w1 w2 ->
  fst (entry_check cfg pd ex symbol_data current_price balance_in_usd w1)
  = fst (entry_check cfg pd ex symbol_data current_price balance_in_usd w2) /\
  same_io (snd (entry_check cfg pd ex symbol_data current_price balance_in_usd w1))
          (snd (entry_check cfg pd ex symbol_data current_price balance_in_usd w2)).
Proof.
  intros [Ho Hc].
  unfold entry_check, place_buy_order, when, bind, lift, print, submit, update_files, ret, same_io.
  destruct (get_historical_klines _ _) as [prices|e]; simpl; [|auto].
  destruct (calculate_bollinger_bands _ _ _ _) as [bands|e]; simpl; [|auto].
  destruct (calculate_rsi _ _ _) as [rsi|e]; simpl; [|auto].
  destruct (rsi_line _ _) as [shown|e]; simpl; [|auto].
  destruct (buy_condition _ _ _); simpl; [|rewrite Ho, Hc; auto].
  unfold get_price. simpl.
  destruct (get_symbol_ticker_again _ _) as [price|e]; simpl; [|rewrite Ho, Hc; auto].
  destruct (py_truediv _ _) as [q|e]; simpl; [|rewrite Ho, Hc; auto].
  destruct (round_quantity _ _) as [qty|e]; simpl; [|rewrite Ho, Hc; auto].
  destruct (order_market_buy _ _ _) as [[]|e]; simpl; rewrite Ho, Hc; auto.
Qed.

Lemma read_purchase_price_deleted (symbol : string) (fs : gmap string string) :
  read_purchase_price symbol (delete (purchase_price_file symbol) fs) = Ok None.
Proof. unfold read_purchase_price. now rewrite lookup_delete_eq. Qed.

(** Two cycles that start with the same orders and console and read no
    usable purchase price send the same orders and print the same lines. *)
Lemma untracked_cycles_agree (cfg : Config) (pd : pandas) (ex : Exchange)
    (symbol_data : SymbolData) (w1 w2 : World) (balance current_price : float)
    (p1 p2 : option float) :
  same_io w1 w2 ->
  check_if_symbol_in_balance ex (sd_symbol symbol_data) = Ok balance ->
  get_price ex (sd_symbol symbol_data) = Ok current_price ->
  read_purchase_price (sd_symbol symbol_data) (files w1) = Ok p1 ->
  read_purchase_price (sd_symbol symbol_data) (files w2) = Ok p2 ->
  truthy_opt p1 = false -> truthy_opt p2 = false ->
  same_io (process_symbol cfg pd ex symbol_data w1)
          (process_symbol cfg pd ex symbol_data w2).
Proof.
  intros [Ho Hc] Hbal Hprice Hr1 Hr2 Hp1 Hp2. unfold process_symbol.
  rewrite (process_symbol_body_run cfg pd ex symbol_data w1 balance current_price p1),
          (process_symbol_body_run cfg pd ex symbol_data w2 balance current_price p2)
    by assumption.
  unfold header_lines. rewrite Hp1, Hp2.
  set (hs := [HeaderLine _; _; _] ++ []).
  set (ls := if (1 <? balance * current_price)%float
             then [ProfitLine 0; NotReachedLine] else [BelowDustLine]).
  rewrite (bind_run _ _ _ _ _
             (profit_check_no_purchase cfg ex (sd_symbol symbol_data) balance current_price
                (balance * current_price) p1 (with_console w1 hs) Hp1)),
          (bind_run _ _ _ _ _
             (profit_check_no_purchase cfg ex (sd_symbol symbol_data) balance current_price
                (balance * current_price) p2 (with_console w2 hs) Hp2)).
  fold ls.
  set (wa := with_console (with_console w1 hs) ls).
  set (wb := with_console (with_console w2 hs) ls).
  assert (Hio : same_io wa wb).
  { unfold same_io, wa, wb, with_console. simpl. now rewrite Ho, Hc. }
  destruct (entry_check_ignores_files cfg pd ex symbol_data current_price
              (balance * current_price) wa wb Hio) as [Hr [Ho' Hc']].
  destruct (entry_check cfg pd ex symbol_data current_price (balance * current_price) wa)
    as [ra wa'] eqn:Ea.
  destruct (entry_check cfg pd ex symbol_data current_price (balance * current_price) wb)
    as [rb wb'] eqn:Eb.
  rewrite (bind_run _ _ _ _ _ Ea), (bind_run _ _ _ _ _ Eb).
  simpl in Hr, Ho', Hc'. subst rb.
  destruct ra as [[]|e]; unfold same_io; simpl; now rewrite Ho', Hc'.
Qed.

(** ** Undefined indicators of short histories *)

Lemma nan_of_spec (x : float) : Prim2SF x = S754_nan -> x = nan.
Proof. intros H. rewrite <- (SF2Prim_Prim2SF x), H. reflexivity. Qed.

Lemma nan_band (std_dev : float) :
  (nan + nan * std_dev)%float = nan /\ (nan - nan * std_dev)%float = nan.
Proof.
  split; apply nan_of_spec; [rewrite add_spec|rewrite sub_spec]; reflexivity.
Qed.

Lemma rolling_short (window : nat) (agg : nat -> list float -> float) (s : list float) :
  (length s < window)%nat -> rolling window agg s = replicate (length s) nan.
Proof.
  intros Hlen. unfold rolling.
  assert (H : forall n start, (start + n < window)%nat ->
            map (fun i : nat =>
                   if (S i <? window)%nat then nan
                   else agg window (firstn (S i) s))
                (seq start n) = replicate n nan).
  { induction n as [|n IH]; intros start Hs; [reflexivity|]. simpl.
    replace (S start <? window)%nat with true by (symmetry; apply Nat.ltb_lt; lia).
    f_equal. apply IH. lia. }
  apply H. lia.
Qed.

Lemma iloc_last_replicate {A : Type} (n : nat) (x : A) :
  (0 < n)%nat -> iloc_last (replicate n x) = Ok x.
Proof.
  intros Hn. unfold iloc_last. rewrite last_lookup, length_replicate.
  rewrite lookup_replicate_2 by lia. reflexivity.
Qed.

Lemma iloc_last_rows {A : Type} (f : nat -> A) (n : nat) :
  (0 < n)%nat -> iloc_last (map f (seq 0 n)) = Ok (f (pred n)).
Proof.
  intros Hn. destruct n as [|n]; [lia|].
  unfold iloc_last. rewrite seq_S, map_app. simpl. now rewrite last_snoc.
Qed.

(* ===================================================================== *)
(** * The footprint of a cycle                                            *)
(* ===================================================================== *)

Lemma after_keep (name : string) (w : World) : after name Keep [] [] w = w.
Proof. destruct w. unfold after. simpl. now rewrite !app_nil_r. Qed.

Lemma apply_then_effect (name : string) (e1 e2 : file_effect) (fs : gmap string string) :
  apply_effect name (then_effect e1 e2) fs = apply_effect name e2 (apply_effect name e1 fs).
Proof.
  destruct e2 as [|t2|]; [reflexivity| |]; destruct e1 as [|t1|];
    cbn [apply_effect then_effect]; symmetry;
    first [reflexivity | apply insert_insert_eq | apply insert_delete_eq
          | apply delete_insert_eq | apply delete_delete_eq].
Qed.

Lemma lookup_apply_effect (name : string) (e : file_effect) (fs : gmap string string) :
  apply_effect name e fs !! name = effect_text e (fs !! name).
Proof.
  destruct e; cbn [apply_effect effect_text];
    first [reflexivity | apply lookup_insert_eq | apply lookup_delete_eq].
Qed.

Lemma lookup_apply_effect_ne (name other : string) (e : file_effect)
    (fs : gmap string string) :
  name <> other -> apply_effect name e fs !! other = fs !! other.
Proof.
  intros Hne. destruct e; cbn [apply_effect];
    first [reflexivity | now apply lookup_insert_ne | now apply lookup_delete_ne].
Qed.

Lemma after_after (name : string) (e1 e2 : file_effect) (os1 os2 : list order)
    (ls1 ls2 : list line) (w : World) :
  after name e2 os2 ls2 (after name e1 os1 ls1 w)
  = after name (then_effect e1 e2) (os1 ++ os2) (ls1 ++ ls2) w.
Proof.
  unfold after. simpl. now rewrite apply_then_effect, !app_assoc.
Qed.

Section Local.
Variable name : string.

Lemma local_ret {A : Type} (a : A) (text : option string) : local_to name text (ret a).
Proof. exists (Ok a), Keep, [], []. intros w _. now rewrite after_keep. Qed.

Lemma local_lift {A : Type} (r : result A) (text : option string) :
  local_to name text (lift r).
Proof. exists r, Keep, [], []. intros w _. now rewrite after_keep. Qed.

Lemma local_print (l : line) (text : option string) : local_to name text (print l).
Proof.
  exists (Ok tt), Keep, [], [l]. intros w _. unfold print, after. simpl.
  now rewrite app_nil_r.
Qed.

Lemma local_submit (o : order) (text : option string) : local_to name text (submit o).
Proof.
  exists (Ok tt), Keep, [o], []. intros w _. unfold submit, after. simpl.
  now rewrite app_nil_r.
Qed.

Lemma local_bind {A B : Type} (m : M A) (k : A -> M B) (text : option string) :
  local_to name text m ->
  (forall a text', local_to name text' (k a)) ->
  local_to name text (bind m k).
Proof.
  intros (r & e & os & ls & Hm) Hk. destruct r as [a|err].
  - destruct (Hk a (effect_text e text)) as (r2 & e2 & os2 & ls2 & Hk2).
    exists r2, (then_effect e e2), (os ++ os2), (ls ++ ls2). intros w Hw.
    unfold bind. rewrite (Hm w Hw), Hk2.
    + now rewrite after_after.
    + unfold after. simpl. now rewrite lookup_apply_effect, Hw.
  - exists (Raise err), e, os, ls. intros w Hw. unfold bind. now rewrite (Hm w Hw).
Qed.

Lemma local_when (b : bool) (m : M unit) (text : option string) :
  local_to name text m -> local_to name text (when b m).
Proof. destruct b; [auto|intros _; apply local_ret]. Qed.

End Local.

Lemma local_read_purchase_price (symbol : string) (text : option string) :
  local_to (purchase_price_file symbol) text (with_files (read_purchase_price symbol)).
Proof.
  exists (match text with
          | None => Ok None
          | Some t => result_bind (float_of_text (list_ascii_of_string t))
                                  (fun x => Ok (Some x))
          end), Keep, [], [].
  intros w Hw. unfold with_files, read_purchase_price. now rewrite Hw, after_keep.
Qed.

Lemma local_write_purchase_price (symbol : string) (price : float) (text : option string) :
  local_to (purchase_price_file symbol) text (update_files (write_purchase_price symbol price)).
Proof.
  exists (Ok tt), (Put (format_fixed 8 price)), [], []. intros w _.
  unfold update_files, write_purchase_price, after. simpl. now rewrite !app_nil_r.
Qed.

Lemma clear_purchase_price_delete (symbol : string) (fs : gmap string string) :
  clear_purchase_price symbol fs = delete (purchase_price_file symbol) fs.
Proof.
  unfold clear_purchase_price. case_bool_decide as H; [reflexivity|].
  symmetry. apply delete_id. destruct (fs !! purchase_price_file symbol) eqn:E; [|reflexivity].
  exfalso. apply H. eauto.
Qed.

Lemma local_clear_purchase_price (symbol : string) (text : option string) :
  local_to (purchase_price_file symbol) text (update_files (clear_purchase_price symbol)).
Proof.
  exists (Ok tt), Remove, [], []. intros w _.
  unfold update_files, after. simpl. now rewrite clear_purchase_price_delete, !app_nil_r.
Qed.

Create HintDb footprint.
#[local] Hint Resolve local_ret local_lift local_print local_submit local_when
  local_read_purchase_price local_write_purchase_price local_clear_purchase_price : footprint.

Ltac local_step :=
  first [ apply local_bind; [|intros ? ?]
        | apply local_when
        | solve [auto with footprint] ].

Lemma local_place_sell_order (ex : Exchange) (symbol : string) (qty : float)
    (text : option string) :
  local_to (purchase_price_file symbol) text (place_sell_order ex symbol qty).
Proof. unfold place_sell_order. repeat local_step. Qed.

Lemma local_place_buy_order (ex : Exchange) (symbol : string) (amount_usdt : float)
    (rounding : string) (text : option string) :
  local_to (purchase_price_file symbol) text (place_buy_order ex symbol amount_usdt rounding).
Proof. unfold place_buy_order. repeat local_step. Qed.

Lemma local_profit_check (cfg : Config) (ex : Exchange) (symbol : string)
    (balance current_price balance_in_usd : float) (purchase_price : option float)
    (text : option string) :
  local_to (purchase_price_file symbol) text
    (profit_check cfg ex symbol balance current_price balance_in_usd purchase_price).
Proof.
  unfold profit_check.
  destruct (1 <? balance_in_usd)%float; [|auto with footprint].
  apply local_bind; [auto with footprint|intros profit text1].
  apply local_bind; [auto with footprint|intros _ text2].
  destruct (take_profit _ _ _); [|destruct (trailing_stop_fires _ _ _ _)];
    auto using local_place_sell_order with footprint;
    (apply local_bind; [auto with footprint|intros ? ?]);
    (apply local_bind; [apply local_place_sell_order|intros ? ?]); auto with footprint.
Qed.

Lemma local_entry_check (cfg : Config) (pd : pandas) (ex : Exchange)
    (symbol_data : SymbolData) (current_price balance_in_usd : float)
    (text : option string) :
  local_to (purchase_price_file (sd_symbol symbol_data)) text
    (entry_check cfg pd ex symbol_data current_price balance_in_usd).
Proof.
  unfold entry_check. cbv zeta.
  do 4 (apply local_bind; [auto with footprint|intros ? ?]).
  apply local_bind; [auto with footprint|intros ? ?].
  apply local_when. apply local_bind; [auto with footprint|intros ? ?].
  apply local_place_buy_order.
Qed.

Lemma local_process_symbol_body (cfg : Config) (pd : pandas) (ex : Exchange)
    (symbol_data : SymbolData) (text : option string) :
  local_to (purchase_price_file (sd_symbol symbol_data)) text
    (process_symbol_body cfg pd ex symbol_data).
Proof.
  unfold process_symbol_body. cbv zeta.
  do 2 (apply local_bind; [auto with footprint|intros ? ?]).
  apply local_bind; [apply local_read_purchase_price|intros ? ?].
  do 4 (apply local_bind; [auto with footprint|intros ? ?]).
  apply local_bind; [apply local_profit_check|intros ? ?].
  apply local_bind; [apply local_entry_check|intros ? ?].
  auto with footprint.
Qed.

Lemma process_symbol_local (cfg : Config) (pd : pandas) (ex : Exchange)
    (symbol_data : SymbolData) (text : option string) :
  exists (e : file_effect) (os : list order) (ls : list line),
    forall w : World,
      files w !! purchase_price_file (sd_symbol symbol_data) = text ->
      process_symbol cfg pd ex symbol_data w
      = after (purchase_price_file (sd_symbol symbol_data)) e os ls w.
Proof.
  destruct (local_process_symbol_body cfg pd ex symbol_data text)
    as (r & e & os & ls & H).
  destruct r as [[]|err].
  - exists e, os, ls. intros w Hw. unfold process_symbol. now rewrite (H w Hw).
  - exists e, os, (ls ++ [ErrorLine (sd_symbol symbol_data) err]). intros w Hw.
    unfold process_symbol. rewrite (H w Hw). unfold after. simpl.
    now rewrite app_assoc.
Qed.

(* ===================================================================== *)
(** * Orders and the purchase-price file                                  *)
(* ===================================================================== *)

Lemma place_buy_order_files (ex : Exchange) (symbol : string) (amount_usdt : float)
    (rounding : string) (w : World) :
  let w' := snd (place_buy_order ex symbol amount_usdt rounding w) in
  (orders w' = orders w /\ files w' = files w) \/
  exists price qty,
    get_price ex symbol = Ok price /\
    round_quantity rounding (amount_usdt / price) = Ok qty /\
    orders w' = orders w ++ [MarketBuy symbol qty] /\
    files w' = match order_market_buy ex symbol qty with
               | Ok _ => write_purchase_price symbol price (files w)
               | Raise _ => files w
               end.
Proof.
  unfold place_buy_order, bind, lift, print, submit, update_files, py_truediv.
  destruct (get_price ex symbol) as [price|e] eqn:Hp; simpl; [|now left].
  destruct (price =? 0)%float; simpl; [now left|].
  destruct (round_quantity rounding (amount_usdt / price)) as [qty|e] eqn:Hq; simpl; [|now left].
  right. exists price, qty.
  destruct (order_market_buy ex symbol qty) as [[]|e]; simpl; auto.
Qed.

Lemma profit_check_files (cfg : Config) (ex : Exchange) (symbol : string)
    (balance current_price balance_in_usd : float) (purchase_price : option float) (w : World) :
  let r := profit_check cfg ex symbol balance current_price balance_in_usd purchase_price w in
  (orders (snd r) = orders w /\ files (snd r) = files w) \/
  ((1 <? balance_in_usd)%float = true /\
   truthy_opt purchase_price = true /\
   orders (snd r) = orders w ++ [MarketSell symbol balance] /\
   match order_market_sell ex symbol balance with
   | Ok _ => fst r = Ok tt /\ files (snd r) = delete (purchase_price_file symbol) (files w)
   | Raise e => fst r = Raise e /\ files (snd r) = files w
   end).
Proof.
  cbv zeta. unfold profit_check.
  destruct (1 <? balance_in_usd)%float eqn:Hb; [|now left].
  destruct (profit_percentage_total purchase_price current_price) as [profit Hpp].
  unfold bind, lift, print, place_sell_order, submit, update_files. rewrite Hpp.
  assert (Htruthy : take_profit purchase_price profit (PROFIT_TARGET cfg) = true \/
                    trailing_stop_fires purchase_price current_price
                      (PROFIT_TARGET cfg) (TRAILING_STOP cfg) = true ->
                    truthy_opt purchase_price = true).
  { unfold take_profit, trailing_stop_fires.
    destruct purchase_price as [p|]; simpl; intros [H|H]; try discriminate;
      now apply andb_true_iff in H as [? _]. }
  destruct (take_profit purchase_price profit (PROFIT_TARGET cfg)) eqn:Htp;
    [|destruct (trailing_stop_fires purchase_price current_price _ _) eqn:Hts];
    [right|right|now left].
  all: split; [reflexivity|]; split; [auto|].
  all: destruct (order_market_sell ex symbol balance) as [[]|e]; simpl;
    rewrite ?clear_purchase_price_delete; auto.
Qed.

Lemma entry_check_files (cfg : Config) (pd : pandas) (ex : Exchange)
    (symbol_data : SymbolData) (current_price balance_in_usd : float) (w : World) :
  let w' := snd (entry_check cfg pd ex symbol_data current_price balance_in_usd w) in
  let symbol := sd_symbol symbol_data in
  (orders w' = orders w /\ files w' = files w) \/
  ((balance_in_usd <? 1)%float = true /\
   exists price qty,
     get_price (at_buy ex) symbol = Ok price /\
     round_quantity (sd_rounding symbol_data) (sd_amount_usdt symbol_data / price) = Ok qty /\
     orders w' = orders w ++ [MarketBuy symbol qty] /\
     files w' = match order_market_buy ex symbol qty with
                | Ok _ => write_purchase_price symbol price (files w)
                | Raise _ => files w
                end).
Proof.
  cbv zeta. unfold entry_check, bind, lift.
  destruct (get_historical_klines _ _) as [prices|e]; simpl; [|now left].
  destruct (calculate_bollinger_bands _ _ _ _) as [bands|e]; simpl; [|now left].
  destruct (calculate_rsi _ _ _) as [rsi|e]; simpl; [|now left].
  destruct (rsi_line _ _) as [shown|e]; simpl; [|now left].
  unfold when.
  destruct (buy_condition _ _ _) eqn:Hbuy; simpl; [|now left].
  apply andb_true_iff in Hbuy as [_ Hdust].
  match goal with |- context [place_buy_order ?e ?s ?a ?r ?w0] =>
    destruct (place_buy_order_files e s a r w0) as [[Ho Hf]|(price & qty & Hp & Hq & Ho & Hf)];
    destruct (place_buy_order e s a r w0) as [[[]|err] w1]
  end; simpl in *.
  1,2: left; now rewrite Ho, Hf.
  all: right; split; [assumption|]; exists price, qty; now rewrite Ho, Hf.
Qed.

(* ===================================================================== *)
(** * Why a cycle sends an order                                          *)
(* ===================================================================== *)

(** The profit check sends a sale only on a purchase price that is not
    zero, for a balance worth more than 1, when one of the exit tests
    holds. *)
Lemma profit_check_cases (cfg : Config) (ex : Exchange) (symbol : string)
    (balance current_price balance_in_usd : float) (purchase_price : option float) (w : World) :
  let w' := snd (profit_check cfg ex symbol balance current_price balance_in_usd
                   purchase_price w) in
  orders w' = orders w \/
  exists p,
    purchase_price = Some p /\ truthy p = true /\
    (1 <? balance_in_usd)%float = true /\
    ((PROFIT_TARGET cfg <=? (current_price - p) / p * 100)%float = true \/
     should_sell_with_trailing_stop p current_price (PROFIT_TARGET cfg) (TRAILING_STOP cfg)
     = true) /\
    orders w' = orders w ++ [MarketSell symbol balance].
Proof.
  cbv zeta.
  destruct (profit_check_run cfg ex symbol balance current_price balance_in_usd
              purchase_price w) as [_ [[Ho _]|(Hb & Hp & Ho)]]; [now left|].
  destruct purchase_price as [p|]; [|discriminate]. simpl in Hp.
  destruct ((PROFIT_TARGET cfg <=? (current_price - p) / p * 100)%float
            || should_sell_with_trailing_stop p current_price
                 (PROFIT_TARGET cfg) (TRAILING_STOP cfg)) eqn:Hfire.
  - right. exists p. apply orb_true_iff in Hfire. auto.
  - left. apply orb_false_iff in Hfire as [Htp Hts].
    assert (Hp0 : (p =? 0)%float = false) by (now apply negb_true_iff).
    unfold profit_check, profit_percentage, py_truediv, take_profit,
      trailing_stop_fires, bind, lift, print.
    cbn [truthy_opt result_bind]. rewrite Hb, Hp, Hp0. cbn [result_bind].
    now rewrite Htp, Hts.
Qed.

(** The entry block sends a buy only on an RSI that is a number below the
    threshold of the bands, for a balance worth less than 1. *)
Lemma entry_check_cases (cfg : Config) (pd : pandas) (ex : Exchange)
    (symbol_data : SymbolData) (current_price balance_in_usd : float) (w : World) :
  let w' := snd (entry_check cfg pd ex symbol_data current_price balance_in_usd w) in
  orders w' = orders w \/
  exists prices bands r qty,
    get_historical_klines ex (sd_symbol symbol_data) = Ok prices /\
    calculate_bollinger_bands pd prices 20 2 = Ok bands /\
    calculate_rsi pd prices (RSI_PERIOD cfg) = Ok (Some r) /\
    (r <? float_of_Z (dynamic_rsi_threshold current_price (fst bands) (snd bands)))%float
    = true /\
    (balance_in_usd <? 1)%float = true /\
    orders w' = orders w ++ [MarketBuy (sd_symbol symbol_data) qty].
Proof.
  cbv zeta.
  destruct (entry_check_run cfg pd ex symbol_data current_price balance_in_usd w)
    as [_ [[Ho _]|(Hd & qty & Ho)]]; [now left|].
  destruct (entry_check_buys_only_if cfg pd ex symbol_data current_price balance_in_usd w)
    as [Hsame|(prices & bands & r & Hk & Hb & Hr & Hbuy)]; [now left|].
  right. exists prices, bands, r, qty.
  apply andb_true_iff in Hbuy as [Hrsi _]. auto 10.
Qed.

(** A cycle sends no order, or a sale for one of the exit tests, or a buy
    for the entry test. *)
Lemma process_symbol_cases (cfg : Config) (pd : pandas) (ex : Exchange)
    (symbol_data : SymbolData) (w : World) :
  let symbol := sd_symbol symbol_data in
  let w' := process_symbol cfg pd ex symbol_data w in
  orders w' = orders w \/
  (exists balance current_price p,
      check_if_symbol_in_balance ex symbol = Ok balance /\
      get_price ex symbol = Ok current_price /\
      read_purchase_price symbol (files w) = Ok (Some p) /\
      truthy p = true /\
      (1 <? balance * current_price)%float = true /\
      ((PROFIT_TARGET cfg <=? (current_price - p) / p * 100)%float = true \/
       should_sell_with_trailing_stop p current_price (PROFIT_TARGET cfg) (TRAILING_STOP cfg)
       = true) /\
      orders w' = orders w ++ [MarketSell symbol balance]) \/
  (exists balance current_price prices bands r qty,
      check_if_symbol_in_balance ex symbol = Ok balance /\
      get_price ex symbol = Ok current_price /\
      get_historical_klines ex symbol = Ok prices /\
      calculate_bollinger_bands pd prices 20 2 = Ok bands /\
      calculate_rsi pd prices (RSI_PERIOD cfg) = Ok (Some r) /\
      (r <? float_of_Z (dynamic_rsi_threshold current_price (fst bands) (snd bands)))%float
      = true /\
      (balance * current_price <? 1)%float = true /\
      orders w' = orders w ++ [MarketBuy symbol qty]).
Proof.
  cbv zeta.
  destruct (check_if_symbol_in_balance ex (sd_symbol symbol_data)) as [balance|e] eqn:Hbal.
  2: { left. destruct (process_symbol_body_fails cfg pd ex symbol_data w) as [e' H];
       [left; rewrite Hbal; eauto|]. unfold process_symbol. now rewrite H. }
  destruct (get_price ex (sd_symbol symbol_data)) as [current_price|e] eqn:Hprice.
  2: { left. destruct (process_symbol_body_fails cfg pd ex symbol_data w) as [e' H];
       [right; left; rewrite Hprice; eauto|]. unfold process_symbol. now rewrite H. }
  destruct (read_purchase_price (sd_symbol symbol_data) (files w)) as [purchase_price|e] eqn:Hread.
  2: { left. destruct (process_symbol_body_fails cfg pd ex symbol_data w) as [e' H];
       [right; right; eauto|]. unfold process_symbol. now rewrite H. }
  unfold process_symbol.
  rewrite (process_symbol_body_run cfg pd ex symbol_data w balance current_price purchase_price)
    by assumption.
  set (w0 := with_console w _).
  assert (Ho0 : orders w0 = orders w) by reflexivity. clearbody w0.
  pose proof (profit_check_cases cfg ex (sd_symbol symbol_data) balance current_price
                (balance * current_price) purchase_price w0) as H1.
  cbv zeta in H1.
  destruct (profit_check _ _ _ _ _ _ _ w0) as [r1 w1] eqn:E1.
  rewrite (bind_run _ _ _ _ _ E1). simpl in H1.
  assert (Hsold : forall w2,
    orders w2 = orders w1 ->
    (exists p, purchase_price = Some p /\ truthy p = true /\
       (1 <? balance * current_price)%float = true /\
       ((PROFIT_TARGET cfg <=? (current_price - p) / p * 100)%float = true \/
        should_sell_with_trailing_stop p current_price (PROFIT_TARGET cfg) (TRAILING_STOP cfg)
        = true) /\
       orders w1 = orders w0 ++ [MarketSell (sd_symbol symbol_data) balance]) ->
    exists balance0 current_price0 p,
      Ok balance = Ok balance0 /\ Ok current_price = Ok current_price0 /\
      Ok purchase_price = Ok (Some p) /\ truthy p = true /\
      (1 <? balance0 * current_price0)%float = true /\
      ((PROFIT_TARGET cfg <=? (current_price0 - p) / p * 100)%float = true \/
       should_sell_with_trailing_stop p current_price0 (PROFIT_TARGET cfg) (TRAILING_STOP cfg)
       = true) /\
      orders w2 = orders w ++ [MarketSell (sd_symbol symbol_data) balance0]).
  { intros w2 Ho2 (p & -> & Hp & Hb & Hfire & Ho1).
    exists balance, current_price, p. rewrite Ho2, Ho1, Ho0. auto 10. }
  destruct r1 as [[]|e1].
  - pose proof (entry_check_cases cfg pd ex symbol_data current_price
                  (balance * current_price) w1) as H2.
    cbv zeta in H2.
    destruct (entry_check _ _ _ _ _ _ w1) as [r2 w2] eqn:E2.
    rewrite (bind_run _ _ _ _ _ E2). simpl in H2.
    assert (Hlast : forall w3, orders w3 = orders w2 ->
      orders w3 = orders w \/
      (exists balance0 current_price0 p,
        Ok balance = Ok balance0 /\ Ok current_price = Ok current_price0 /\
        Ok purchase_price = Ok (Some p) /\ truthy p = true /\
        (1 <? balance0 * current_price0)%float = true /\
        ((PROFIT_TARGET cfg <=? (current_price0 - p) / p * 100)%float = true \/
         should_sell_with_trailing_stop p current_price0 (PROFIT_TARGET cfg)
           (TRAILING_STOP cfg) = true) /\
        orders w3 = orders w ++ [MarketSell (sd_symbol symbol_data) balance0]) \/
      (exists balance0 current_price0 prices bands r qty,
        Ok balance = Ok balance0 /\ Ok current_price = Ok current_price0 /\
        get_historical_klines ex (sd_symbol symbol_data) = Ok prices /\
        calculate_bollinger_bands pd prices 20 2 = Ok bands /\
        calculate_rsi pd prices (RSI_PERIOD cfg) = Ok (Some r) /\
        (r <? float_of_Z (dynamic_rsi_threshold current_price0 (fst bands) (snd bands)))%float
        = true /\
        (balance0 * current_price0 <? 1)%float = true /\
        orders w3 = orders w ++ [MarketBuy (sd_symbol symbol_data) qty])).
    { intros w3 Ho3.
      destruct H2 as [Ho2|(prices & bands & r & qty & Hk & Hbd & Hr & Hrsi & Hd & Ho2)].
      + destruct H1 as [Ho1|H1]; [left; congruence|].
        right. left. apply Hsold; [congruence|assumption].
      + destruct H1 as [Ho1|(p & _ & _ & Hb & _)];
          [|apply FloatOrder.ltb_asym in Hb; congruence].
        right. right. exists balance, current_price, prices, bands, r, qty.
        rewrite Ho3, Ho2, Ho1, Ho0. auto 10. }
    destruct r2 as [[]|e2]; simpl; now apply Hlast.
  - simpl. destruct H1 as [Ho1|H1]; [left; congruence|].
    right. left. now apply Hsold.
Qed.

(* ===================================================================== *)
(** * Rounds of the loop                                                  *)
(* ===================================================================== *)

Lemma length_append (s t : string) :
  String.length (s +:+ t) = (String.length s + String.length t)%nat.
Proof. induction s as [|c s IH]; [reflexivity|simpl; now rewrite IH]. Qed.

Lemma append_inj_l (s1 s2 t : string) : s1 +:+ t = s2 +:+ t -> s1 = s2.
Proof.
  revert s2. induction s1 as [|c s1 IH]; intros [|d s2] H.
  - reflexivity.
  - exfalso. apply (f_equal String.length) in H.
    rewrite !length_append in H. simpl in H. lia.
  - exfalso. apply (f_equal String.length) in H.
    rewrite !length_append in H. simpl in H. lia.
  - cbn in H. injection H as -> H. f_equal. now apply IH.
Qed.

Lemma purchase_price_file_inj (s1 s2 : string) :
  purchase_price_file s1 = purchase_price_file s2 -> s1 = s2.
Proof. apply append_inj_l. Qed.

Lemma process_symbol_one_order (cfg : Config) (pd : pandas) (ex : Exchange)
    (symbol_data : SymbolData) (w : World) :
  orders (process_symbol cfg pd ex symbol_data w) = orders w \/
  exists o, order_symbol o = sd_symbol symbol_data /\
            orders (process_symbol cfg pd ex symbol_data w) = orders w ++ [o].
Proof.
  destruct (process_symbol_cases cfg pd ex symbol_data w)
    as [Ho|[(b & c & p & _ & _ & _ & _ & _ & _ & Ho)
           |(b & c & prices & bands & r & qty & _ & _ & _ & _ & _ & _ & _ & Ho)]];
    [now left|right; eexists; split; [|exact Ho]; reflexivity..].
Qed.

Lemma one_order_each_length (sds : list SymbolData) (os : list order) :
  one_order_each sds os -> (length os <= length sds)%nat.
Proof. induction 1; simpl; lia. Qed.

Lemma process_symbols_orders (cfg : Config) (pd : pandas) (exchange_at : nat -> Exchange)
    (symbols : list SymbolData) (i : nat) (w : World) :
  exists os,
    orders (process_symbols cfg pd exchange_at i symbols w) = orders w ++ os /\
    one_order_each symbols os.
Proof.
  revert i w. induction symbols as [|sd sds IH]; intros i w; simpl.
  - exists []. split; [now rewrite app_nil_r|constructor].
  - destruct (IH (S i) (process_symbol cfg pd (exchange_at i) sd w)) as (os & Ho & Hos).
    destruct (process_symbol_one_order cfg pd (exchange_at i) sd w) as [H1|(o & Hsym & H1)];
      rewrite H1 in Ho.
    + exists os. split; [assumption|now constructor].
    + exists (o :: os). split; [now rewrite Ho, <- app_assoc|now constructor].
Qed.

Lemma main_round_orders (cfg : Config) (pd : pandas) (symbols : list SymbolData)
    (r : Round) (mw : MainWorld) :
  exists os,
    m_orders (main_round cfg pd symbols r mw) = m_orders mw ++ os /\
    one_order_each symbols os.
Proof.
  unfold main_round. cbv zeta. simpl.
  apply (process_symbols_orders cfg pd (exchange_at r) symbols 0
           {| files := m_files mw; orders := m_orders mw; console := [] |}).
Qed.

Lemma main_orders (cfg : Config) (pd : pandas) (symbols : list SymbolData)
    (rounds : list Round) (mw : MainWorld) :
  exists oss,
    m_orders (main cfg pd symbols rounds mw) = m_orders mw ++ concat oss /\
    Forall2 (fun (_ : Round) os => one_order_each symbols os) rounds oss.
Proof.
  unfold main. revert mw. induction rounds as [|r rounds IH]; intros mw; simpl.
  - exists []. split; [now rewrite app_nil_r|constructor].
  - destruct (IH (main_round cfg pd symbols r mw)) as (oss & Ho & Hall).
    destruct (main_round_orders cfg pd symbols r mw) as (os & Hr & Hos).
    exists (os :: oss). split; [|now constructor].
    rewrite Ho, Hr. simpl. now rewrite app_assoc.
Qed.

(** ** An unreadable purchase-price file *)

Lemma lstrip_blank (l : list ascii) : forallb is_space l = true -> lstrip l = [].
Proof.
  induction l as [|c l IH]; [reflexivity|]. simpl.
  intros H. apply andb_true_iff in H as [-> Hl]. auto.
Qed.

Lemma read_blank_purchase_price (s text : string) (fs : gmap string string) :
  fs !! purchase_price_file s = Some text -> is_blank text = true ->
  read_purchase_price s fs = Raise ValueError.
Proof.
  unfold read_purchase_price, is_blank, float_of_text, strip. intros -> Hblank.
  now rewrite (lstrip_blank _ Hblank).
Qed.

Lemma process_symbol_blocked (cfg : Config) (pd : pandas) (ex : Exchange)
    (symbol_data : SymbolData) (w : World) (s : string) (e : exn) :
  read_purchase_price s (files w) = Raise e ->
  let w' := process_symbol cfg pd ex symbol_data w in
  files w' !! purchase_price_file s = files w !! purchase_price_file s /\
  exists os, orders w' = orders w ++ os /\ Forall (fun o => order_symbol o <> s) os.
Proof.
  intros Hread. cbv zeta.
  destruct (decide (sd_symbol symbol_data = s)) as [Heq|Hne].
  - (* the symbol itself: the cycle fails before the header *)
    assert (Hw : files (process_symbol cfg pd ex symbol_data w) = files w /\
                 orders (process_symbol cfg pd ex symbol_data w) = orders w).
    { unfold process_symbol, process_symbol_body, bind, lift, with_files.
      destruct (check_if_symbol_in_balance _ _); [|now split].
      destruct (get_price _ _); [|now split].
      rewrite Heq, Hread. now split. }
    destruct Hw as [-> ->]. split; [reflexivity|].
    exists []. split; [now rewrite app_nil_r|constructor].
  - (* another symbol: its file is another file, its order another order *)
    assert (Hfile : purchase_price_file (sd_symbol symbol_data) <> purchase_price_file s).
    { intros H. apply Hne. now apply purchase_price_file_inj. }
    split.
    + destruct (process_symbol_local cfg pd ex symbol_data
                  (files w !! purchase_price_file (sd_symbol symbol_data)))
        as (ef & os & ls & H).
      rewrite (H w eq_refl). unfold after. simpl.
      now apply lookup_apply_effect_ne.
    + destruct (process_symbol_one_order cfg pd ex symbol_data w) as [Ho|(o & Hsym & Ho)].
      * exists []. split; [now rewrite app_nil_r|constructor].
      * exists [o]. split; [assumption|]. repeat constructor. congruence.
Qed.

Lemma read_purchase_price_lookup (s : string) (fs1 fs2 : gmap string string) :
  fs1 !! purchase_price_file s = fs2 !! purchase_price_file s ->
  read_purchase_price s fs1 = read_purchase_price s fs2.
Proof. unfold read_purchase_price. now intros ->. Qed.

Lemma process_symbols_blocked (cfg : Config) (pd : pandas) (exchange_at : nat -> Exchange)
    (symbols : list SymbolData) (s : string) (e : exn) (i : nat) (w : World) :
  read_purchase_price s (files w) = Raise e ->
  let w' := process_symbols cfg pd exchange_at i symbols w in
  files w' !! purchase_price_file s = files w !! purchase_price_file s /\
  exists os, orders w' = orders w ++ os /\ Forall (fun o => order_symbol o <> s) os.
Proof.
  revert i w. induction symbols as [|sd sds IH]; intros i w Hread; simpl.
  - split; [reflexivity|]. exists []. split; [now rewrite app_nil_r|constructor].
  - destruct (process_symbol_blocked cfg pd (exchange_at i) sd w s e Hread)
      as (Hf1 & os1 & Ho1 & Hall1).
    destruct (IH (S i) (process_symbol cfg pd (exchange_at i) sd w)) as (Hf2 & os2 & Ho2 & Hall2).
    { now rewrite (read_purchase_price_lookup s _ (files w)). }
    split; [congruence|].
    exists (os1 ++ os2). split; [now rewrite Ho2, Ho1, app_assoc|].
    now apply Forall_app.
Qed.

Lemma main_blocked (cfg : Config) (pd : pandas) (symbols : list SymbolData)
    (rounds : list Round) (mw : MainWorld) (s : string) (e : exn) :
  read_purchase_price s (m_files mw) = Raise e ->
  let mw' := main cfg pd symbols rounds mw in
  m_files mw' !! purchase_price_file s = m_files mw !! purchase_price_file s /\
  exists os, m_orders mw' = m_orders mw ++ os /\ Forall (fun o => order_symbol o <> s) os.
Proof.
  unfold main. revert mw. induction rounds as [|r rounds IH]; intros mw Hread; simpl.
  - split; [reflexivity|]. exists []. split; [now rewrite app_nil_r|constructor].
  - destruct (process_symbols_blocked cfg pd (exchange_at r) symbols s e 0
                {| files := m_files mw; orders := m_orders mw; console := [] |} Hread)
      as (Hf1 & os1 & Ho1 & Hall1).
    simpl in Hf1, Ho1.
    destruct (IH (main_round cfg pd symbols r mw)) as (Hf2 & os2 & Ho2 & Hall2).
    { unfold main_round. simpl.
      now rewrite (read_purchase_price_lookup s _ (m_files mw)). }
    split; [rewrite Hf2; exact Hf1|].
    exists (os1 ++ os2). split; [|now apply Forall_app].
    rewrite Ho2. unfold main_round. simpl. now rewrite Ho1, app_assoc.
Qed.

(* ===================================================================== *)
(** * The indicators in the cycle                                         *)
(* ===================================================================== *)

Lemma zip_with_map_same {A B C D : Type} (g : B -> C -> D) (f1 : A -> B) (f2 : A -> C)
    (l : list A) :
  zip_with g (map f1 l) (map f2 l) = map (fun a => g (f1 a) (f2 a)) l.
Proof. induction l as [|a l IH]; simpl; congruence. Qed.

(** With a full window, the bands are the rolling aggregates of pandas at
    the last row. *)
Lemma calculate_bollinger_bands_full (pd : pandas) (prices : list float)
    (window : nat) (std_dev : float) :
  (0 < window <= length prices)%nat ->
  calculate_bollinger_bands pd prices window std_dev
  = Ok ((window_mean pd window prices + window_std pd window prices * std_dev)%float,
        (window_mean pd window prices - window_std pd window prices * std_dev)%float).
Proof.
  intros [Hw Hlen]. unfold calculate_bollinger_bands, rolling.
  rewrite !zip_with_map_same.
  rewrite !iloc_last_rows by lia. simpl.
  replace (S (pred (length prices))) with (length prices) by lia.
  replace (length prices <? window)%nat with false by (symmetry; apply Nat.ltb_ge; lia).
  now rewrite firstn_all.
Qed.

(** With a history shorter than 20 closes the threshold is 27. *)
Lemma short_history_threshold (pd : pandas) (prices : list float) (current_price : float) :
  prices <> [] -> (length prices < 20)%nat ->
  exists bands,
    calculate_bollinger_bands pd prices 20 2 = Ok bands /\
    dynamic_rsi_threshold current_price (fst bands) (snd bands) = 27.
Proof.
  intros Hne Hshort. exists (nan, nan). split.
  - assert (Hpos : (0 < length prices)%nat) by (destruct prices; [congruence|simpl; lia]).
    unfold calculate_bollinger_bands.
    rewrite !rolling_short by assumption.
    rewrite !zip_with_replicate.
    destruct (nan_band 2) as [-> ->].
    now rewrite iloc_last_replicate by assumption.
  - unfold dynamic_rsi_threshold. simpl.
    now rewrite FloatOrder.ltb_nan_l, FloatOrder.ltb_nan_r.
Qed.

(** The entry block once the indicators are known. *)
Lemma entry_check_decided (cfg : Config) (pd : pandas) (ex : Exchange)
    (symbol_data : SymbolData) (current_price balance_in_usd : float) (w : World)
    (prices : list float) (bands : float * float) (r : float) :
  get_historical_klines ex (sd_symbol symbol_data) = Ok prices ->
  calculate_bollinger_bands pd prices 20 2 = Ok bands ->
  calculate_rsi pd prices (RSI_PERIOD cfg) = Ok (Some r) ->
  let t := dynamic_rsi_threshold current_price (fst bands) (snd bands) in
  let w1 := with_console w [RsiLine r (r <? float_of_Z t)%float t] in
  entry_check cfg pd ex symbol_data current_price balance_in_usd w =
  if buy_condition r (float_of_Z t) balance_in_usd
  then place_buy_order (at_buy ex) (sd_symbol symbol_data) (sd_amount_usdt symbol_data)
         (sd_rounding symbol_data)
         (with_console w1 [ConditionsMetLine (sd_symbol symbol_data)])
  else (Ok tt, w1).
Proof.
  intros Hk Hb Hr. cbv zeta. unfold entry_check, bind, lift.
  rewrite Hk, Hb, Hr. unfold rsi_line, when, print. cbn [fst snd].
  destruct (buy_condition _ _ _); reflexivity.
Qed.

(* ===================================================================== *)
(** * Signs and order of the profit percentage                            *)
(* ===================================================================== *)

Module Profit.

Lemma SFltb_mantissa_mono (x : spec_float) (m1 m2 : positive) (e : Z) :
  (m1 <= m2)%positive ->
  SFltb x (S754_finite false m1 e) = true -> SFltb x (S754_finite false m2 e) = true.
Proof.
  intros Hm. unfold SFltb. destruct x as [s|[|]| |[|] m ex]; simpl; auto.
  destruct (Z.compare_spec ex e); auto.
  change (Pos.compare_cont Eq m m1) with (m ?= m1)%positive.
  change (Pos.compare_cont Eq m m2) with (m ?= m2)%positive.
  destruct (Pos.compare_spec m m1); try discriminate. intros _.
  replace (m ?= m2)%positive with Lt; [reflexivity|].
  symmetry. apply Pos.compare_lt_iff. lia.
Qed.

(** A value at least a positive value is positive. *)
Lemma leb_positive (t x : spec_float) :
  positive64 t -> SFleb t x = true -> positive64 x.
Proof.
  unfold SFleb.
  destruct t as [st|[|]| |[|] mt et]; simpl; try contradiction; intros _;
    destruct x as [s|[|]| |[|] m e]; simpl; auto; discriminate.
Qed.

Lemma round_sign_positive (s : bool) (m e : Z) (l : location) :
  positive64 (binary_round_aux prec emax s m e l) -> s = false.
Proof.
  pose proof (Rounding.binary_round_aux_sign s m e l) as H.
  destruct (binary_round_aux prec emax s m e l) as [s'|s'| |s' m' e'];
    simpl in *; try contradiction; subst; now destruct s.
Qed.

Lemma mul_positive_inv (q : spec_float) (mc : positive) (ec : Z) :
  positive64 (SFmul prec emax q (S754_finite false mc ec)) -> positive64 q.
Proof.
  destruct q as [s|[|]| |[|] m e]; simpl; auto.
  intros H. now apply round_sign_positive in H.
Qed.

Lemma div_positive_inv (d p : spec_float) :
  positive64 p -> positive64 (SFdiv prec emax d p) -> positive64 d.
Proof.
  destruct p as [sp|[|]| |[|] mp ep]; simpl; try contradiction; intros _;
    destruct d as [s|[|]| |[|] m e]; simpl; auto.
  destruct (SFdiv_core_binary prec emax (Zpos m) e (Zpos mp) ep) as [[mz ez] lz].
  intros H. now apply round_sign_positive in H.
Qed.

Lemma bounded_digits (m : positive) (e : Z) :
  bounded prec emax m e = true ->
  Zpos (digits2_pos m) <= 53 /\ (Zpos (digits2_pos m) = 53 \/ e = -1074) /\ -1074 <= e.
Proof.
  intros H. destruct (Rounding.bounded_facts m e H) as [Hc _].
  unfold fexp, emin, prec, emax in Hc. lia.
Qed.

(** The order of two canonical positive values is the order of [SFcompare]. *)
Lemma canonical_lt (mp mc : positive) (ep ec : Z) :
  bounded prec emax mp ep = true -> bounded prec emax mc ec = true ->
  Zpos mp * 2 ^ (ep - Z.min ec ep) < Zpos mc * 2 ^ (ec - Z.min ec ep) ->
  SFltb (S754_finite false mp ep) (S754_finite false mc ec) = true.
Proof.
  intros Hp Hc Hlt. unfold SFltb. simpl.
  destruct (bounded_digits mp ep Hp) as (Hdp & Hnp & Hep).
  destruct (bounded_digits mc ec Hc) as (Hdc & Hnc & Hec).
  destruct (Rounding.digits_bounds mp) as [Hp1 Hp2].
  destruct (Rounding.digits_bounds mc) as [Hc1 Hc2].
  destruct (Z.compare_spec ep ec) as [Heq|Hl|Hg]; [|reflexivity|exfalso].
  - subst ec. rewrite Z.min_id, Z.sub_diag in Hlt. simpl in Hlt.
    change (Pos.compare_cont Eq mp mc) with (mp ?= mc)%positive.
    replace (mp ?= mc)%positive with Lt; [reflexivity|].
    symmetry. apply Pos.compare_lt_iff. lia.
  - rewrite Z.min_l in Hlt by lia. rewrite Z.sub_diag in Hlt.
    change (2 ^ 0) with 1 in Hlt.
    assert (Hd : Zpos (digits2_pos mp) = 53) by lia.
    rewrite Hd in Hp1. change (53 - 1) with 52 in Hp1.
    assert (Hc3 : Zpos mc < 2 ^ 53).
    { eapply Z.lt_le_trans; [exact Hc2|]. apply Z.pow_le_mono_r; lia. }
    assert (H2 : 2 <= 2 ^ (ep - ec)).
    { change 2 with (2 ^ 1) at 1. apply Z.pow_le_mono_r; lia. }
    change (2 ^ 53) with (2 ^ 52 * 2) in Hc3. nia.
Qed.

(** A difference that is positive: the first term is the greater. *)
Lemma sub_positive_lt (c p : spec_float) :
  valid_binary c = true -> valid_binary p = true ->
  positive64 p -> positive64 (SFsub prec emax c p) -> SFltb p c = true.
Proof.
  intros Hvc Hvp.
  destruct p as [sp|[|]| |[|] mp ep]; simpl; try contradiction; intros _.
  - destruct c as [s|[|]| |s m e]; simpl; contradiction.
  - destruct c as [s|[|]| |sc mc ec]; simpl; try contradiction; try reflexivity.
    destruct (Rounding.shl_align_spec mc ec (Z.min ec ep)) as (_ & Ha & Ha').
    destruct (Rounding.shl_align_spec mp ep (Z.min ec ep)) as (_ & Hb & Hb').
    rewrite Ha' in Ha by lia. rewrite Hb' in Hb by lia.
    set (a := fst (shl_align mc ec (Z.min ec ep))) in *.
    set (b := fst (shl_align mp ep (Z.min ec ep))) in *.
    unfold binary_normalize. intros H.
    match type of H with context [match ?d with _ => _ end] =>
      destruct d as [|z|z] eqn:Hz
    end.
    + contradiction.
    + destruct sc; cbn [cond_Zopp] in Hz; [lia|].
      apply canonical_lt; [exact Hvp|exact Hvc|]. lia.
    + unfold binary_round in H. destruct (shl_align z _ _) as [mz ez].
      now apply round_sign_positive in H.
Qed.

(** The take-profit test on binary64 values: with a positive cost and a
    positive target it only holds above the cost. *)
Lemma take_profit_SF (P C Pt : spec_float) (m100 : positive) (e100 : Z) :
  valid_binary C = true -> valid_binary P = true ->
  SFltb (S754_zero false) P = true ->
  SFltb (S754_zero false) Pt = true ->
  SFleb Pt (SFmul prec emax (SFdiv prec emax (SFsub prec emax C P) P)
              (S754_finite false m100 e100)) = true ->
  SFltb P C = true.
Proof.
  intros HC HP HP0 HPt Hprofit.
  apply Rounding.ltb_zero_positive in HP0, HPt.
  apply (leb_positive _ _ HPt) in Hprofit.
  apply mul_positive_inv in Hprofit.
  apply (div_positive_inv _ _ HP0) in Hprofit.
  now apply sub_positive_lt.
Qed.

End Profit.

Lemma take_profit_above_cost_float (pp cp pt : float) :
  (0 <? pp)%float = true -> (0 <? pt)%float = true ->
  (pt <=? (cp - pp) / pp * 100)%float = true ->
  (pp <? cp)%float = true.
Proof.
  rewrite !FloatAxioms.ltb_spec, !FloatAxioms.leb_spec, mul_spec, div_spec, sub_spec.
  change (Prim2SF 0) with (S754_zero false).
  change (Prim2SF 100) with (S754_finite false 7036874417766400 (-46)).
  intros HP HPt Hprofit.
  exact (Profit.take_profit_SF _ _ _ _ _ (Prim2SF_valid cp) (Prim2SF_valid pp) HP HPt Hprofit).
Qed.

(** The thresholds are 24, 27 and 30: a value below the threshold is below
    30, and a value below 24 is below the threshold. *)
Lemma below_threshold (r current_price upper_band lower_band : float) :
  let t := float_of_Z (dynamic_rsi_threshold current_price upper_band lower_band) in
  ((r <? t)%float = true -> (r <? 30)%float = true) /\
  ((r <? 24)%float = true -> (r <? t)%float = true).
Proof.
  cbv zeta. unfold dynamic_rsi_threshold.
  assert (H24 : float_of_Z 24 = 24%float) by reflexivity.
  assert (H27 : float_of_Z 27 = 27%float) by reflexivity.
  assert (H30 : float_of_Z 30 = 30%float) by reflexivity.
  destruct (upper_band <? current_price)%float;
    [|destruct (current_price <? lower_band)%float];
    rewrite ?H24, ?H27, ?H30; (split; [|]); auto;
    rewrite !FloatAxioms.ltb_spec;
    change (Prim2SF 24) with (S754_finite false 6755399441055744 (-48));
    change (Prim2SF 27) with (S754_finite false 7599824371187712 (-48));
    change (Prim2SF 30) with (S754_finite false 8444249301319680 (-48));
    apply Profit.SFltb_mantissa_mono; lia.
Qed.

(* ===================================================================== *)
(** * The bands are not inverted                                          *)
(* ===================================================================== *)

(** A sum [m + x] and a difference [m - x] of binary64 values, with [x] not
    negative, are rounded on either side of [m], which is itself a binary64
    value: the sum is never below the difference. *)
Module Bands.

Lemma scaled_pos (m e : Z) : 0 < m -> -1074 <= e -> 0 < scaled m e.
Proof.
  intros Hm He. unfold scaled.
  assert (0 < 2 ^ (e + 1074)) by (apply Z.pow_pos_nonneg; lia). nia.
Qed.

Lemma scaled_mono (m1 m2 e : Z) : m1 <= m2 -> scaled m1 e <= scaled m2 e.
Proof.
  intros Hm. unfold scaled.
  assert (0 <= 2 ^ (e + 1074)) by (apply Z.pow_nonneg; lia). nia.
Qed.

Lemma scaled_shift (m e e' : Z) :
  -1074 <= e' <= e -> scaled (m * 2 ^ (e - e')) e' = scaled m e.
Proof.
  intros He. unfold scaled. rewrite <- Z.mul_assoc, <- Z.pow_add_r by lia.
  do 2 f_equal. lia.
Qed.

Lemma scaled_positive (M E : Z) (b : Z) : 0 < b -> b <= scaled M E -> 0 < M.
Proof.
  unfold scaled. intros Hb Hle.
  assert (0 <= 2 ^ (E + 1074)) by (apply Z.pow_nonneg; lia). nia.
Qed.

(** A full mantissa is above every value of a lower exponent. *)
Lemma scaled_gap (ma mc ea ec : Z) :
  ma < 2 ^ 53 -> 2 ^ 52 <= mc -> -1074 <= ea -> ea < ec ->
  scaled ma ea < scaled mc ec.
Proof.
  intros Ha Hc Hea Hlt. unfold scaled.
  replace (ec + 1074) with (1 + (ec - 1 - ea) + (ea + 1074)) by lia.
  rewrite (Z.pow_add_r 2 (1 + (ec - 1 - ea)) (ea + 1074)) by lia.
  rewrite (Z.pow_add_r 2 1 (ec - 1 - ea)) by lia.
  assert (HP : 0 < 2 ^ (ea + 1074)) by (apply Z.pow_pos_nonneg; lia).
  assert (HR : 1 <= 2 ^ (ec - 1 - ea)) by (apply (Z.pow_le_mono_r 2 0); lia).
  set (P := 2 ^ (ea + 1074)) in *. set (R := 2 ^ (ec - 1 - ea)) in *.
  apply Z.lt_le_trans with (2 ^ 53 * P); [now apply Z.mul_lt_mono_pos_r|].
  apply Z.le_trans with (2 ^ 52 * (2 ^ 1 * R * P)).
  - replace (2 ^ 52 * (2 ^ 1 * R * P)) with (2 ^ 53 * P * R)
      by (change (2 ^ 53) with (2 ^ 52 * 2 ^ 1); ring).
    apply Z.le_mul_diag_r; [|exact HR].
    apply Z.mul_pos_pos; [reflexivity|exact HP].
  - apply Z.mul_le_mono_nonneg_r; [|exact Hc].
    apply Z.mul_nonneg_nonneg; [|lia]. apply Z.mul_nonneg_nonneg; lia.
Qed.

Lemma shr_1_div (r : shr_record) : 0 <= shr_m r -> shr_m (shr_1 r) = shr_m r / 2.
Proof.
  intros Hm. pose proof (shr_m_shr_1 r Hm) as H.
  destruct (shr_r (shr_1 r)).
  - apply (Z.div_unique (shr_m r) 2 _ 1); lia.
  - apply (Z.div_unique (shr_m r) 2 _ 0); lia.
Qed.

Lemma iter_shr_div (p : positive) (r : shr_record) :
  0 <= shr_m r -> shr_m (SpecFloat.iter_pos shr_1 p r) = shr_m r / 2 ^ Zpos p.
Proof.
  revert r. induction p as [p IH|p IH|]; intros r Hr; simpl SpecFloat.iter_pos.
  - assert (H1 : 0 <= shr_m (shr_1 r)) by (rewrite shr_1_div by lia; apply Z.div_pos; lia).
    assert (Hp : 0 < 2 ^ Zpos p) by (apply Z.pow_pos_nonneg; lia).
    assert (H2 : 0 <= shr_m (SpecFloat.iter_pos shr_1 p (shr_1 r)))
      by (rewrite IH by lia; apply Z.div_pos; lia).
    rewrite IH, IH, shr_1_div by lia.
    rewrite !Z.div_div by lia.
    f_equal. replace (Zpos p~1) with (1 + Zpos p + Zpos p) by lia.
    rewrite !Z.pow_add_r by lia. change (2 ^ 1) with 2. ring.
  - assert (Hp : 0 < 2 ^ Zpos p) by (apply Z.pow_pos_nonneg; lia).
    assert (H2 : 0 <= shr_m (SpecFloat.iter_pos shr_1 p r))
      by (rewrite IH by lia; apply Z.div_pos; lia).
    rewrite IH, IH by lia. rewrite Z.div_div by lia.
    f_equal. replace (Zpos p~0) with (Zpos p + Zpos p) by lia.
    now rewrite Z.pow_add_r by lia.
  - now apply shr_1_div.
Qed.

Lemma round_nearest_even_ge (m : Z) (l : location) : m <= round_nearest_even m l.
Proof. destruct l as [|[]]; simpl; try destruct (Z.even m); lia. Qed.

Section Far.
Variables (mb : positive) (eb : Z).
Hypothesis Hbounded : bounded prec emax mb eb = true.

Lemma bound_facts : Zpos mb < 2 ^ 53 /\ -1074 <= eb /\ 0 < scaled (Zpos mb) eb.
Proof using Hbounded.
  destruct (Profit.bounded_digits mb eb Hbounded) as (Hd & _ & He).
  destruct (Rounding.digits_bounds mb) as [_ Hm].
  split; [|split; [assumption|apply scaled_pos; lia]].
  eapply Z.lt_le_trans; [exact Hm|]. apply Z.pow_le_mono_r; lia.
Qed.

(** Shifting to the exponent of the format keeps the value at or above a
    binary64 value it was not below. *)
Lemma shr_fexp_far (M E : Z) :
  -1074 <= E -> scaled (Zpos mb) eb <= scaled M E ->
  -1074 <= snd (shr_fexp prec emax M E loc_Exact) /\
  scaled (Zpos mb) eb <= scaled (shr_m (fst (shr_fexp prec emax M E loc_Exact)))
                                (snd (shr_fexp prec emax M E loc_Exact)).
Proof using Hbounded.
  intros HE Hle. destruct bound_facts as (Hmb & Heb & Hpos).
  pose proof (scaled_positive M E _ Hpos Hle) as HM.
  destruct M as [|m|m]; try lia.
  unfold shr_fexp, shr. cbn [shr_record_of_loc Zdigits2].
  destruct (fexp prec emax (Zpos (digits2_pos m) + E) - E) as [|n|n] eqn:En;
    cbn [fst snd]; [now split| |now split].
  rewrite iter_shr_div by (simpl; lia). cbn [shr_m].
  assert (Hn : 0 < 2 ^ Zpos n) by (apply Z.pow_pos_nonneg; lia).
  assert (Hf : E + Zpos n = Z.max (Zpos (digits2_pos m) + E - 53) (-1074)).
  { unfold fexp, emin, prec, emax in En. lia. }
  split; [lia|].
  destruct (Z.le_gt_cases (E + Zpos n) eb) as [Hlow|Hhigh].
  - (* the same binade or a lower one: the bound is on the new grid *)
    rewrite <- (scaled_shift (Zpos mb) eb (E + Zpos n)) by lia.
    apply scaled_mono. apply Z.div_le_lower_bound; [lia|].
    unfold scaled in Hle.
    replace (eb + 1074) with ((eb - (E + Zpos n)) + Zpos n + (E + 1074)) in Hle by lia.
    rewrite !Z.pow_add_r in Hle by lia.
    apply (Z.mul_le_mono_pos_r _ _ (2 ^ (E + 1074))); [apply Z.pow_pos_nonneg; lia|].
    etransitivity; [|exact Hle]. apply Z.eq_le_incl. ring.
  - (* a higher binade: a full mantissa there is above every value below *)
    destruct (Rounding.digits_bounds m) as [Hm _].
    assert (Hd : Zpos (digits2_pos m) = 53 + Zpos n) by lia.
    rewrite Hd in Hm. replace (53 + Zpos n - 1) with (52 + Zpos n) in Hm by lia.
    rewrite Z.pow_add_r in Hm by lia.
    assert (Hq : 2 ^ 52 <= Zpos m / 2 ^ Zpos n) by (apply Z.div_le_lower_bound; lia).
    apply Z.lt_le_incl, scaled_gap; lia.
Qed.

Lemma binary_round_aux_far (s : bool) (m : positive) (e : Z) :
  -1074 <= e -> scaled (Zpos mb) eb <= scaled (Zpos m) e ->
  far s mb eb (binary_round_aux prec emax s (Zpos m) e loc_Exact).
Proof using Hbounded.
  intros He Hle. destruct bound_facts as (_ & _ & Hpos).
  unfold binary_round_aux.
  destruct (shr_fexp_far _ _ He Hle) as [He1 H1].
  destruct (shr_fexp prec emax (Zpos m) e loc_Exact) as [r1 e1]. cbn [fst snd] in He1, H1.
  assert (H1' : scaled (Zpos mb) eb
                <= scaled (round_nearest_even (shr_m r1) (loc_of_shr_record r1)) e1).
  { eapply Z.le_trans; [exact H1|]. apply scaled_mono, round_nearest_even_ge. }
  destruct (shr_fexp_far _ _ He1 H1') as [He2 H2].
  destruct (shr_fexp prec emax (round_nearest_even (shr_m r1) (loc_of_shr_record r1)) e1 loc_Exact)
    as [r2 e2]. cbn [fst snd] in He2, H2.
  pose proof (scaled_positive _ _ _ Hpos H2) as Hm2.
  destruct (shr_m r2) as [|m2|m2]; try lia.
  destruct (e2 <=? emax - prec); simpl; auto.
Qed.

Lemma shl_align_lower (m : positive) (e e' : Z) :
  -1074 <= e -> -1074 <= e' -> -1074 <= snd (shl_align m e e').
Proof. unfold shl_align. destruct (e' - e) eqn:Hd; simpl; lia. Qed.

Lemma fexp_lower (e : Z) : -1074 <= fexp prec emax e.
Proof. unfold fexp, emin, prec, emax. lia. Qed.

(** A value that is not below the bound is rounded to a value that is
    not below it. *)
Lemma binary_round_far (s : bool) (q : positive) (ez : Z) :
  -1074 <= ez -> scaled (Zpos mb) eb <= scaled (Zpos q) ez ->
  far s mb eb (binary_round prec emax s q ez).
Proof using Hbounded.
  intros Hez Hle. unfold binary_round.
  pose proof (shl_align_lower q ez (fexp prec emax (Zpos (digits2_pos q) + ez)) Hez
                (fexp_lower _)) as Hlow.
  destruct (Rounding.shl_align_spec q ez (fexp prec emax (Zpos (digits2_pos q) + ez)))
    as (H1 & H2 & _).
  destruct (shl_align q ez _) as [mz ez']. cbn [fst snd] in *.
  apply binary_round_aux_far; [assumption|].
  now rewrite H2, scaled_shift by lia.
Qed.

(** A value that is not above the bound is rounded to a value that is
    not above it. *)
Lemma binary_round_near (s : bool) (p : positive) (ez : Z) :
  ez <= eb -> Zpos p <= Zpos mb * 2 ^ (eb - ez) ->
  near s mb eb (binary_round prec emax s p ez).
Proof using Hbounded.
  intros Hez Hle. unfold binary_round.
  destruct (Rounding.shl_align_spec p ez (fexp prec emax (Zpos (digits2_pos p) + ez)))
    as (H1 & H2 & _).
  destruct (shl_align p ez _) as [mz ez']. cbn [fst snd] in *.
  assert (HB : below mb eb (Zpos mz) ez').
  { unfold below. split; [lia|]. split; [lia|]. rewrite H2.
    replace (eb - ez') with ((eb - ez) + (ez - ez')) by lia.
    rewrite Z.pow_add_r by lia.
    assert (0 <= 2 ^ (ez - ez')) by (apply Z.pow_nonneg; lia). nia. }
  destruct (Rounding.binary_round_aux_below _ _ Hbounded s mz ez' HB)
    as [->|(m' & e' & -> & (_ & He' & Hm'))]; [exact I|].
  simpl. intros _. unfold scaled.
  destruct (Z.le_gt_cases 0 (e' + 1074)) as [Hnn|Hneg].
  - replace (eb + 1074) with ((eb - e') + (e' + 1074)) by lia.
    rewrite (Z.pow_add_r 2 (eb - e') (e' + 1074)) by lia.
    rewrite Z.mul_assoc. apply Z.mul_le_mono_nonneg_r; [apply Z.pow_nonneg; lia|exact Hm'].
  - rewrite (Z.pow_neg_r 2 (e' + 1074)) by lia.
    assert (0 <= 2 ^ (eb + 1074)) by (apply Z.pow_nonneg; lia). nia.
Qed.

End Far.

(** A value rounded on the other side of zero. *)
Lemma binary_round_other_side (s : bool) (mb : positive) (eb : Z) (p : positive) (ez : Z) :
  near s mb eb (binary_round prec emax (negb s) p ez).
Proof.
  unfold binary_round. destruct (shl_align p ez _) as [mz ez'].
  pose proof (Rounding.binary_round_aux_sign (negb s) (Zpos mz) ez' loc_Exact) as H.
  destruct (binary_round_aux prec emax (negb s) (Zpos mz) ez' loc_Exact) as [s'|s'| |s' m' e'];
    simpl in *; auto.
  intros ->. now destruct s.
Qed.

(** The order of [SFcompare] on canonical values of the same sign is the
    order of the magnitudes. *)
Lemma canonical_lt_inv (s : bool) (m1 m2 : positive) (e1 e2 : Z) :
  bounded prec emax m1 e1 = true -> bounded prec emax m2 e2 = true ->
  SFltb (S754_finite s m1 e1) (S754_finite s m2 e2) = true ->
  if s then scaled (Zpos m2) e2 < scaled (Zpos m1) e1
  else scaled (Zpos m1) e1 < scaled (Zpos m2) e2.
Proof.
  intros H1 H2.
  destruct (Profit.bounded_digits m1 e1 H1) as (Hd1 & Hn1 & He1).
  destruct (Profit.bounded_digits m2 e2 H2) as (Hd2 & Hn2 & He2).
  destruct (Rounding.digits_bounds m1) as [Hl1 Hu1].
  destruct (Rounding.digits_bounds m2) as [Hl2 Hu2].
  assert (Hu : forall m : positive, Zpos (digits2_pos m) <= 53 -> Zpos m < 2 ^ 53).
  { intros m Hd. destruct (Rounding.digits_bounds m) as [_ Hm].
    eapply Z.lt_le_trans; [exact Hm|]. apply Z.pow_le_mono_r; lia. }
  assert (Hl : forall m : positive, Zpos (digits2_pos m) = 53 -> 2 ^ 52 <= Zpos m).
  { intros m Hd. destruct (Rounding.digits_bounds m) as [Hm _]. now rewrite Hd in Hm. }
  unfold SFltb, SFcompare.
  destruct s; destruct (Z.compare_spec e1 e2) as [Heq|Hlt|Hgt]; try discriminate.
  - subst e2. change (Pos.compare_cont Eq m1 m2) with (m1 ?= m2)%positive.
    destruct (Pos.compare_spec m1 m2) as [?|?|Hm]; try discriminate. intros _.
    unfold scaled. assert (0 < 2 ^ (e1 + 1074)) by (apply Z.pow_pos_nonneg; lia). nia.
  - intros _. apply scaled_gap; [apply Hu|apply Hl| |]; lia.
  - subst e2. change (Pos.compare_cont Eq m1 m2) with (m1 ?= m2)%positive.
    destruct (Pos.compare_spec m1 m2) as [?|Hm|?]; try discriminate. intros _.
    unfold scaled. assert (0 < 2 ^ (e1 + 1074)) by (apply Z.pow_pos_nonneg; lia). nia.
  - intros _. apply scaled_gap; [apply Hu|apply Hl| |]; lia.
Qed.

(** A value at or beyond the bound on the positive side is not below a
    value at or before it. *)
Lemma far_not_below_near (mb : positive) (eb : Z) (x y : spec_float) :
  valid_binary x = true -> valid_binary y = true ->
  far false mb eb x -> near false mb eb y -> SFltb x y = false.
Proof.
  intros Hx Hy.
  destruct x as [sx|[|]| |[|] m1 e1]; simpl; try contradiction; try (intros [? ?]; discriminate);
    try discriminate.
  - intros _ _. destruct y as [sy|[|]| |[|] m2 e2]; reflexivity.
  - intros [_ Hfar].
    destruct y as [sy|[|]| |[|] m2 e2]; simpl; try reflexivity; try discriminate.
    intros Hnear. specialize (Hnear eq_refl).
    destruct (SFltb (S754_finite false m1 e1) (S754_finite false m2 e2)) eqn:Hlt; [|reflexivity].
    pose proof (canonical_lt_inv false m1 m2 e1 e2 Hx Hy Hlt) as H. simpl in H. lia.
Qed.

(** The same on the negative side. *)
Lemma near_not_below_far (mb : positive) (eb : Z) (x y : spec_float) :
  valid_binary x = true -> valid_binary y = true ->
  near true mb eb x -> far true mb eb y -> SFltb x y = false.
Proof.
  intros Hx Hy.
  destruct y as [sy|[|]| |[|] m2 e2]; simpl; try contradiction; try (intros ? [? ?]; discriminate);
    try discriminate.
  - intros _ _. destruct x as [sx|[|]| |[|] m1 e1]; reflexivity.
  - intros Hnear [_ Hfar].
    destruct x as [sx|[|]| |[|] m1 e1]; simpl in *; try reflexivity; try discriminate.
    specialize (Hnear eq_refl).
    destruct (SFltb (S754_finite true m1 e1) (S754_finite true m2 e2)) eqn:Hlt; [|reflexivity].
    pose proof (canonical_lt_inv true m1 m2 e1 e2 Hx Hy Hlt) as H. simpl in H. lia.
Qed.

Lemma SFltb_irrefl (x : spec_float) : SFltb x x = false.
Proof.
  unfold SFltb, SFcompare. destruct x as [s|[|]| |[|] m e]; try reflexivity;
    rewrite Z.compare_refl;
    change (Pos.compare_cont Eq m m) with (m ?= m)%positive;
    now rewrite Pos.compare_refl.
Qed.

(** The sum and the difference of two finite values, the second one
    positive. *)
Lemma add_sub_finite (sm : bool) (mm : positive) (em : Z) (mx : positive) (ex : Z) :
  bounded prec emax mm em = true -> bounded prec emax mx ex = true ->
  let M := S754_finite sm mm em in
  let X := S754_finite false mx ex in
  if sm
  then near true mm em (SFadd prec emax M X) /\ far true mm em (SFsub prec emax M X)
  else far false mm em (SFadd prec emax M X) /\ near false mm em (SFsub prec emax M X).
Proof.
  intros HM HX. cbv zeta. unfold SFadd, SFsub.
  destruct (Profit.bounded_digits mm em HM) as (_ & _ & Hem).
  destruct (Profit.bounded_digits mx ex HX) as (_ & _ & Hex).
  destruct (Rounding.shl_align_spec mm em (Z.min em ex)) as (_ & Ha & Ha').
  destruct (Rounding.shl_align_spec mx ex (Z.min em ex)) as (_ & Hb & Hb').
  rewrite Ha' in Ha by lia. rewrite Hb' in Hb by lia.
  set (ez := Z.min em ex) in *.
  set (a := fst (shl_align mm em ez)) in *.
  set (b := fst (shl_align mx ex ez)) in *.
  assert (Hez : -1074 <= ez <= em) by (unfold ez; lia).
  assert (Hsa : scaled (Zpos a) ez = scaled (Zpos mm) em)
    by (rewrite Ha; apply scaled_shift; lia).
  destruct sm; cbn [cond_Zopp]; unfold binary_normalize.
  - split.
    + (* [- a + b] *)
      destruct (- Zpos a + Zpos b) as [|p|p] eqn:Hp; [exact I| |].
      * apply (binary_round_other_side true).
      * apply binary_round_near; [assumption|lia|lia].
    + (* [- a - b] *)
      destruct (- Zpos a - Zpos b) as [|p|p] eqn:Hp; try lia.
      apply binary_round_far; [assumption|lia|].
      rewrite <- Hsa. apply scaled_mono. lia.
  - split.
    + (* [a + b] *)
      destruct (Zpos a + Zpos b) as [|p|p] eqn:Hp; try lia.
      apply binary_round_far; [assumption|lia|].
      rewrite <- Hsa. apply scaled_mono. lia.
    + (* [a - b] *)
      destruct (Zpos a - Zpos b) as [|p|p] eqn:Hp; [exact I| |].
      * apply binary_round_near; [assumption|lia|lia].
      * apply (binary_round_other_side false).
Qed.

Lemma add_sub_SF (M X : spec_float) :
  valid_binary M = true -> valid_binary X = true ->
  valid_binary (SFadd prec emax M X) = true -> valid_binary (SFsub prec emax M X) = true ->
  SFltb X (S754_zero false) = false ->
  SFltb (SFadd prec emax M X) (SFsub prec emax M X) = false.
Proof.
  intros HM HX HU HL Hx.
  destruct X as [sx|[|]| |[|] mx ex]; try discriminate Hx.
  - (* a zero *)
    destruct M as [sm|sm| |sm mm em]; try reflexivity.
    + destruct sm, sx; reflexivity.
    + apply SFltb_irrefl.
    + apply SFltb_irrefl.
  - (* plus infinity *)
    destruct M as [sm|[|]| |sm mm em]; reflexivity.
  - (* NaN *)
    destruct M as [sm|sm| |sm mm em]; reflexivity.
  - (* a positive finite value *)
    destruct M as [sm|sm| |sm mm em]; try reflexivity.
    + apply SFltb_irrefl.
    + pose proof (add_sub_finite sm mm em mx ex HM HX) as H. cbv zeta in H.
      destruct sm; destruct H as [H1 H2].
      * exact (near_not_below_far mm em _ _ HU HL H1 H2).
      * exact (far_not_below_near mm em _ _ HU HL H1 H2).
Qed.

(** A product of two values that are not negative is not negative. *)
Lemma mul_not_negative (S K : spec_float) :
  SFltb S (S754_zero false) = false -> SFltb K (S754_zero false) = false ->
  SFltb (SFmul prec emax S K) (S754_zero false) = false.
Proof.
  intros HS HK.
  destruct S as [ss|[|]| |[|] ms es]; try discriminate HS;
    destruct K as [sk|[|]| |[|] mk ek]; try discriminate HK; try reflexivity.
  unfold SFmul.
  pose proof (Rounding.binary_round_aux_sign (xorb false false) (Zpos (ms * mk)) (es + ek)
                loc_Exact) as H.
  destruct (binary_round_aux prec emax (xorb false false) _ _ _) as [s'|s'| |s' m' e'];
    simpl in H; subst; reflexivity.
Qed.

End Bands.

(** [m + x] is not below [m - x] when [x] is not negative: a zero, a
    positive value or NaN. *)
Lemma add_sub_not_inverted (m x : float) :
  (x <? 0)%float = false -> (m + x <? m - x)%float = false.
Proof.
  rewrite !FloatAxioms.ltb_spec.
  pose proof (Prim2SF_valid (m + x)) as HU. pose proof (Prim2SF_valid (m - x)) as HL.
  rewrite add_spec in *. rewrite sub_spec in *.
  change (Prim2SF 0) with (S754_zero false).
  apply Bands.add_sub_SF; try assumption; apply Prim2SF_valid.
Qed.

Lemma mul_not_negative_float (s k : float) :
  (s <? 0)%float = false -> (k <? 0)%float = false -> (s * k <? 0)%float = false.
Proof.
  rewrite !FloatAxioms.ltb_spec, mul_spec.
  change (Prim2SF 0) with (S754_zero false).
  apply Bands.mul_not_negative.
Qed.

(** The bands of lines 48-49 are not inverted, as long as the standard
    deviation pandas gives and the multiplier are not negative. *)
Lemma bands_not_inverted (pd : pandas) (prices : list float) (window : nat)
    (std_dev : float) (bands : float * float) :
  (window_std pd window prices <? 0)%float = false ->
  (std_dev <? 0)%float = false ->
  calculate_bollinger_bands pd prices window std_dev = Ok bands ->
  (fst bands <? snd bands)%float = false.
Proof.
  intros Hstd Hk. unfold calculate_bollinger_bands, rolling.
  rewrite !zip_with_map_same.
  destruct prices as [|p0 prices']; [discriminate|].
  set (prices := p0 :: prices') in *.
  rewrite !iloc_last_rows by (simpl; lia). cbn [result_bind].
  replace (S (pred (length prices))) with (length prices) by (simpl; lia).
  rewrite firstn_all.
  intros [= <-]. cbn [fst snd].
  destruct (_ <? window)%nat.
  - destruct (nan_band std_dev) as [-> ->]. reflexivity.
  - apply add_sub_not_inverted. now apply mul_not_negative_float.
Qed.

(* ===================================================================== *)
(** * The asset of a symbol                                               *)
(* ===================================================================== *)

Ltac other_char c :=
  destruct c as [[] [] [] [] [] [] [] []]; try reflexivity; congruence.

(** Where the text does not start with ["USDT"], [replace] keeps the first
    character and goes on. *)
Lemma remove_USDT_other (c : ascii) (s : string) :
  (forall rest, String c s <> "USDT" +:+ rest) ->
  remove_USDT (String c s) = String c (remove_USDT s).
Proof.
  intros Hno.
  destruct (Ascii.eqb_spec c "U") as [->|Hc]; [|other_char c].
  destruct s as [|c2 s]; [reflexivity|].
  destruct (Ascii.eqb_spec c2 "S") as [->|Hc2]; [|other_char c2].
  destruct s as [|c3 s]; [reflexivity|].
  destruct (Ascii.eqb_spec c3 "D") as [->|Hc3]; [|other_char c3].
  destruct s as [|c4 s]; [reflexivity|].
  destruct (Ascii.eqb_spec c4 "T") as [->|Hc4]; [|other_char c4].
  exfalso. now apply (Hno s).
Qed.

Lemma remove_USDT_suffix (base : string) :
  ~ contains_USDT base -> remove_USDT (base +:+ "USDT") = base.
Proof.
  induction base as [|c rest IH]; intros Hno; [reflexivity|].
  change (String c rest +:+ "USDT") with (String c (rest +:+ "USDT")).
  rewrite remove_USDT_other.
  - f_equal. apply IH. intros (a & b & ->). apply Hno.
    exists (String c a), b. reflexivity.
  - intros r H.
    change ("USDT" +:+ r) with (String "U" (String "S" (String "D" (String "T" r)))) in H.
    inversion H as [[Hc H1]]. subst c.
    destruct rest as [|c1 [|c2 [|c3 rest']]]; cbv in H1; try discriminate H1.
    inversion H1. subst. apply Hno. exists EmptyString, rest'. reflexivity.
Qed.

Lemma find_free_first (asset : string) (before after : list (string * float)) (x : float) :
  ~ In asset (map fst before) ->
  find_free asset (before ++ (asset, x) :: after) = x.
Proof.
  induction before as [|[a y] before IH]; simpl; intros Hno.
  - now rewrite String.eqb_refl.
  - destruct (String.eqb_spec a asset) as [->|_]; [tauto|]. apply IH. tauto.
Qed.

Lemma find_free_missing (asset : string) (balances : list (string * float)) :
  ~ In asset (map fst balances) -> find_free asset balances = 0%float.
Proof.
  induction balances as [|[a y] balances IH]; simpl; intros Hno; [reflexivity|].
  destruct (String.eqb_spec a asset) as [->|_]; [tauto|]. apply IH. tauto.
Qed.

(** A balance of zero is worth nothing: [balance * price] is not above 1. *)
Lemma zero_balance_below_dust (balance price : float) :
  (balance =? 0)%float = true -> (1 <? balance * price)%float = false.
Proof.
  rewrite FloatAxioms.eqb_spec, FloatAxioms.ltb_spec, mul_spec.
  change (Prim2SF 0) with (S754_zero false).
  unfold SFeqb, SFltb.
  destruct (Prim2SF balance) as [sb|[|]| |[|] mb eb]; simpl; try discriminate. intros _.
  now destruct (Prim2SF price) as [s|s| |s m e].
Qed.

(* ===================================================================== *)
(** * Files of other symbols                                              *)
(* ===================================================================== *)

Lemma read_purchase_price_other (symbol other : string) (price : float)
    (fs : gmap string string) :
  symbol <> other ->
  read_purchase_price other (write_purchase_price symbol price fs)
  = read_purchase_price other fs /\
  read_purchase_price other (clear_purchase_price symbol fs)
  = read_purchase_price other fs.
Proof.
  intros Hne.
  assert (Hfile : purchase_price_file symbol <> purchase_price_file other).
  { intros H. apply Hne. now apply purchase_price_file_inj. }
  split; apply read_purchase_price_lookup.
  - unfold write_purchase_price. now apply lookup_insert_ne.
  - rewrite clear_purchase_price_delete. now apply lookup_delete_ne.
Qed.

(* ===================================================================== *)
(** * The recorded price is a fixed point of the round trip               *)
(* ===================================================================== *)

Lemma round_half_even_le (a T N : Z) :
  0 < T -> a <= N * T -> round_half_even a T <= N.
Proof.
  intros HT Ha. unfold round_half_even.
  pose proof (Z.div_mod a T ltac:(lia)) as Hdm.
  pose proof (Z.mod_pos_bound a T HT) as Hr.
  assert (Hq : a / T <= N) by (apply Z.div_le_upper_bound; lia).
  destruct (Z.eq_dec (a / T) N) as [Heq|Hne].
  - assert (Hz : a mod T = 0) by nia.
    rewrite Hz. replace (2 * 0 ?= T) with Lt by (symmetry; apply Z.compare_lt_iff; lia).
    lia.
  - destruct (2 * (a mod T) ?= T); try destruct (Z.even (a / T)); lia.
Qed.

(** A price below 45 million takes less than [2^52] units of [10^-8]. *)
Lemma scaled_decimal_small (m : positive) (e : Z) :
  bounded prec emax m e = true ->
  SFltb (S754_finite false m e) (S754_finite false 6039797760000000 (-27)) = true ->
  0 <= scaled_decimal 8 m e < 2 ^ 52.
Proof.
  intros Hb Hlt. split; [apply scaled_decimal_nonneg|].
  destruct (Profit.bounded_digits m e Hb) as (Hd & _ & _).
  destruct (Rounding.digits_bounds m) as [_ Hm].
  assert (Hm53 : Zpos m < 2 ^ 53).
  { eapply Z.lt_le_trans; [exact Hm|]. apply Z.pow_le_mono_r; lia. }
  unfold SFltb, SFcompare in Hlt.
  unfold scaled_decimal. change (10 ^ Z.of_nat 8) with 100000000.
  destruct (Z.compare_spec e (-27)) as [He|He|He]; try discriminate.
  - subst e. change (0 <=? -27) with false. cbv iota.
    destruct (Pos.compare_cont Eq m 6039797760000000) eqn:Hc; try discriminate.
    assert (Hmm : Zpos m < 6039797760000000) by (apply Pos2Z.pos_lt_pos; exact Hc).
    eapply Z.le_lt_trans;
      [apply (round_half_even_le _ _ 4500000000000000); [reflexivity|]|reflexivity].
    change (2 ^ (- -27)) with 134217728. clear - Hmm. lia.
  - replace (0 <=? e) with false by (symmetry; apply Z.leb_gt; lia).
    eapply Z.le_lt_trans;
      [apply (round_half_even_le _ _ 3355443200000000);
       [apply Z.pow_pos_nonneg; lia|]|reflexivity].
    assert (H28 : 2 ^ 28 <= 2 ^ (- e)) by (apply Z.pow_le_mono_r; lia).
    change (2 ^ 28) with 268435456 in H28.
    change (2 ^ 53) with 9007199254740992 in Hm53. clear - H28 Hm53. nia.
Qed.

(** The rendering of the binary64 value nearest to [n / 10^8] is the
    decimal number [n / 10^8] itself. *)
Lemma format_fixed_decimal (s : bool) (n : Z) :
  0 <= n < 2 ^ 52 ->
  format_fixed 8 (decimal_to_float s n 8) = string_of_list_ascii (fixed_text 8 s n).
Proof.
  intros Hn. unfold format_fixed. f_equal.
  destruct n as [|p|p]; [| |lia].
  - unfold decimal_to_float. now rewrite Prim2SF_SF2Prim by reflexivity.
  - cbn [decimal_to_float].
    change (Z.to_pos (10 ^ Z.of_nat 8)) with 100000000%positive.
    destruct (SFdiv_decimal s p 100000000 ltac:(lia) eq_refl eq_refl)
      as (m & e & E & Hm & He & Hround).
    rewrite E, Prim2SF_SF2Prim.
    + unfold scaled_decimal. destruct (Z.leb_spec 0 e) as [?|_]; [lia|].
      change (10 ^ Z.of_nat 8) with (Zpos 100000000).
      now rewrite Hround.
    + unfold valid_binary, SpecFloat.valid_binary, bounded, canonical_mantissa.
      rewrite Hm. apply andb_true_intro. split.
      * apply Z.eqb_eq. unfold fexp, emin, FloatOps.prec, FloatOps.emax. lia.
      * apply Z.leb_le. unfold FloatOps.prec, FloatOps.emax. lia.
Qed.

(** Below 45 million, what is read back renders as the price did, and is
    read back as itself. *)
Lemma rounded_to_decimals_stable (x : float) :
  (abs x <? 45000000)%float = true ->
  format_fixed 8 (rounded_to_decimals 8 x) = format_fixed 8 x /\
  rounded_to_decimals 8 (rounded_to_decimals 8 x) = rounded_to_decimals 8 x.
Proof.
  rewrite FloatAxioms.ltb_spec, abs_spec.
  change (Prim2SF 45000000) with (S754_finite false 6039797760000000 (-27)).
  intros Hlt. pose proof (Prim2SF_valid x) as Hv.
  unfold rounded_to_decimals, format_fixed.
  destruct (Prim2SF x) as [s|s| |s m e] eqn:Ex; try discriminate.
  - fold (format_fixed 8 (decimal_to_float s 0 8)).
    split; [now rewrite format_fixed_decimal by lia|].
    fold (rounded_to_decimals 8 (decimal_to_float s 0 8)).
    now apply rounded_to_decimals_decimal.
  - cbn [SFabs] in Hlt.
    pose proof (scaled_decimal_small m e Hv Hlt) as Hn.
    fold (format_fixed 8 (decimal_to_float s (scaled_decimal 8 m e) 8)).
    split; [now rewrite format_fixed_decimal by assumption|].
    fold (rounded_to_decimals 8 (decimal_to_float s (scaled_decimal 8 m e) 8)).
    now apply rounded_to_decimals_decimal.
Qed.

(* ===================================================================== *)
(** * Steps of a cycle that buys                                          *)
(* ===================================================================== *)

Lemma calculate_bollinger_bands_total (pd : pandas) (prices : list float)
    (window : nat) (std_dev : float) :
  prices <> [] -> exists bands, calculate_bollinger_bands pd prices window std_dev = Ok bands.
Proof.
  intros Hne.
  assert (Hpos : (0 < length prices)%nat) by (destruct prices; [congruence|simpl; lia]).
  unfold calculate_bollinger_bands, rolling. rewrite !zip_with_map_same.
  rewrite !iloc_last_rows by assumption. simpl. eauto.
Qed.

Lemma bind_print {B : Type} (l : line) (k : unit -> M B) (w : World) :
  bind (print l) k w = k tt (with_console w [l]).
Proof. reflexivity. Qed.

(** The RSI of a history that is not empty: [None] below the rows
    [ta.rsi] asks for, NaN with no more rows than the length, then the value
    of pandas_ta. *)
Lemma calculate_rsi_rows (pd : pandas) (prices : list float) (period : Z) :
  prices <> [] ->
  calculate_rsi pd prices period =
  Ok (if Z.of_nat (length prices) <? rsi_min_rows pd period then None
      else Some (if Z.of_nat (length prices) <=? rsi_length period then nan
                 else rsi_value pd (rsi_length period) prices)).
Proof.
  intros Hne.
  assert (Hpos : (0 < length prices)%nat) by (destruct prices; [congruence|simpl; lia]).
  unfold calculate_rsi, ta_rsi, assign_column. cbv zeta.
  destruct (Z.of_nat (length prices) <? rsi_min_rows pd period) eqn:Hshort.
  - now rewrite iloc_last_replicate by assumption.
  - rewrite iloc_last_rows by assumption. do 2 f_equal.
    rewrite list_lookup_fmap, lookup_seq_lt by lia. cbn [fmap option_fmap option_map default].
    replace (S (0 + pred (length prices))) with (length prices) by lia.
    rewrite firstn_all.
    destruct (Z.ltb_spec (Z.of_nat (0 + pred (length prices))) (rsi_length period));
      destruct (Z.leb_spec (Z.of_nat (length prices)) (rsi_length period));
      first [reflexivity | lia].
Qed.

(** Without an RSI the entry block raises when it formats the RSI line. *)
Lemma entry_check_without_rsi (cfg : Config) (pd : pandas) (ex : Exchange)
    (symbol_data : SymbolData) (current_price balance_in_usd : float) (w : World)
    (prices : list float) :
  get_historical_klines ex (sd_symbol symbol_data) = Ok prices ->
  prices <> [] ->
  calculate_rsi pd prices (RSI_PERIOD cfg) = Ok None ->
  entry_check cfg pd ex symbol_data current_price balance_in_usd w = (Raise TypeError, w).
Proof.
  intros Hk Hne Hr.
  destruct (calculate_bollinger_bands_total pd prices 20 2 Hne) as [bands Hb].
  unfold entry_check, bind, lift. now rewrite Hk, Hb, Hr.
Qed.

(* ===================================================================== *)
(** * The claims                                                          *)
(* ===================================================================== *)

(** ** C1 *)

(** C1, refuted as stated: a holding worth exactly 1 unit of quote
    currency (0.5 ETH at 2) bought at 1 is in the Held state of the spec
    and its profit of 100% is above the target of 2%, yet no order is sent:
    the profit check runs only when the value is strictly above 1. *)
Lemma held_at_dust_boundary_is_not_sold :
  (1 <=? 0.5 * 2)%float = true /\
  read_purchase_price "ETHUSDT" (files (bought_at 1)) = Ok (Some 1%float) /\
  (PROFIT_TARGET example_config <=? (2 - 1) / 1 * 100)%float = true /\
  orders (process_symbol example_config (example_indicators 50)
            (example_exchange 0.5 2) example_symbol (bought_at 1)) = [].
Proof. vm_compute. auto. Qed.

(** C1, amended: when the balance is worth strictly more than 1 unit of
    quote currency and the recorded purchase price is present and not zero,
    [process_symbol] sends exactly one order, a market sell of the whole
    balance, whenever the take-profit test or the trailing-stop test holds.
    The take-profit test is made first: the line printed before the sale is
    "Target profit reached!" when it holds and "Trailing stop triggered!"
    only when it fails and the trailing-stop test holds. *)
Theorem sell_when_exit_fires (cfg : Config) (pd : pandas) (ex : Exchange)
    (symbol_data : SymbolData) (w : World) (balance current_price p : float) :
  let symbol := sd_symbol symbol_data in
  let profit := ((current_price - p) / p * 100)%float in
  let target_hit := (PROFIT_TARGET cfg <=? profit)%float in
  check_if_symbol_in_balance ex symbol = Ok balance ->
  get_price ex symbol = Ok current_price ->
  read_purchase_price symbol (files w) = Ok (Some p) ->
  truthy p = true ->
  (1 <? balance * current_price)%float = true ->
  target_hit = true \/
  should_sell_with_trailing_stop p current_price (PROFIT_TARGET cfg) (TRAILING_STOP cfg) = true ->
  orders (process_symbol cfg pd ex symbol_data w) = orders w ++ [MarketSell symbol balance] /\
  exists rest,
    console (process_symbol cfg pd ex symbol_data w) =
    console w ++ header_lines symbol balance current_price (Some p) ++
      [ProfitLine profit;
       if target_hit then TargetReachedLine symbol else TrailingStopLine symbol;
       SellingLine balance symbol] ++ rest.
Proof.
  intros symbol profit target_hit Hbal Hprice Hread Hp Hheld Hfire.
  subst symbol.
  assert (Hor : target_hit ||
                should_sell_with_trailing_stop p current_price
                  (PROFIT_TARGET cfg) (TRAILING_STOP cfg) = true).
  { apply orb_true_iff. exact Hfire. }
  unfold process_symbol.
  rewrite (process_symbol_body_run cfg pd ex symbol_data w balance current_price (Some p))
    by assumption.
  set (w0 := with_console w _).
  destruct (profit_check_sells cfg ex (sd_symbol symbol_data) balance current_price
              (balance * current_price) p w0 Hheld Hp Hor) as [Ho Hc].
  fold profit target_hit in Hc.
  destruct (profit_check _ _ _ _ _ _ _ w0) as [r1 w1] eqn:E1.
  rewrite (bind_run _ _ _ _ _ E1). simpl in Ho, Hc.
  destruct r1 as [[]|e1].
  - destruct (entry_check_run cfg pd ex symbol_data current_price
                (balance * current_price) w1) as [[ls Hc2] Ho2].
    destruct Ho2 as [[Ho2 _]|[Hd _]];
      [|apply FloatOrder.ltb_asym in Hheld; congruence].
    destruct (entry_check _ _ _ _ _ _ w1) as [r2 w2] eqn:E2.
    rewrite (bind_run _ _ _ _ _ E2). simpl in Ho2, Hc2.
    destruct r2 as [[]|e2]; simpl; rewrite ?Ho2, Ho; (split; [reflexivity|]).
    + exists (ls ++ [FooterLine]). rewrite Hc2, Hc. now rewrite <- !app_assoc.
    + exists (ls ++ [ErrorLine (sd_symbol symbol_data) e2]).
      rewrite Hc2, Hc. now rewrite <- !app_assoc.
  - simpl. rewrite Ho. split; [reflexivity|].
    exists [ErrorLine (sd_symbol symbol_data) e1]. rewrite Hc. now rewrite <- !app_assoc.
Qed.

(** Scenario A in a cycle: 0.5 ETH bought at 100, price 103, target 2: the
    value 51.5 is above 1, the profit of 3% reaches the target, and the
    balance is sold. *)
Lemma sell_when_exit_fires_witness :
  read_purchase_price "ETHUSDT" (files (bought_at 100)) = Ok (Some 100%float) /\
  truthy 100 = true /\
  (1 <? 0.5 * 103)%float = true /\
  (PROFIT_TARGET example_config <=? (103 - 100) / 100 * 100)%float = true /\
  orders (process_symbol example_config (example_indicators 50)
            (example_exchange 0.5 103) example_symbol (bought_at 100))
  = orders (bought_at 100) ++ [MarketSell "ETHUSDT" 0.5].
Proof.
  split; [vm_compute; reflexivity|]. split; [reflexivity|].
  split; [reflexivity|]. split; [reflexivity|].
  refine (proj1 (sell_when_exit_fires example_config (example_indicators 50)
                   (example_exchange 0.5 103) example_symbol (bought_at 100)
                   0.5 103 100 _ _ _ _ _ _)).
  - reflexivity.
  - reflexivity.
  - vm_compute. reflexivity.
  - reflexivity.
  - reflexivity.
  - left. reflexivity.
Defined.

(** ** C2 *)

(** C2: [dynamic_rsi_threshold] returns exactly one of 24, 27 and 30: 30
    when [current_price > upper_band], else 24 when
    [current_price < lower_band], else 27, for all prices and bands.  Both
    boundaries [current_price == upper_band] and
    [current_price == lower_band] give 27 for all bands but inverted ones
    ([upper_band < lower_band]), NaN bands included.  The function never
    receives inverted bands: those of lines 48-49, the rolling mean plus and
    minus [std_dev] times the rolling standard deviation, are not inverted,
    the standard deviation and [std_dev] not being negative. *)
Theorem dynamic_rsi_threshold_spec (current_price upper_band lower_band : float) :
  let t := dynamic_rsi_threshold current_price upper_band lower_band in
  (t = 24 \/ t = 27 \/ t = 30) /\
  ((upper_band <? current_price)%float = true -> t = 30) /\
  ((upper_band <? current_price)%float = false ->
   (current_price <? lower_band)%float = true -> t = 24) /\
  ((upper_band <? current_price)%float = false ->
   (current_price <? lower_band)%float = false -> t = 27) /\
  ((upper_band <? lower_band)%float = false ->
   ((current_price =? upper_band)%float = true -> t = 27) /\
   ((current_price =? lower_band)%float = true -> t = 27)) /\
  (forall pd prices window std_dev,
     (window_std pd window prices <? 0)%float = false ->
     (std_dev <? 0)%float = false ->
     calculate_bollinger_bands pd prices window std_dev = Ok (upper_band, lower_band) ->
     (upper_band <? lower_band)%float = false).
Proof.
  unfold dynamic_rsi_threshold. cbv zeta.
  split; [|split; [|split; [|split; [|split]]]].
  - destruct (upper_band <? current_price)%float, (current_price <? lower_band)%float; auto.
  - now intros ->.
  - now intros -> ->.
  - now intros -> ->.
  - intros Hbands. split; intros H.
    + destruct (FloatOrder.eqb_not_ltb _ _ H) as [_ ->].
      now rewrite (FloatOrder.eqb_ltb_l _ _ _ H), Hbands.
    + destruct (FloatOrder.eqb_not_ltb _ _ H) as [-> _].
      now rewrite (FloatOrder.eqb_ltb_r _ _ _ H), Hbands.
  - intros pd prices window std_dev Hstd Hk Hb.
    exact (bands_not_inverted pd prices window std_dev _ Hstd Hk Hb).
Qed.

(** The bands 102 and 98 of the flat history: the price on the upper band,
    on the lower band, inside, above and below. *)
Lemma dynamic_rsi_threshold_spec_witness :
  calculate_bollinger_bands (example_indicators 50) (replicate 30 100%float) 20 2
  = Ok (102, 98)%float /\
  (102 <? 98)%float = false /\
  dynamic_rsi_threshold 102 102 98 = 27 /\
  dynamic_rsi_threshold 98 102 98 = 27 /\
  dynamic_rsi_threshold 100 102 98 = 27 /\
  dynamic_rsi_threshold 103 102 98 = 30 /\
  dynamic_rsi_threshold 97 102 98 = 24.
Proof.
  assert (Hb : calculate_bollinger_bands (example_indicators 50) (replicate 30 100%float) 20 2
               = Ok (102, 98)%float) by (vm_compute; reflexivity).
  pose proof (dynamic_rsi_threshold_spec 102 102 98) as (_ & _ & _ & _ & Hupper & Hcode).
  pose proof (dynamic_rsi_threshold_spec 98 102 98) as (_ & _ & _ & _ & Hlower & _).
  pose proof (dynamic_rsi_threshold_spec 100 102 98) as (_ & _ & _ & Hinside & _).
  pose proof (dynamic_rsi_threshold_spec 103 102 98) as (_ & Habove & _).
  pose proof (dynamic_rsi_threshold_spec 97 102 98) as (_ & _ & Hbelow & _).
  pose proof (Hcode (example_indicators 50) (replicate 30 100%float) 20%nat 2%float
                eq_refl eq_refl Hb) as Hbands.
  split; [exact Hb|]. split; [exact Hbands|].
  split; [exact (proj1 (Hupper Hbands) eq_refl)|].
  split; [exact (proj2 (Hlower Hbands) eq_refl)|].
  split; [exact (Hinside eq_refl eq_refl)|]. split; [exact (Habove eq_refl)|].
  exact (Hbelow eq_refl eq_refl).
Defined.

(** Undefined bands, as a history shorter than the window gives them, are
    not inverted either: the threshold is 27 at every price. *)
Example threshold_with_undefined_bands :
  (nan <? nan)%float = false /\
  dynamic_rsi_threshold 100 nan nan = 27 /\ dynamic_rsi_threshold nan 102 98 = 27.
Proof. vm_compute. auto. Qed.

(** ** C3 *)

(** C3: [should_sell_with_trailing_stop] is true exactly when
    [current_price >= purchase_price * (1 + profit_target / 100)] and
    [current_price * (1 - trailing_stop / 100) > purchase_price]; it is false
    whenever [current_price] is below the target price, whatever
    [trailing_stop] is. *)
Theorem should_sell_with_trailing_stop_spec
    (purchase_price current_price profit_target trailing_stop : float) :
  let target_price := (purchase_price * (1 + profit_target / 100))%float in
  let trailing_price := (current_price * (1 - trailing_stop / 100))%float in
  (should_sell_with_trailing_stop purchase_price current_price profit_target trailing_stop = true
   <-> (target_price <=? current_price)%float = true /\
       (purchase_price <? trailing_price)%float = true) /\
  ((current_price <? target_price)%float = true ->
   should_sell_with_trailing_stop purchase_price current_price profit_target trailing_stop = false).
Proof.
  unfold should_sell_with_trailing_stop. cbv zeta. split.
  - apply andb_true_iff.
  - intros H. now rewrite (FloatOrder.ltb_not_leb _ _ H).
Qed.

(** Below the target price of 102 the test is false even with no trailing
    distance at all. *)
Lemma should_sell_with_trailing_stop_spec_witness :
  (101 <? 100 * (1 + 2 / 100))%float = true /\
  should_sell_with_trailing_stop 100 101 2 0 = false.
Proof.
  split; [reflexivity|].
  apply (should_sell_with_trailing_stop_spec 100 101 2 0). reflexivity.
Defined.

(** Scenario B: bought at 100, price 102, target 2, trailing 1. *)
Example scenario_B :
  (100 * (1 + 2 / 100))%float = 102%float /\
  (102 * (1 - 1 / 100))%float = 100.98%float /\
  should_sell_with_trailing_stop 100 102 2 1 = true.
Proof. vm_compute. auto. Qed.

(** ** C4 *)

(** C4: with a positive purchase price and profit-target and trailing-stop
    percentages that are not negative, the trailing stop only fires when
    the current price is above the purchase price: it never sells at or
    below cost. *)
Theorem trailing_stop_never_cuts_losses
    (purchase_price current_price profit_target trailing_stop : float) :
  (0 <? purchase_price)%float = true ->
  (0 <=? profit_target)%float = true ->
  (0 <=? trailing_stop)%float = true ->
  should_sell_with_trailing_stop purchase_price current_price profit_target trailing_stop = true ->
  (purchase_price <? current_price)%float = true.
Proof.
  intros Hp Ht Hs H. unfold should_sell_with_trailing_stop in H.
  apply andb_true_iff in H as [Htarget Htrail].
  now apply (trailing_stop_above_cost_float purchase_price current_price
               profit_target trailing_stop).
Qed.

(** Scenario B: bought at 100, target 2, trailing 1, price 102. *)
Lemma trailing_stop_never_cuts_losses_witness :
  (0 <? 100)%float = true /\ (0 <=? 2)%float = true /\ (0 <=? 1)%float = true /\
  should_sell_with_trailing_stop 100 102 2 1 = true /\
  (100 <? 102)%float = true.
Proof.
  repeat (split; [reflexivity|]).
  apply (trailing_stop_never_cuts_losses 100 102 2 1); reflexivity.
Defined.

(** ** C5 *)

(** C5: the buy test of line 166 is true exactly when [rsi < rsi_threshold]
    and the value of the balance is below 1; with an undefined RSI (NaN) it
    is false for every threshold and balance.  Lines 166-168 of the cycle
    buy exactly on this test, taken on the RSI and the threshold the cycle
    computed: once the closes, the bands and a numeric RSI are there, the
    entry block prints the RSI line and then, when the RSI is below the
    threshold and the balance is worth less than 1, prints that the
    conditions are met and runs [place_buy_order], and otherwise does
    nothing more.  So it sends the buy order when the test holds and
    [place_buy_order] gets a price that is not zero and a quantity it can
    round, and it sends no order when the test fails, in particular with an
    RSI that is NaN. *)
Theorem buy_condition_spec (rsi rsi_threshold balance_in_usd : float) :
  (buy_condition rsi rsi_threshold balance_in_usd = true <->
   (rsi <? rsi_threshold)%float = true /\ (balance_in_usd <? 1)%float = true) /\
  buy_condition nan rsi_threshold balance_in_usd = false /\
  (forall cfg pd ex symbol_data current_price w prices bands,
     let symbol := sd_symbol symbol_data in
     let t := dynamic_rsi_threshold current_price (fst bands) (snd bands) in
     let w1 := with_console w [RsiLine rsi (rsi <? float_of_Z t)%float t] in
     let r := entry_check cfg pd ex symbol_data current_price balance_in_usd w in
     get_historical_klines ex symbol = Ok prices ->
     calculate_bollinger_bands pd prices 20 2 = Ok bands ->
     calculate_rsi pd prices (RSI_PERIOD cfg) = Ok (Some rsi) ->
     (r = if ((rsi <? float_of_Z t)%float && (balance_in_usd <? 1)%float)%bool
          then place_buy_order (at_buy ex) symbol (sd_amount_usdt symbol_data)
                 (sd_rounding symbol_data) (with_console w1 [ConditionsMetLine symbol])
          else (Ok tt, w1)) /\
     (((rsi <? float_of_Z t)%float = false \/ (balance_in_usd <? 1)%float = false) ->
      orders (snd r) = orders w) /\
     (forall price qty,
        (rsi <? float_of_Z t)%float = true -> (balance_in_usd <? 1)%float = true ->
        get_price (at_buy ex) symbol = Ok price -> truthy price = true ->
        round_quantity (sd_rounding symbol_data) (sd_amount_usdt symbol_data / price) = Ok qty ->
        orders (snd r) = orders w ++ [MarketBuy symbol qty])) /\
  (forall cfg pd ex symbol_data current_price w,
     orders (snd (entry_check cfg pd ex symbol_data current_price balance_in_usd w))
     = orders w \/
     exists prices bands r,
       get_historical_klines ex (sd_symbol symbol_data) = Ok prices /\
       calculate_bollinger_bands pd prices 20 2 = Ok bands /\
       calculate_rsi pd prices (RSI_PERIOD cfg) = Ok (Some r) /\
       (r <? float_of_Z (dynamic_rsi_threshold current_price (fst bands) (snd bands)))%float
       = true /\
       (balance_in_usd <? 1)%float = true).
Proof.
  split; [apply andb_true_iff|]. split; [|split].
  - unfold buy_condition. now rewrite FloatOrder.ltb_nan_l.
  - intros cfg pd ex symbol_data current_price w prices bands symbol t w1 r Hk Hb Hr.
    assert (E : r = if ((rsi <? float_of_Z t)%float && (balance_in_usd <? 1)%float)%bool
                    then place_buy_order (at_buy ex) symbol (sd_amount_usdt symbol_data)
                           (sd_rounding symbol_data)
                           (with_console w1 [ConditionsMetLine symbol])
                    else (Ok tt, w1)).
    { subst r. unfold entry_check, bind, lift. fold symbol. rewrite Hk, Hb, Hr.
      unfold rsi_line, when, print, buy_condition. cbn [fst snd]. fold t.
      destruct ((rsi <? float_of_Z t)%float && (balance_in_usd <? 1)%float)%bool;
        reflexivity. }
    split; [exact E|]. split.
    + intros Hno. rewrite E.
      replace ((rsi <? float_of_Z t)%float && (balance_in_usd <? 1)%float)%bool with false;
        [reflexivity|].
      symmetry. apply andb_false_iff. exact Hno.
    + intros price qty Hlt Hdust Hp Htruthy Hq. rewrite E, Hlt, Hdust. cbn [andb].
      assert (Hp0 : (price =? 0)%float = false) by (now apply negb_true_iff).
      unfold place_buy_order, bind, lift, print, submit, update_files, py_truediv.
      rewrite Hp, Hp0. cbn [result_bind]. rewrite Hq.
      now destruct (order_market_buy (at_buy ex) symbol qty) as [[]|e].
  - intros cfg pd ex symbol_data current_price w.
    destruct (entry_check_buys_only_if cfg pd ex symbol_data current_price
                balance_in_usd w) as [H|(prices & bands & r & Hk & Hb & Hr & Hbuy)];
      [now left|right].
    apply andb_true_iff in Hbuy as [H1 H2].
    now exists prices, bands, r.
Qed.

(** Nothing held and a price of 10, below the bands 102 and 98: the
    threshold is 24.  An RSI of 20 buys, at the price 11 of the second
    ticker request; an RSI of 25 does not. *)
Lemma buy_condition_spec_witness :
  let w := {| files := ∅; orders := []; console := [] |} in
  orders (snd (entry_check example_config (example_indicators 20)
                 (example_exchange_moving 0 10 11) example_symbol 10 0 w))
  = [MarketBuy "ETHUSDT" (QInt 4)] /\
  orders (snd (entry_check example_config (example_indicators 25)
                 (example_exchange_moving 0 10 11) example_symbol 10 0 w))
  = [].
Proof.
  cbv zeta. split.
  - apply (proj2 (proj2 (proj1 (proj2 (proj2 (buy_condition_spec 20 24 0)))
             example_config (example_indicators 20) (example_exchange_moving 0 10 11)
             example_symbol 10%float {| files := ∅; orders := []; console := [] |}
             (replicate 30 10%float) (102, 98)%float eq_refl eq_refl eq_refl))
           11%float (QInt 4)); reflexivity.
  - apply (proj1 (proj2 (proj1 (proj2 (proj2 (buy_condition_spec 25 24 0)))
             example_config (example_indicators 25) (example_exchange_moving 0 10 11)
             example_symbol 10%float {| files := ∅; orders := []; console := [] |}
             (replicate 30 10%float) (102, 98)%float eq_refl eq_refl eq_refl))).
    left. reflexivity.
Defined.

(** Scenario C. *)
Example scenario_C :
  buy_condition 25 27 0.5 = true /\ buy_condition 25 27 5 = false.
Proof. vm_compute. auto. Qed.

(** A cycle that buys: no ETH held, price 10 inside the bands (threshold
    27), RSI 20: 50 USDT buy 5 ETH and the price is recorded. *)
Example buying_cycle :
  let w := process_symbol example_config (example_indicators 20)
             (example_exchange 0 10) example_symbol
             {| files := ∅; orders := []; console := [] |} in
  orders w = [MarketBuy "ETHUSDT" (QInt 5)] /\
  files w !! "ETHUSDT_purchase_price.txt"%string = Some "10.00000000"%string /\
  read_purchase_price "ETHUSDT" (files w) = Ok (Some 10%float).
Proof. vm_compute. auto. Qed.

(** ** C6 *)

(** C6: in one cycle [process_symbol] sends no order, or exactly one market
    sell, or exactly one market buy, never both.  A sell is sent only when
    the value of the balance before the decision is above the dust threshold
    of 1, a buy only when that same value is below it, and the two exclude
    each other. *)
Theorem one_action_per_cycle (cfg : Config) (pd : pandas) (ex : Exchange)
    (symbol_data : SymbolData) (w : World) :
  let symbol := sd_symbol symbol_data in
  let w' := process_symbol cfg pd ex symbol_data w in
  orders w' = orders w \/
  (exists balance current_price,
      check_if_symbol_in_balance ex symbol = Ok balance /\
      get_price ex symbol = Ok current_price /\
      (1 <? balance * current_price)%float = true /\
      (balance * current_price <? 1)%float = false /\
      orders w' = orders w ++ [MarketSell symbol balance]) \/
  (exists balance current_price qty,
      check_if_symbol_in_balance ex symbol = Ok balance /\
      get_price ex symbol = Ok current_price /\
      (balance * current_price <? 1)%float = true /\
      (1 <? balance * current_price)%float = false /\
      orders w' = orders w ++ [MarketBuy symbol qty]).
Proof.
  intros symbol. subst symbol. cbv zeta.
  destruct (check_if_symbol_in_balance ex (sd_symbol symbol_data)) as [balance|e] eqn:Hbal.
  2: { left. destruct (process_symbol_body_fails cfg pd ex symbol_data w) as [e' H];
       [left; rewrite Hbal; eauto|].
       eapply process_symbol_keeps_orders_on_failure; eassumption. }
  destruct (get_price ex (sd_symbol symbol_data)) as [current_price|e] eqn:Hprice.
  2: { left. destruct (process_symbol_body_fails cfg pd ex symbol_data w) as [e' H];
       [right; left; rewrite Hprice; eauto|].
       eapply process_symbol_keeps_orders_on_failure; eassumption. }
  destruct (read_purchase_price (sd_symbol symbol_data) (files w)) as [purchase_price|e] eqn:Hread.
  2: { left. destruct (process_symbol_body_fails cfg pd ex symbol_data w) as [e' H];
       [right; right; eauto|].
       eapply process_symbol_keeps_orders_on_failure; eassumption. }
  unfold process_symbol.
  rewrite (process_symbol_body_run cfg pd ex symbol_data w balance current_price purchase_price)
    by assumption.
  set (w0 := with_console w _).
  destruct (cycle_run cfg pd ex symbol_data balance current_price purchase_price w0)
    as [_ Ho].
  cbv zeta in Ho.
  match type of Ho with context [snd ?r] => destruct r as [[[]|e] w1] end;
    simpl in Ho |- *.
  all: destruct Ho as [Ho|[(Hb & _ & Ho)|(Hd & qty & Ho)]];
    [now left
    |right; left; exists balance, current_price;
     repeat split; auto using FloatOrder.ltb_asym
    |right; right; exists balance, current_price, qty;
     repeat split; auto using FloatOrder.ltb_asym].
Qed.

(** ** C7 *)

(** C7, refuted as stated: for a purchase price that is present and equal
    to 0.0 the code returns 0, not the quotient of the spec, which divides
    by zero (an exception in Python, an infinity in IEEE arithmetic). *)
Lemma profit_of_zero_purchase_price :
  profit_percentage (Some 0%float) 5 = Ok 0%float /\
  spec_profitPercentage (Some 0%float) 5 = Raise ZeroDivisionError /\
  ((5 - 0) / 0 * 100)%float = infinity.
Proof. vm_compute. auto. Qed.

(** C7, amended: the profit percentage is 0 when the purchase price is
    absent, and
    [(current_price - purchase_price) / purchase_price * 100] when it is
    present and not zero; a purchase price of 0.0 also gives 0.  With an
    absent purchase price neither exit test holds, and a holding worth at
    least 1 unit of quote currency is left alone: the cycle sends no
    order. *)
Theorem profit_percentage_spec (current_price : float) :
  profit_percentage None current_price = Ok 0%float /\
  (forall p, truthy p = true ->
     profit_percentage (Some p) current_price
     = Ok ((current_price - p) / p * 100)%float) /\
  (forall p, truthy p = false ->
     profit_percentage (Some p) current_price = Ok 0%float) /\
  (forall profit profit_target trailing_stop,
     take_profit None profit profit_target = false /\
     trailing_stop_fires None current_price profit_target trailing_stop = false) /\
  (forall cfg pd ex symbol_data w balance,
     check_if_symbol_in_balance ex (sd_symbol symbol_data) = Ok balance ->
     get_price ex (sd_symbol symbol_data) = Ok current_price ->
     read_purchase_price (sd_symbol symbol_data) (files w) = Ok None ->
     (1 <=? balance * current_price)%float = true ->
     orders (process_symbol cfg pd ex symbol_data w) = orders w).
Proof.
  split; [reflexivity|]. split.
  { intros p Hp. unfold profit_percentage, py_truediv. rewrite Hp.
    apply negb_true_iff in Hp. now rewrite Hp. }
  split.
  { intros p Hp. unfold profit_percentage. now rewrite Hp. }
  split; [now split|].
  intros cfg pd ex symbol_data w balance Hbal Hprice Hread Hheld.
  destruct (held_without_purchase_price cfg pd ex symbol_data w balance current_price
              None Hbal Hprice Hread eq_refl) as [H|[Hd _]]; [exact H|].
  apply FloatOrder.leb_not_ltb in Hheld. congruence.
Qed.

(** Scenario D: a balance worth 50 with no purchase price on file. *)
Lemma profit_percentage_spec_witness :
  read_purchase_price "ETHUSDT" ∅ = Ok None /\
  (1 <=? 0.5 * 100)%float = true /\
  orders (process_symbol example_config (example_indicators 50)
            (example_exchange 0.5 100) example_symbol
            {| files := ∅; orders := []; console := [] |}) = [].
Proof.
  split; [reflexivity|]. split; [reflexivity|].
  refine (proj2 (proj2 (proj2 (proj2 (profit_percentage_spec 100))))
            example_config (example_indicators 50) (example_exchange 0.5 100)
            example_symbol {| files := ∅; orders := []; console := [] |} 0.5%float _ _ _ _);
    reflexivity.
Defined.

(** ** C8 *)

(** C8, refuted as stated: a price with nine decimals is not read back
    exactly; the file holds its rendering with eight decimals. *)
Lemma nine_decimals_do_not_round_trip :
  format_fixed 8 0.123456789 = "0.12345679"%string /\
  read_purchase_price "ETHUSDT" (write_purchase_price "ETHUSDT" 0.123456789 ∅)
  = Ok (Some 0.12345679%float) /\
  (0.12345679 =? 0.123456789)%float = false.
Proof. vm_compute. auto. Qed.

(** C8, amended: after [write_purchase_price symbol price],
    [read_purchase_price symbol] returns [price] rounded to eight decimals:
    the binary64 value nearest to the decimal number with eight fractional
    digits nearest to [price] (NaN and the infinities are read back as
    themselves).  It returns [price] itself whenever [price] is the binary64
    value nearest to a decimal number [n / 10^8] with [n] below [2^52], of
    either sign: every price below 45 million quoted with at most eight
    decimals.  After [clear_purchase_price symbol] it returns [None]. *)
Theorem purchase_price_round_trip (symbol : string) (price : float)
    (fs : gmap string string) :
  read_purchase_price symbol (write_purchase_price symbol price fs)
  = Ok (Some (rounded_to_decimals 8 price)) /\
  (forall (s : bool) (n : Z),
      0 <= n < 2 ^ 52 -> price = decimal_to_float s n 8 ->
      read_purchase_price symbol (write_purchase_price symbol price fs)
      = Ok (Some price)) /\
  read_purchase_price symbol
    (clear_purchase_price symbol (write_purchase_price symbol price fs))
  = Ok None.
Proof.
  assert (Hread : read_purchase_price symbol (write_purchase_price symbol price fs)
                  = Ok (Some (rounded_to_decimals 8 price))).
  { unfold read_purchase_price, write_purchase_price.
    rewrite lookup_insert_eq. now rewrite float_of_format_fixed. }
  split; [exact Hread|]. split.
  - intros s n Hn ->. rewrite Hread. now rewrite rounded_to_decimals_decimal.
  - unfold read_purchase_price, clear_purchase_price, write_purchase_price.
    rewrite bool_decide_eq_true_2 by (rewrite lookup_insert_eq; eauto).
    now rewrite lookup_delete_eq.
Qed.

(** The price 0.12345678 is the binary64 value nearest to
    [12345678 / 10^8], and is read back as itself. *)
Lemma purchase_price_round_trip_witness :
  0 <= 12345678 < 2 ^ 52 /\
  0.12345678%float = decimal_to_float false 12345678 8 /\
  read_purchase_price "ETHUSDT" (write_purchase_price "ETHUSDT" 0.12345678 ∅)
  = Ok (Some 0.12345678%float).
Proof.
  split; [lia|]. split; [vm_compute; reflexivity|].
  apply (proj1 (proj2 (purchase_price_round_trip "ETHUSDT" 0.12345678 ∅))
           false 12345678); [lia|vm_compute; reflexivity].
Defined.

(** Prices with at most eight decimals, as the exchange quotes them, are
    read back exactly. *)
Example quoted_prices_round_trip :
  rounded_to_decimals 8 100 = 100%float /\
  rounded_to_decimals 8 0.12345678 = 0.12345678%float /\
  rounded_to_decimals 8 65432.10000001 = 65432.10000001%float /\
  rounded_to_decimals 8 0.00000001 = 0.00000001%float.
Proof. vm_compute. auto. Qed.

(** ** C9 *)

(** C9, refuted as stated: five closes are fewer than the period 14, and
    [calculate_rsi] returns [None], not NaN; the entry block of the cycle
    then raises [TypeError] on the RSI line.  On the empty sequence both
    operations raise [IndexError] at [.iloc[-1]]. *)
Lemma short_history_without_sentinel :
  calculate_rsi (example_indicators 50) [1; 2; 3; 2; 1]%float 14 = Ok None /\
  entry_check example_config (example_indicators 50)
    (example_exchange_with_history 0 10 [1; 2; 3; 2; 1]%float) example_symbol 10 0
    {| files := ∅; orders := []; console := [] |}
  = (Raise TypeError, {| files := ∅; orders := []; console := [] |}) /\
  calculate_bollinger_bands (example_indicators 50) [] 20 2 = Raise IndexError /\
  calculate_rsi (example_indicators 50) [] 14 = Raise IndexError.
Proof.
  split; [vm_compute; reflexivity|]. split; [vm_compute; reflexivity|].
  split; vm_compute; reflexivity.
Qed.

(** C9, amended: for every non-empty price sequence shorter than the
    window, [calculate_bollinger_bands] returns the pair (NaN, NaN).  For a
    non-empty sequence shorter than the length of the RSI ([period], or 14
    when [period] is not positive), [calculate_rsi] returns [None], never a
    number, and the entry block of the cycle raises [TypeError]; with
    exactly that many closes it returns [None] or NaN, as the release of
    pandas_ta has it, and never a number; with more it returns the value of
    pandas_ta.  On the empty sequence both raise [IndexError]. *)
Theorem short_history_signals (pd : pandas) (prices : list float)
    (window : nat) (std_dev : float) (period : Z) :
  (calculate_bollinger_bands pd [] window std_dev = Raise IndexError /\
   calculate_rsi pd [] period = Raise IndexError) /\
  (prices <> [] ->
   ((length prices < window)%nat ->
    calculate_bollinger_bands pd prices window std_dev = Ok (nan, nan)) /\
   (Z.of_nat (length prices) < rsi_length period ->
    calculate_rsi pd prices period = Ok None) /\
   (Z.of_nat (length prices) = rsi_length period ->
    calculate_rsi pd prices period = Ok (if rsi_extra_row pd then None else Some nan)) /\
   (rsi_length period < Z.of_nat (length prices) ->
    calculate_rsi pd prices period
    = Ok (Some (rsi_value pd (rsi_length period) prices))) /\
   (forall cfg ex symbol_data current_price balance_in_usd w,
      RSI_PERIOD cfg = period ->
      get_historical_klines ex (sd_symbol symbol_data) = Ok prices ->
      calculate_rsi pd prices period = Ok None ->
      entry_check cfg pd ex symbol_data current_price balance_in_usd w
      = (Raise TypeError, w))).
Proof.
  split.
  { split; [reflexivity|].
    unfold calculate_rsi. now destruct (ta_rsi pd [] period). }
  intros Hne.
  assert (Hpos : (0 < length prices)%nat) by (destruct prices; [congruence|simpl; lia]).
  pose proof (calculate_rsi_rows pd prices period Hne) as Hrsi.
  unfold rsi_min_rows in Hrsi.
  split; [|split; [|split; [|split]]].
  - intros Hshort. unfold calculate_bollinger_bands.
    rewrite !rolling_short by assumption.
    rewrite !zip_with_replicate.
    destruct (nan_band std_dev) as [-> ->].
    now rewrite iloc_last_replicate by assumption.
  - intros Hshort. rewrite Hrsi.
    now replace (Z.of_nat (length prices) <? _) with true
      by (symmetry; apply Z.ltb_lt; destruct (rsi_extra_row pd); lia).
  - intros Heq. rewrite Hrsi. destruct (rsi_extra_row pd).
    + now replace (Z.of_nat (length prices) <? _) with true
        by (symmetry; apply Z.ltb_lt; lia).
    + replace (Z.of_nat (length prices) <? _) with false
        by (symmetry; apply Z.ltb_ge; lia).
      now replace (Z.of_nat (length prices) <=? rsi_length period) with true
        by (symmetry; apply Z.leb_le; lia).
  - intros Hlong. rewrite Hrsi.
    replace (Z.of_nat (length prices) <? _) with false
      by (symmetry; apply Z.ltb_ge; destruct (rsi_extra_row pd); lia).
    now replace (Z.of_nat (length prices) <=? rsi_length period) with false
      by (symmetry; apply Z.leb_gt; lia).
  - intros cfg ex symbol_data current_price balance_in_usd w Hcfg Hk Hnone.
    apply (entry_check_without_rsi cfg pd ex symbol_data current_price balance_in_usd w
             prices Hk Hne).
    now rewrite Hcfg.
Qed.

(** Five closes, window 20 and period 14: both bands undefined, no RSI and
    a [TypeError] in the cycle; fourteen closes: an undefined RSI. *)
Lemma short_history_signals_witness :
  calculate_bollinger_bands (example_indicators 50) [1; 2; 3; 2; 1]%float 20 2 = Ok (nan, nan) /\
  calculate_rsi (example_indicators 50) [1; 2; 3; 2; 1]%float 14 = Ok None /\
  entry_check example_config (example_indicators 50)
    (example_exchange_with_history 0 10 [1; 2; 3; 2; 1]%float) example_symbol 10 0
    {| files := ∅; orders := []; console := [] |}
  = (Raise TypeError, {| files := ∅; orders := []; console := [] |}) /\
  calculate_rsi (example_indicators 50) (replicate 14 1%float) 14 = Ok (Some nan).
Proof.
  assert (H5 : [1; 2; 3; 2; 1]%float <> []) by discriminate.
  assert (H14 : replicate 14 1%float <> []) by discriminate.
  destruct (short_history_signals (example_indicators 50) [1; 2; 3; 2; 1]%float 20 2 14)
    as [_ Hfive].
  destruct (Hfive H5) as (Hbands & Hnone & _ & _ & Hcycle).
  destruct (short_history_signals (example_indicators 50) (replicate 14 1%float) 20 2 14)
    as [_ Hfourteen].
  destruct (Hfourteen H14) as (_ & _ & Hnan & _).
  split; [apply Hbands; simpl; lia|].
  split; [apply Hnone; reflexivity|].
  split; [|apply Hnan; reflexivity].
  apply (Hcycle example_config
           (example_exchange_with_history 0 10 [1; 2; 3; 2; 1]%float) example_symbol);
    [reflexivity|reflexivity|]. apply Hnone. reflexivity.
Defined.

(** ** C10 *)

(** C10: a purchase price on file that is equal to 0.0 is treated like an
    absent one.  The profit percentage is 0 and is obtained without dividing
    (no [ZeroDivisionError]); neither the take-profit nor the trailing-stop
    test holds; the profit check runs as with no purchase price; the cycle
    sends no sell order, for every current price and balance; and it sends
    the same orders and prints the same lines as when the file does not
    exist. *)
Theorem zero_purchase_price_is_untracked (p current_price : float) :
  (p =? 0)%float = true ->
  profit_percentage (Some p) current_price = Ok 0%float /\
  profit_percentage (Some p) current_price = profit_percentage None current_price /\
  (forall profit profit_target trailing_stop,
     take_profit (Some p) profit profit_target = false /\
     trailing_stop_fires (Some p) current_price profit_target trailing_stop = false) /\
  (forall cfg ex symbol balance balance_in_usd w,
     profit_check cfg ex symbol balance current_price balance_in_usd (Some p) w
     = profit_check cfg ex symbol balance current_price balance_in_usd None w) /\
  (forall cfg pd ex symbol_data w balance,
     check_if_symbol_in_balance ex (sd_symbol symbol_data) = Ok balance ->
     get_price ex (sd_symbol symbol_data) = Ok current_price ->
     read_purchase_price (sd_symbol symbol_data) (files w) = Ok (Some p) ->
     let w' := process_symbol cfg pd ex symbol_data w in
     let absent := {| files := delete (purchase_price_file (sd_symbol symbol_data)) (files w);
                      orders := orders w; console := console w |} in
     (orders w' = orders w \/
      exists qty, orders w' = orders w ++ [MarketBuy (sd_symbol symbol_data) qty]) /\
     orders w' = orders (process_symbol cfg pd ex symbol_data absent) /\
     console w' = console (process_symbol cfg pd ex symbol_data absent)).
Proof.
  intros Hz.
  assert (Hp : truthy p = false) by (unfold truthy; now rewrite Hz).
  assert (Hpp : profit_percentage (Some p) current_price = Ok 0%float).
  { unfold profit_percentage. now rewrite Hp. }
  split; [exact Hpp|]. split; [exact Hpp|]. split.
  { intros profit profit_target trailing_stop.
    unfold take_profit, trailing_stop_fires. simpl. now rewrite Hp. }
  split.
  { intros cfg ex symbol balance balance_in_usd w.
    now rewrite !profit_check_no_purchase. }
  intros cfg pd ex symbol_data w balance Hbal Hprice Hread. cbv zeta.
  split.
  - destruct (held_without_purchase_price cfg pd ex symbol_data w balance current_price
                (Some p) Hbal Hprice Hread Hp) as [Ho|[_ [q Ho]]];
      [now left|right; now exists q].
  - apply (untracked_cycles_agree cfg pd ex symbol_data w _ balance current_price
             (Some p) None); try assumption; try reflexivity.
    + now split.
    + apply read_purchase_price_deleted.
Qed.

(** A file holding 0.00000000: nothing is sold, whatever the price. *)
Lemma zero_purchase_price_is_untracked_witness :
  (0 =? 0)%float = true /\ profit_percentage (Some 0%float) 103 = Ok 0%float.
Proof.
  split; [reflexivity|].
  apply (zero_purchase_price_is_untracked 0 103). reflexivity.
Defined.

Example zero_purchase_price_cycle :
  read_purchase_price "ETHUSDT" (files (bought_at 0)) = Ok (Some 0%float) /\
  orders (process_symbol example_config (example_indicators 50)
            (example_exchange 0.5 103) example_symbol (bought_at 0)) = [].
Proof. vm_compute. auto. Qed.

(* ===================================================================== *)
(** * Further properties of the code                                      *)
(* ===================================================================== *)

(** ** X1 *)

(** X1: what a cycle of [process_symbol] sends, prints and does to the
    purchase-price file is determined by the answers of the exchange and by
    the content of that symbol's own purchase-price file.  In every world
    where this file has the same content the cycle appends the same orders
    and the same lines and puts, removes or keeps that file in the same way;
    no other file is read or changed. *)
Theorem process_symbol_footprint (cfg : Config) (pd : pandas) (ex : Exchange)
    (symbol_data : SymbolData) (text : option string) :
  exists (e : file_effect) (os : list order) (ls : list line),
    forall w : World,
      files w !! purchase_price_file (sd_symbol symbol_data) = text ->
      process_symbol cfg pd ex symbol_data w
      = after (purchase_price_file (sd_symbol symbol_data)) e os ls w.
Proof.
  destruct (local_process_symbol_body cfg pd ex symbol_data text)
    as (r & e & os & ls & H).
  destruct r as [[]|err].
  - exists e, os, ls. intros w Hw. unfold process_symbol. now rewrite (H w Hw).
  - exists e, os, (ls ++ [ErrorLine (sd_symbol symbol_data) err]). intros w Hw.
    unfold process_symbol. rewrite (H w Hw). unfold after. simpl.
    now rewrite app_assoc.
Qed.

(** ** X2 *)

(** X2: the purchase-price file follows the orders the exchange accepts.
    A cycle that sends no order leaves the files as they were.  A cycle that
    sends a sale deletes the file of the symbol when the exchange accepts the
    sale and leaves it when the exchange raises.  A cycle that sends a buy
    writes to the file the price that the ticker answered to
    [place_buy_order], which is the second request of the cycle and not the
    one the header shows, when the exchange accepts the buy, and leaves the
    file when the exchange raises. *)
Theorem purchase_price_file_follows_orders (cfg : Config) (pd : pandas) (ex : Exchange)
    (symbol_data : SymbolData) (w : World) :
  let symbol := sd_symbol symbol_data in
  let w' := process_symbol cfg pd ex symbol_data w in
  (orders w' = orders w /\ files w' = files w) \/
  (exists balance,
      orders w' = orders w ++ [MarketSell symbol balance] /\
      files w' = match order_market_sell ex symbol balance with
                 | Ok _ => delete (purchase_price_file symbol) (files w)
                 | Raise _ => files w
                 end) \/
  (exists price qty,
      get_price (at_buy ex) symbol = Ok price /\
      orders w' = orders w ++ [MarketBuy symbol qty] /\
      files w' = match order_market_buy ex symbol qty with
                 | Ok _ => write_purchase_price symbol price (files w)
                 | Raise _ => files w
                 end).
Proof.
  cbv zeta.
  destruct (check_if_symbol_in_balance ex (sd_symbol symbol_data)) as [balance|e] eqn:Hbal.
  2: { left. destruct (process_symbol_body_fails cfg pd ex symbol_data w) as [e' H];
       [left; rewrite Hbal; eauto|]. unfold process_symbol. now rewrite H. }
  destruct (get_price ex (sd_symbol symbol_data)) as [current_price|e] eqn:Hprice.
  2: { left. destruct (process_symbol_body_fails cfg pd ex symbol_data w) as [e' H];
       [right; left; rewrite Hprice; eauto|]. unfold process_symbol. now rewrite H. }
  destruct (read_purchase_price (sd_symbol symbol_data) (files w)) as [purchase_price|e] eqn:Hread.
  2: { left. destruct (process_symbol_body_fails cfg pd ex symbol_data w) as [e' H];
       [right; right; eauto|]. unfold process_symbol. now rewrite H. }
  unfold process_symbol.
  rewrite (process_symbol_body_run cfg pd ex symbol_data w balance current_price purchase_price)
    by assumption.
  set (w0 := with_console w _).
  assert (Ho0 : orders w0 = orders w) by reflexivity.
  assert (Hf0 : files w0 = files w) by reflexivity.
  clearbody w0.
  pose proof (profit_check_files cfg ex (sd_symbol symbol_data) balance current_price
                (balance * current_price) purchase_price w0) as H1.
  cbv zeta in H1.
  destruct (profit_check _ _ _ _ _ _ _ w0) as [r1 w1] eqn:E1.
  rewrite (bind_run _ _ _ _ _ E1). simpl in H1.
  destruct H1 as [[Ho1 Hf1]|(Hb & _ & Ho1 & Hsell)].
  - (* no sale *)
    destruct r1 as [[]|e1]; [|left; simpl; split; congruence].
    pose proof (entry_check_files cfg pd ex symbol_data current_price
                  (balance * current_price) w1) as H2.
    cbv zeta in H2.
    destruct (entry_check _ _ _ _ _ _ w1) as [r2 w2] eqn:E2.
    rewrite (bind_run _ _ _ _ _ E2). simpl in H2.
    destruct H2 as [[Ho2 Hf2]|(_ & price & qty & Hp & _ & Ho2 & Hf2)].
    + left. destruct r2 as [[]|e2]; simpl; split; congruence.
    + right. right. exists price, qty. split; [exact Hp|].
      destruct r2 as [[]|e2]; simpl; rewrite Ho2, Hf2, Ho1, Hf1, Ho0, Hf0; auto.
  - (* a sale was sent *)
    right. left. exists balance.
    destruct (order_market_sell ex (sd_symbol symbol_data) balance) as [[]|e];
      destruct Hsell as [-> Hf1].
    + pose proof (entry_check_files cfg pd ex symbol_data current_price
                    (balance * current_price) w1) as H2.
      cbv zeta in H2.
      destruct (entry_check _ _ _ _ _ _ w1) as [r2 w2] eqn:E2.
      rewrite (bind_run _ _ _ _ _ E2). simpl in H2.
      destruct H2 as [[Ho2 Hf2]|(Hd & _)];
        [|apply FloatOrder.ltb_asym in Hb; congruence].
      destruct r2 as [[]|e2]; simpl; rewrite Ho2, Hf2, Ho1, Hf1, Ho0, Hf0; auto.
    + simpl. rewrite Ho1, Hf1, Ho0, Hf0. auto.
Qed.

(** ** X3 *)



(** ** X4 *)

(** X4: a cycle whose first three calls fail is reported and does nothing
    else.  When the account request raises, or else the ticker request
    raises, or else the purchase-price file of the symbol exists and is empty
    or holds blanks only, on which [float] raises [ValueError],
    [process_symbol] prints the one line "Error processing ..." with that
    exception, not even the header, and sends no order and changes no file:
    [read_purchase_price] catches [FileNotFoundError] only. *)
Theorem cycle_aborted_before_header (cfg : Config) (pd : pandas) (ex : Exchange)
    (symbol_data : SymbolData) (w : World) (e : exn) :
  let symbol := sd_symbol symbol_data in
  check_if_symbol_in_balance ex symbol = Raise e \/
  (exists balance, check_if_symbol_in_balance ex symbol = Ok balance) /\
  (get_price ex symbol = Raise e \/
   (exists price, get_price ex symbol = Ok price) /\
   e = ValueError /\
   exists text, files w !! purchase_price_file symbol = Some text /\ is_blank text = true) ->
  process_symbol cfg pd ex symbol_data w = with_console w [ErrorLine symbol e].
Proof.
  cbv zeta. unfold process_symbol, process_symbol_body, bind, lift, with_files, with_console.
  intros [H|[[balance Hb] [H|[[price Hp] [-> (text & Hfile & Hblank)]]]]].
  - now rewrite H.
  - now rewrite Hb, H.
  - now rewrite Hb, Hp, (read_blank_purchase_price _ _ _ Hfile Hblank).
Qed.

(** An empty purchase-price file: [float] raises [ValueError], and the
    cycle, which would buy at an RSI of 20, only reports it. *)
Lemma cycle_aborted_before_header_witness :
  files empty_record !! purchase_price_file "ETHUSDT" = Some EmptyString /\
  is_blank EmptyString = true /\
  process_symbol example_config (example_indicators 20) (example_exchange 0 10)
    example_symbol empty_record
  = with_console empty_record [ErrorLine "ETHUSDT" ValueError].
Proof.
  split; [reflexivity|]. split; [reflexivity|].
  apply (cycle_aborted_before_header example_config (example_indicators 20)
           (example_exchange 0 10) example_symbol empty_record ValueError).
  right. split; [eexists; reflexivity|].
  right. split; [eexists; reflexivity|]. split; [reflexivity|].
  exists EmptyString. split; reflexivity.
Defined.

(** ** X5 *)

(** X5: in every round of the loop of [main], at most one order is sent
    for each entry of the configured symbols, in the order of the
    configuration, and each order is for the symbol of its entry; so a round
    sends at most as many orders as there are symbols. *)
Theorem main_sends_one_order_per_symbol (cfg : Config) (pd : pandas)
    (symbols : list SymbolData) (rounds : list Round) (mw : MainWorld) :
  exists oss : list (list order),
    m_orders (main cfg pd symbols rounds mw) = m_orders mw ++ concat oss /\
    Forall2 (fun (_ : Round) os =>
               one_order_each symbols os /\ (length os <= length symbols)%nat)
            rounds oss.
Proof.
  destruct (main_orders cfg pd symbols rounds mw) as (oss & Ho & Hall).
  exists oss. split; [assumption|].
  eapply Forall2_impl; [exact Hall|]. simpl. intros _ os Hos.
  split; [assumption|now apply one_order_each_length].
Qed.

(** ** X6 *)

(** X6: a purchase-price file that is empty or holds blanks only blocks
    its symbol for good.  Through any number of rounds of [main], with any
    answers of the exchange and any configured symbols, the file keeps this
    content, reading it raises [ValueError], and no order for this symbol is
    sent. *)
Theorem blank_file_blocks_symbol (cfg : Config) (pd : pandas)
    (symbols : list SymbolData) (rounds : list Round) (mw : MainWorld)
    (s text : string) :
  m_files mw !! purchase_price_file s = Some text ->
  is_blank text = true ->
  let mw' := main cfg pd symbols rounds mw in
  m_files mw' !! purchase_price_file s = Some text /\
  read_purchase_price s (m_files mw') = Raise ValueError /\
  exists os, m_orders mw' = m_orders mw ++ os /\ Forall (fun o => order_symbol o <> s) os.
Proof.
  intros Hfile Hblank. cbv zeta.
  pose proof (read_blank_purchase_price s text (m_files mw) Hfile Hblank) as Hread.
  destruct (main_blocked cfg pd symbols rounds mw s ValueError Hread) as [Hf Ho].
  split; [now rewrite Hf|]. split; [|exact Ho].
  now rewrite (read_purchase_price_lookup s _ (m_files mw)).
Qed.

(** Two rounds over ETHUSDT and BTCUSDT at an RSI of 20, with an empty
    file for ETHUSDT. *)
Lemma blank_file_blocks_symbol_witness :
  m_files (main_of empty_record) !! purchase_price_file "ETHUSDT" = Some EmptyString /\
  is_blank EmptyString = true /\
  read_purchase_price "ETHUSDT"
    (m_files (main example_config (example_indicators 20)
                [example_symbol; example_symbol_btc]
                [example_round 0 10; example_round 0 10] (main_of empty_record)))
  = Raise ValueError.
Proof.
  split; [reflexivity|]. split; [reflexivity|].
  apply (blank_file_blocks_symbol example_config (example_indicators 20)
           [example_symbol; example_symbol_btc]
           [example_round 0 10; example_round 0 10] (main_of empty_record)
           "ETHUSDT" EmptyString); reflexivity.
Defined.

(** ** X7 *)

(** X7: for a symbol made of a base asset followed by USDT, where USDT does
    not occur in the base, [check_if_symbol_in_balance] looks up the base
    asset: it returns the free amount of the first entry of the account with
    that name, and 0 when the account has no such entry. *)
Theorem balance_of_base_asset (ex : Exchange) (base : string)
    (balances : list (string * float)) :
  ~ contains_USDT base ->
  get_account ex = Ok balances ->
  (forall before x after,
      balances = before ++ (base, x) :: after -> ~ In base (map fst before) ->
      check_if_symbol_in_balance ex (base +:+ "USDT") = Ok x) /\
  (~ In base (map fst balances) ->
   check_if_symbol_in_balance ex (base +:+ "USDT") = Ok 0%float).
Proof.
  intros Hbase Hacc. unfold check_if_symbol_in_balance. rewrite Hacc. simpl.
  rewrite remove_USDT_suffix by assumption. split.
  - intros before x after -> Hno. now rewrite find_free_first.
  - intros Hno. now rewrite find_free_missing.
Qed.

(** ETH in the account of the example, after BTC. *)
Lemma balance_of_base_asset_witness :
  ~ contains_USDT "ETH" /\
  check_if_symbol_in_balance (example_exchange 0.5 100) "ETHUSDT" = Ok 0.5%float.
Proof.
  assert (Hbase : ~ contains_USDT "ETH").
  { intros (a & b & H). apply (f_equal String.length) in H.
    rewrite !length_append in H. simpl in H. lia. }
  split; [exact Hbase|].
  refine (proj1 (balance_of_base_asset (example_exchange 0.5 100) "ETH"
                   [("BTC"%string, 0%float); ("ETH"%string, 0.5%float)] Hbase eq_refl)
            [("BTC"%string, 0%float)] 0.5%float [] eq_refl _).
  simpl. intros [H|[]]. discriminate H.
Defined.

(** ** X8 *)

(** X8: an asset that the account does not list has the balance 0, and a
    balance of zero is never sold: whatever the price and the purchase price
    on file, the cycle sends no order or a buy. *)
Theorem empty_balance_is_never_sold (cfg : Config) (pd : pandas) (ex : Exchange)
    (symbol_data : SymbolData) (w : World) :
  let symbol := sd_symbol symbol_data in
  let w' := process_symbol cfg pd ex symbol_data w in
  (forall balances,
      get_account ex = Ok balances ->
      ~ In (remove_USDT symbol) (map fst balances) ->
      check_if_symbol_in_balance ex symbol = Ok 0%float) /\
  (forall balance,
      check_if_symbol_in_balance ex symbol = Ok balance ->
      (balance =? 0)%float = true ->
      orders w' = orders w \/
      exists qty, orders w' = orders w ++ [MarketBuy symbol qty]).
Proof.
  cbv zeta. split.
  - intros balances Hacc Hno. unfold check_if_symbol_in_balance. rewrite Hacc. simpl.
    now rewrite find_free_missing.
  - intros balance Hbal Hzero.
    destruct (process_symbol_cases cfg pd ex symbol_data w)
      as [Ho|[(b & c & p & Hb & _ & _ & _ & Hheld & _)
             |(b & c & prices & bands & r & qty & _ & _ & _ & _ & _ & _ & _ & Ho)]].
    + now left.
    + exfalso. assert (b = balance) by congruence. subst b.
      rewrite (zero_balance_below_dust balance c Hzero) in Hheld. discriminate.
    + right. now exists qty.
Qed.

(** SOLUSDT with the account of the example, which lists BTC and ETH: the
    balance is 0, and a purchase price of 100 on file with a price of 103
    leads to no sale. *)
Lemma empty_balance_is_never_sold_witness :
  let sol := {| sd_symbol := "SOLUSDT"; sd_rounding := "floor"; sd_amount_usdt := 50 |} in
  let w := {| files := write_purchase_price "SOLUSDT" 100 ∅; orders := []; console := [] |} in
  let w' := process_symbol example_config (example_indicators 50)
              (example_exchange 0.5 103) sol w in
  check_if_symbol_in_balance (example_exchange 0.5 103) "SOLUSDT" = Ok 0%float /\
  (0 =? 0)%float = true /\
  (orders w' = orders w \/ exists qty, orders w' = orders w ++ [MarketBuy "SOLUSDT" qty]).
Proof.
  cbv zeta.
  assert (H : check_if_symbol_in_balance (example_exchange 0.5 103) "SOLUSDT" = Ok 0%float).
  { refine (proj1 (empty_balance_is_never_sold example_config (example_indicators 50)
                     (example_exchange 0.5 103)
                     {| sd_symbol := "SOLUSDT"; sd_rounding := "floor"; sd_amount_usdt := 50 |}
                     {| files := write_purchase_price "SOLUSDT" 100 ∅;
                        orders := []; console := [] |})
              [("BTC"%string, 0%float); ("ETH"%string, 0.5%float)] eq_refl _).
    simpl. intros [H|[H|[]]]; discriminate H. }
  split; [exact H|]. split; [reflexivity|].
  exact (proj2 (empty_balance_is_never_sold example_config (example_indicators 50)
                  (example_exchange 0.5 103)
                  {| sd_symbol := "SOLUSDT"; sd_rounding := "floor"; sd_amount_usdt := 50 |}
                  {| files := write_purchase_price "SOLUSDT" 100 ∅;
                     orders := []; console := [] |})
           0%float H eq_refl).
Defined.

(** ** X10 *)

(** X10: with a history that is not empty and shorter than 20 closes the
    bands are undefined and the threshold is 27 whatever the price: the
    entry block prints the RSI line with the threshold 27 and buys exactly
    when the RSI is below 27 and the balance is worth less than 1. *)
Theorem short_history_uses_threshold_27 (cfg : Config) (pd : pandas) (ex : Exchange)
    (symbol_data : SymbolData) (current_price balance_in_usd : float) (w : World)
    (prices : list float) (r : float) :
  get_historical_klines ex (sd_symbol symbol_data) = Ok prices ->
  prices <> [] -> (length prices < 20)%nat ->
  calculate_rsi pd prices (RSI_PERIOD cfg) = Ok (Some r) ->
  let w1 := with_console w [RsiLine r (r <? 27)%float 27] in
  entry_check cfg pd ex symbol_data current_price balance_in_usd w =
  if buy_condition r 27 balance_in_usd
  then place_buy_order (at_buy ex) (sd_symbol symbol_data) (sd_amount_usdt symbol_data)
         (sd_rounding symbol_data)
         (with_console w1 [ConditionsMetLine (sd_symbol symbol_data)])
  else (Ok tt, w1).
Proof.
  intros Hk Hne Hshort Hr. cbv zeta.
  destruct (short_history_threshold pd prices current_price Hne Hshort) as (bands & Hb & Ht).
  rewrite (entry_check_decided cfg pd ex symbol_data current_price balance_in_usd w
             prices bands r Hk Hb Hr).
  cbv zeta. rewrite Ht. reflexivity.
Qed.

(** Fifteen closes, enough for the RSI of period 14 and too few for the
    bands, a price of 10 above every close, an RSI of 26 and nothing held:
    the threshold is 27 and the entry block buys. *)
Lemma short_history_uses_threshold_27_witness :
  (length (replicate 15 1%float) < 20)%nat /\
  orders (snd (entry_check example_config (example_indicators 26)
                 (example_exchange_with_history 0 10 (replicate 15 1%float))
                 example_symbol 10 0 {| files := ∅; orders := []; console := [] |}))
  = [MarketBuy "ETHUSDT" (QInt 5)].
Proof.
  split; [simpl; lia|].
  rewrite (short_history_uses_threshold_27 example_config (example_indicators 26)
             (example_exchange_with_history 0 10 (replicate 15 1%float))
             example_symbol 10 0 {| files := ∅; orders := []; console := [] |}
             (replicate 15 1%float) 26 eq_refl ltac:(discriminate) ltac:(simpl; lia) eq_refl).
  vm_compute. reflexivity.
Defined.

(** ** X11 *)

(** X11: when [ta.rsi] returns [None] for a history that is not empty, the
    RSI column holds [None], formatting it raises [TypeError], and the entry
    block stops there: it prints nothing, sends no order and changes no
    file.  Such a cycle never buys: it sends no order, or the sale of the
    profit check. *)
Theorem missing_rsi_stops_the_entry (cfg : Config) (pd : pandas) (ex : Exchange)
    (symbol_data : SymbolData) (prices : list float) :
  get_historical_klines ex (sd_symbol symbol_data) = Ok prices ->
  prices <> [] ->
  ta_rsi pd prices (RSI_PERIOD cfg) = None ->
  (forall current_price balance_in_usd w,
      entry_check cfg pd ex symbol_data current_price balance_in_usd w
      = (Raise TypeError, w)) /\
  (forall w,
      orders (process_symbol cfg pd ex symbol_data w) = orders w \/
      exists balance,
        orders (process_symbol cfg pd ex symbol_data w)
        = orders w ++ [MarketSell (sd_symbol symbol_data) balance]).
Proof.
  intros Hk Hne Hta.
  assert (Hpos : (0 < length prices)%nat) by (destruct prices; [congruence|simpl; lia]).
  assert (Hr : calculate_rsi pd prices (RSI_PERIOD cfg) = Ok None).
  { unfold calculate_rsi, assign_column. rewrite Hta.
    now rewrite iloc_last_replicate by assumption. }
  split.
  - intros current_price balance_in_usd w.
    destruct (calculate_bollinger_bands_total pd prices 20 2 Hne) as [bands Hb].
    unfold entry_check, bind, lift. now rewrite Hk, Hb, Hr.
  - intros w.
    destruct (process_symbol_cases cfg pd ex symbol_data w)
      as [Ho|[(b & c & p & _ & _ & _ & _ & _ & _ & Ho)
             |(b & c & prices' & bands & r & qty & _ & _ & Hk' & _ & Hr' & _)]].
    + now left.
    + right. now exists b.
    + exfalso. assert (prices' = prices) by congruence. subst prices'. congruence.
Qed.

(** Five closes for an RSI of period 14: [ta.rsi] gives [None]; nothing is
    held, and nothing is bought. *)
Lemma missing_rsi_stops_the_entry_witness :
  ta_rsi (example_indicators 20) [1; 2; 3; 2; 1]%float (RSI_PERIOD example_config) = None /\
  entry_check example_config (example_indicators 20)
    (example_exchange_with_history 0 10 [1; 2; 3; 2; 1]%float)
    example_symbol 10 0 {| files := ∅; orders := []; console := [] |}
  = (Raise TypeError, {| files := ∅; orders := []; console := [] |}).
Proof.
  split; [reflexivity|].
  apply (missing_rsi_stops_the_entry example_config (example_indicators 20)
           (example_exchange_with_history 0 10 [1; 2; 3; 2; 1]%float)
           example_symbol [1; 2; 3; 2; 1]%float).
  - reflexivity.
  - discriminate.
  - reflexivity.
Defined.

(** ** X12 *)

(** X12: a cycle buys only on an RSI below 30.  Whatever the bands, a buy
    order is sent only when [calculate_rsi] returned a number below 30, the
    largest of the three thresholds. *)
Theorem buy_needs_rsi_below_30 (cfg : Config) (pd : pandas) (ex : Exchange)
    (symbol_data : SymbolData) (w : World) :
  let symbol := sd_symbol symbol_data in
  let w' := process_symbol cfg pd ex symbol_data w in
  orders w' = orders w \/
  (exists balance, orders w' = orders w ++ [MarketSell symbol balance]) \/
  (exists prices r qty,
      get_historical_klines ex symbol = Ok prices /\
      calculate_rsi pd prices (RSI_PERIOD cfg) = Ok (Some r) /\
      (r <? 30)%float = true /\
      orders w' = orders w ++ [MarketBuy symbol qty]).
Proof.
  cbv zeta.
  destruct (process_symbol_cases cfg pd ex symbol_data w)
    as [Ho|[(b & c & p & _ & _ & _ & _ & _ & _ & Ho)
           |(b & c & prices & bands & r & qty & _ & _ & Hk & _ & Hr & Hrsi & _ & Ho)]].
  - now left.
  - right. left. now exists b.
  - right. right. exists prices, r, qty.
    apply (proj1 (below_threshold r c (fst bands) (snd bands))) in Hrsi. auto.
Qed.

(** ** X13 *)

(** X13: an RSI below 24, the smallest threshold, always starts a buy when
    nothing is held.  If the balance is worth less than 1 at the price of the
    first ticker request, the history is not empty and the RSI is a number
    below 24, the cycle calls [place_buy_order], whatever the bands and the
    purchase price on file.  [place_buy_order] asks the ticker again: if this
    second request raises, no order is sent and the error is reported; if it
    answers a price that is not zero and the quantity for that price can be
    rounded, the cycle sends the buy order for that quantity, and once the
    exchange has accepted it, the purchase price read back is the second
    price rounded to eight decimals. *)
Theorem rsi_below_24_buys (cfg : Config) (pd : pandas) (ex : Exchange)
    (symbol_data : SymbolData) (w : World) (balance price r : float)
    (purchase_price : option float) (prices : list float) :
  let symbol := sd_symbol symbol_data in
  let w' := process_symbol cfg pd ex symbol_data w in
  check_if_symbol_in_balance ex symbol = Ok balance ->
  get_price ex symbol = Ok price ->
  read_purchase_price symbol (files w) = Ok purchase_price ->
  (balance * price <? 1)%float = true ->
  get_historical_klines ex symbol = Ok prices ->
  prices <> [] ->
  calculate_rsi pd prices (RSI_PERIOD cfg) = Ok (Some r) ->
  (r <? 24)%float = true ->
  (forall e, get_price (at_buy ex) symbol = Raise e ->
     orders w' = orders w /\ files w' = files w /\
     last (console w') = Some (ErrorLine symbol e)) /\
  (forall price_at_buy qty,
     get_price (at_buy ex) symbol = Ok price_at_buy ->
     truthy price_at_buy = true ->
     round_quantity (sd_rounding symbol_data) (sd_amount_usdt symbol_data / price_at_buy)
     = Ok qty ->
     orders w' = orders w ++ [MarketBuy symbol qty] /\
     (order_market_buy ex symbol qty = Ok tt ->
      read_purchase_price symbol (files w')
      = Ok (Some (rounded_to_decimals 8 price_at_buy)))).
Proof.
  cbv zeta. intros Hbal Hprice Hread Hdust Hk Hne Hr Hrsi.
  destruct (calculate_bollinger_bands_total pd prices 20 2 Hne) as [bands Hb].
  remember (process_symbol cfg pd ex symbol_data w) as w1 eqn:E.
  unfold process_symbol in E.
  rewrite (process_symbol_body_run cfg pd ex symbol_data w balance price purchase_price)
    in E by assumption.
  set (w0 := with_console w _) in E.
  assert (Ho0 : orders w0 = orders w) by reflexivity.
  assert (Hf0 : files w0 = files w) by reflexivity. clearbody w0.
  unfold profit_check in E. rewrite (FloatOrder.ltb_asym _ _ Hdust) in E.
  rewrite bind_print in E. unfold bind at 1 in E.
  rewrite (entry_check_decided cfg pd ex symbol_data price (balance * price) _
             prices bands r Hk Hb Hr) in E.
  cbv zeta in E. unfold buy_condition in E.
  rewrite (proj2 (below_threshold r price (fst bands) (snd bands)) Hrsi), Hdust in E.
  cbn [andb] in E.
  unfold place_buy_order, bind, lift, print, submit, update_files, py_truediv, with_console
    in E.
  split.
  - intros e Hagain. rewrite Hagain in E. cbn [files orders console fst snd] in E.
    subst w1. cbn [files orders console]. rewrite Ho0, Hf0, last_snoc. auto.
  - intros price_at_buy qty Hagain Hp Hq.
    assert (Hp0 : (price_at_buy =? 0)%float = false) by (now apply negb_true_iff).
    rewrite Hagain, Hp0 in E. cbn [result_bind] in E. rewrite Hq in E.
    change (order_market_buy (at_buy ex)) with (order_market_buy ex) in E.
    destruct (order_market_buy ex (sd_symbol symbol_data) qty) as [[]|e];
      cbn [files orders console fst snd] in E; subst w1;
      cbn [files orders console]; rewrite Ho0;
      (split; [reflexivity|]); [|discriminate].
    intros _. rewrite Hf0. unfold read_purchase_price, write_purchase_price.
    rewrite lookup_insert_eq. now rewrite float_of_format_fixed.
Qed.

(** Nothing held, RSI 20, the ticker answers 10 to the cycle and 11 to
    [place_buy_order]: 50 USDT buy 4 ETH, and 11 is the price recorded. *)
Lemma rsi_below_24_buys_witness :
  let w := {| files := ∅; orders := []; console := [] |} in
  let w' := process_symbol example_config (example_indicators 20)
              (example_exchange_moving 0 10 11) example_symbol w in
  (0 * 10 <? 1)%float = true /\ (20 <? 24)%float = true /\ truthy 11 = true /\
  orders w' = [MarketBuy "ETHUSDT" (QInt 4)] /\
  read_purchase_price "ETHUSDT" (files w') = Ok (Some (rounded_to_decimals 8 11)).
Proof.
  cbv zeta. split; [reflexivity|]. split; [reflexivity|]. split; [reflexivity|].
  assert (H := proj2 (rsi_below_24_buys example_config (example_indicators 20)
                        (example_exchange_moving 0 10 11) example_symbol
                        {| files := ∅; orders := []; console := [] |}
                        0 10 20 None (replicate 30 10%float)
                        eq_refl eq_refl eq_refl eq_refl eq_refl
                        ltac:(discriminate) eq_refl eq_refl)
                 11%float (QInt 4) eq_refl eq_refl eq_refl).
  destruct H as [Ho Hf]. split; [exact Ho|exact (Hf eq_refl)].
Defined.

(** ** X14 *)

(** X14: with a positive profit target and a trailing stop that is not
    negative, a cycle never sells at or below a positive purchase price: a
    sale is sent only when a purchase price is on file, and if that price is
    positive the ticker price is above it. *)
Theorem no_sale_at_or_below_cost (cfg : Config) (pd : pandas) (ex : Exchange)
    (symbol_data : SymbolData) (w : World) :
  (0 <? PROFIT_TARGET cfg)%float = true ->
  (0 <=? TRAILING_STOP cfg)%float = true ->
  let symbol := sd_symbol symbol_data in
  let w' := process_symbol cfg pd ex symbol_data w in
  orders w' = orders w \/
  (exists qty, orders w' = orders w ++ [MarketBuy symbol qty]) \/
  (exists balance current_price p,
      get_price ex symbol = Ok current_price /\
      read_purchase_price symbol (files w) = Ok (Some p) /\
      orders w' = orders w ++ [MarketSell symbol balance] /\
      ((0 <? p)%float = true -> (p <? current_price)%float = true)).
Proof.
  intros Htarget Htrail. cbv zeta.
  destruct (process_symbol_cases cfg pd ex symbol_data w)
    as [Ho|[(b & c & p & _ & Hprice & Hread & _ & _ & Hfire & Ho)
           |(b & c & prices & bands & r & qty & _ & _ & _ & _ & _ & _ & _ & Ho)]].
  - now left.
  - right. right. exists b, c, p. repeat split; try assumption.
    intros Hp. destruct Hfire as [Htp|Hts].
    + now apply (take_profit_above_cost_float p c (PROFIT_TARGET cfg)).
    + unfold should_sell_with_trailing_stop in Hts.
      apply andb_true_iff in Hts as [H1 H2].
      apply (trailing_stop_above_cost_float p c (PROFIT_TARGET cfg) (TRAILING_STOP cfg));
        try assumption.
      rewrite FloatAxioms.leb_spec. rewrite FloatAxioms.ltb_spec in Htarget.
      unfold SFleb, SFltb in *.
      now destruct (SFcompare (Prim2SF 0) (Prim2SF (PROFIT_TARGET cfg))) as [[]|].
  - right. left. now exists qty.
Qed.

(** Scenario A: bought at 100, sold at 103. *)
Lemma no_sale_at_or_below_cost_witness :
  let w' := process_symbol example_config (example_indicators 50) (example_exchange 0.5 103)
              example_symbol (bought_at 100) in
  (0 <? PROFIT_TARGET example_config)%float = true /\
  (0 <=? TRAILING_STOP example_config)%float = true /\
  (orders w' = orders (bought_at 100) \/
   (exists qty, orders w' = orders (bought_at 100) ++ [MarketBuy "ETHUSDT" qty]) \/
   (exists balance current_price p,
      get_price (example_exchange 0.5 103) "ETHUSDT" = Ok current_price /\
      read_purchase_price "ETHUSDT" (files (bought_at 100)) = Ok (Some p) /\
      orders w' = orders (bought_at 100) ++ [MarketSell "ETHUSDT" balance] /\
      ((0 <? p)%float = true -> (p <? current_price)%float = true))).
Proof.
  cbv zeta. split; [reflexivity|]. split; [reflexivity|].
  apply (no_sale_at_or_below_cost example_config (example_indicators 50)
           (example_exchange 0.5 103) example_symbol (bought_at 100)); reflexivity.
Defined.

(** ** X15 *)

(** X15: below 45 million the recorded price is a fixed point of the round
    trip.  For a price of magnitude below 45000000, writing back the price
    that was read from the file gives the same file, and reading it gives
    the same price again. *)
Theorem recorded_price_is_stable (symbol : string) (price : float)
    (fs : gmap string string) :
  (abs price <? 45000000)%float = true ->
  let recorded := rounded_to_decimals 8 price in
  read_purchase_price symbol (write_purchase_price symbol price fs) = Ok (Some recorded) /\
  write_purchase_price symbol recorded fs = write_purchase_price symbol price fs /\
  read_purchase_price symbol (write_purchase_price symbol recorded fs) = Ok (Some recorded).
Proof.
  intros Hsmall. cbv zeta.
  destruct (rounded_to_decimals_stable price Hsmall) as [Hfmt Hfix].
  assert (Hread : forall x, read_purchase_price symbol (write_purchase_price symbol x fs)
                            = Ok (Some (rounded_to_decimals 8 x))).
  { intros x. unfold read_purchase_price, write_purchase_price.
    rewrite lookup_insert_eq. now rewrite float_of_format_fixed. }
  split; [apply Hread|]. split.
  - unfold write_purchase_price. now rewrite Hfmt.
  - now rewrite Hread, Hfix.
Qed.

(** The price 0.123456789, recorded as 0.12345679. *)
Lemma recorded_price_is_stable_witness :
  (abs 0.123456789 <? 45000000)%float = true /\
  rounded_to_decimals 8 0.123456789 = 0.12345679%float /\
  read_purchase_price "ETHUSDT" (write_purchase_price "ETHUSDT" 0.12345679 ∅)
  = Ok (Some 0.12345679%float).
Proof.
  split; [reflexivity|]. split; [vm_compute; reflexivity|].
  exact (proj2 (proj2 (recorded_price_is_stable "ETHUSDT" 0.123456789 ∅ eq_refl))).
Defined.

(** ** X16 *)

(** X16: the purchase-price files of different symbols never collide, and
    clearing is safe.  Writing or clearing the purchase price of one symbol
    leaves what is read for every other symbol; clearing a symbol that has
    no file changes nothing and raises nothing; after clearing, the
    purchase price is absent, whether a file existed or not. *)
Theorem purchase_price_files_are_separate (symbol other : string) (price : float)
    (fs : gmap string string) :
  symbol <> other ->
  read_purchase_price other (write_purchase_price symbol price fs)
  = read_purchase_price other fs /\
  read_purchase_price other (clear_purchase_price symbol fs)
  = read_purchase_price other fs /\
  (fs !! purchase_price_file symbol = None -> clear_purchase_price symbol fs = fs) /\
  read_purchase_price symbol (clear_purchase_price symbol fs) = Ok None.
Proof.
  intros Hne.
  destruct (read_purchase_price_other symbol other price fs Hne) as [Hw Hc].
  split; [exact Hw|]. split; [exact Hc|]. split.
  - intros Hnone. rewrite clear_purchase_price_delete. now apply delete_id.
  - rewrite clear_purchase_price_delete. apply read_purchase_price_deleted.
Qed.

(** Buying BTCUSDT at 65000 leaves the purchase price of ETHUSDT. *)
Lemma purchase_price_files_are_separate_witness :
  read_purchase_price "ETHUSDT"
    (write_purchase_price "BTCUSDT" 65000 (files (bought_at 100)))
  = read_purchase_price "ETHUSDT" (files (bought_at 100)).
Proof.
  apply (purchase_price_files_are_separate "BTCUSDT" "ETHUSDT" 65000 (files (bought_at 100))).
  discriminate.
Defined.
